(** * neural_sp: learning-rate controller, training reporter, error-rate
    scorer and dataset index

    A shallow embedding of
      - [neural_sp/bin/train_utils.py]  (classes [Reporter] and [Controller]),
      - [examples/csj/s5/exp/metrics/cer.py]  ([do_eval_cer]),
      - [examples/csj/data/load_dataset.py]  ([Dataset.__init__]),
    and the properties of the specification that concern them.

    Numbers.  Python [int]s are [Z].  Python and NumPy floats are idealised
    as extended reals ([pyfloat]): a finite float is a real number, rounding
    and overflow are not modelled, signed zeros are identified, and the
    three special values [inf], [-inf] and [nan] are kept because the code
    tests for them ([Reporter.add]) and produces them ([np.power(0, -0.5)]).

    Effects.  Methods that mutate [self] are functions from the object to
    the mutated object paired with the outcome of the call; an exception
    leaves the mutations done before it in place, as in Python. *)

From Stdlib Require Import Reals Lra ZArith Lia List String Ascii Bool.
From stdpp Require Import base option list strings gmap sorting.

Local Open Scope Z_scope.

(* ===================================================================== *)
(** ** Floats *)
(* ===================================================================== *)

Inductive pyfloat : Type :=
| Fin (r : R)
| PInf
| NInf
| NaN.

Definition R_ltb (a b : R) : bool := if Rlt_dec a b then true else false.
Definition R_eqb (a b : R) : bool := if Req_dec_T a b then true else false.

(** [float(n)] for a Python int. *)
Definition of_int (n : Z) : pyfloat := Fin (IZR n).

(** [x < y]: every comparison with [nan] is false. *)
Definition flt (x y : pyfloat) : bool :=
  match x, y with
  | NaN, _ | _, NaN => false
  | Fin a, Fin b => R_ltb a b
  | NInf, NInf => false
  | NInf, _ => true
  | PInf, _ => false
  | Fin _, PInf => true
  | Fin _, NInf => false
  end.

(** [x > y]. *)
Definition fgt (x y : pyfloat) : bool := flt y x.

(** [x == y]. *)
Definition feq (x y : pyfloat) : bool :=
  match x, y with
  | Fin a, Fin b => R_eqb a b
  | PInf, PInf | NInf, NInf => true
  | _, _ => false
  end.

Definition fneg (x : pyfloat) : pyfloat :=
  match x with
  | Fin a => Fin (- a)
  | PInf => NInf
  | NInf => PInf
  | NaN => NaN
  end.

Definition fadd (x y : pyfloat) : pyfloat :=
  match x, y with
  | NaN, _ | _, NaN => NaN
  | Fin a, Fin b => Fin (a + b)
  | PInf, NInf | NInf, PInf => NaN
  | PInf, _ | _, PInf => PInf
  | NInf, _ | _, NInf => NInf
  end.

Definition fsub (x y : pyfloat) : pyfloat := fadd x (fneg y).

(** The product of the finite [a] with [inf] ([pos = true]) or [-inf]. *)
Definition scale_inf (a : R) (pos : bool) : pyfloat :=
  if R_ltb 0 a then (if pos then PInf else NInf)
  else if R_ltb a 0 then (if pos then NInf else PInf)
  else NaN.

Definition fmul (x y : pyfloat) : pyfloat :=
  match x, y with
  | NaN, _ | _, NaN => NaN
  | Fin a, Fin b => Fin (a * b)
  | Fin a, PInf | PInf, Fin a => scale_inf a true
  | Fin a, NInf | NInf, Fin a => scale_inf a false
  | PInf, PInf | NInf, NInf => PInf
  | PInf, NInf | NInf, PInf => NInf
  end.

(** IEEE division, as NumPy scalars do it: dividing by zero gives an
    infinity or [nan], never an exception. *)
Definition fdiv_ieee (x y : pyfloat) : pyfloat :=
  match x, y with
  | NaN, _ | _, NaN => NaN
  | Fin a, Fin b =>
      if R_eqb b 0 then scale_inf a true else Fin (a / b)
  | Fin _, PInf | Fin _, NInf => Fin 0
  | PInf, Fin b => if R_ltb b 0 then NInf else PInf
  | NInf, Fin b => if R_ltb b 0 then PInf else NInf
  | PInf, PInf | PInf, NInf | NInf, PInf | NInf, NInf => NaN
  end.

(** [np.min([x, y])]: [nan] propagates. *)
Definition np_min2 (x y : pyfloat) : pyfloat :=
  match x, y with
  | NaN, _ | _, NaN => NaN
  | _, _ => if flt y x then y else x
  end.

(** [np.power(x, y)] for a finite base [x] and one of the two exponents the
    program uses, [-0.5] and [-1.5] (negative and not integers): a positive
    base gives the real power, a zero base gives [inf] (NumPy only warns),
    a negative base gives [nan]. *)
Definition np_power (x y : R) : pyfloat :=
  if R_ltb 0 x then Fin (Rpower x y)
  else if R_eqb x 0 then PInf
  else NaN.

(** [np.mean(l)]: the sum over the count; [nan] for the empty list. *)
Definition np_sum (l : list pyfloat) : pyfloat := fold_left fadd l (Fin 0).
Definition np_mean (l : list pyfloat) : pyfloat :=
  fdiv_ieee (np_sum l) (Fin (INR (length l))).

(** [v == float("inf") or v == -float("inf")]. *)
Definition is_inf (v : pyfloat) : bool := feq v PInf || feq v (fneg PInf).

(* ===================================================================== *)
(** ** Exceptions *)
(* ===================================================================== *)

Inductive exn : Type :=
| KeyError (key : string)
| ValueError
| ZeroDivisionError
| AssertionError
| UnboundLocalError (var : string)
| ExternalError (origin : string).

Inductive result (A : Type) : Type :=
| Ok (a : A)
| Raise (e : exn).
Arguments Ok {A} a.
Arguments Raise {A} e.

#[global] Instance result_ret : MRet result := fun A a => Ok a.
#[global] Instance result_bind : MBind result := fun A B k r =>
  match r with
  | Ok a => k a
  | Raise e => Raise e
  end.
#[global] Instance result_fmap : FMap result := fun A B f r =>
  match r with
  | Ok a => Ok (f a)
  | Raise e => Raise e
  end.

(** Python's true division of a float by a number: a zero divisor raises. *)
Definition py_truediv (x y : pyfloat) : result pyfloat :=
  if feq y (Fin 0) then Raise ZeroDivisionError else Ok (fdiv_ieee x y).

(* ===================================================================== *)
(** ** Strings *)
(* ===================================================================== *)

(** [s.split(sep)] for a one-character separator: one more piece than there
    are separators, empty pieces included. *)
Fixpoint split_on (sep : ascii) (s : string) : list string :=
  match s with
  | EmptyString => [EmptyString]
  | String c rest =>
      if Ascii.eqb c sep then EmptyString :: split_on sep rest
      else match split_on sep rest with
           | [] => [String c EmptyString]
           | w :: ws => String c w :: ws
           end
  end.

(** [category, name = k.split('.')]: unpacking needs exactly two pieces. *)
Definition unpack2 (l : list string) : result (string * string) :=
  match l with
  | [a; b] => Ok (a, b)
  | _ => Raise ValueError
  end.

(** [d[k]] on a dict. *)
Definition getitem {V} (d : gmap string V) (k : string) : result V :=
  match d !! k with
  | Some v => Ok v
  | None => Raise (KeyError k)
  end.

(* ===================================================================== *)
(** ** Reporter  (train_utils.py) *)
(* ===================================================================== *)

Module Reporter.

(** What reaches the module-level [logger]. *)
Inductive log_record : Type :=
| LogWarning (msg : string)
| LogInfo (prefix : string) (v : pyfloat).

(** One [tf_writer.add_scalar(tag, value, step)] call. *)
Record scalar_event := { tag : string; scalar : pyfloat; at_step : Z }.

Record t := {
  save_path : string;
  tensorboard : bool;
  tf_writer : list scalar_event;
  _step : Z;
  obs_train : gmap string (gmap string (list pyfloat));
  obs_train_local : gmap string (gmap string (list pyfloat));
  obs_dev : gmap string (gmap string (list pyfloat));
  steps : list Z;
  logged : list log_record   (* output of [logger], oldest first *)
}.

(** [{'loss': {}, 'acc': {}, 'ppl': {}}] *)
Definition empty_obs : gmap string (gmap string (list pyfloat)) :=
  <["loss" := ∅]> (<["acc" := ∅]> (<["ppl" := ∅]> ∅)).

Definition __init__ (save_path : string) (tensorboard : bool) : t :=
  {| save_path := save_path; tensorboard := tensorboard; tf_writer := [];
     _step := 0; obs_train := empty_obs; obs_train_local := empty_obs;
     obs_dev := empty_obs; steps := []; logged := [] |}.

Definition with_obs_train (f : gmap string (gmap string (list pyfloat)) ->
                              gmap string (gmap string (list pyfloat))) (r : t) : t :=
  {| save_path := save_path r; tensorboard := tensorboard r;
     tf_writer := tf_writer r; _step := _step r;
     obs_train := f (obs_train r); obs_train_local := obs_train_local r;
     obs_dev := obs_dev r; steps := steps r; logged := logged r |}.

Definition with_obs_train_local (f : gmap string (gmap string (list pyfloat)) ->
                                    gmap string (gmap string (list pyfloat))) (r : t) : t :=
  {| save_path := save_path r; tensorboard := tensorboard r;
     tf_writer := tf_writer r; _step := _step r;
     obs_train := obs_train r; obs_train_local := f (obs_train_local r);
     obs_dev := obs_dev r; steps := steps r; logged := logged r |}.

Definition with_obs_dev (f : gmap string (gmap string (list pyfloat)) ->
                            gmap string (gmap string (list pyfloat))) (r : t) : t :=
  {| save_path := save_path r; tensorboard := tensorboard r;
     tf_writer := tf_writer r; _step := _step r;
     obs_train := obs_train r; obs_train_local := obs_train_local r;
     obs_dev := f (obs_dev r); steps := steps r; logged := logged r |}.

Definition with_logged (f : list log_record -> list log_record) (r : t) : t :=
  {| save_path := save_path r; tensorboard := tensorboard r;
     tf_writer := tf_writer r; _step := _step r;
     obs_train := obs_train r; obs_train_local := obs_train_local r;
     obs_dev := obs_dev r; steps := steps r; logged := f (logged r) |}.

Definition with_tf_writer (f : list scalar_event -> list scalar_event) (r : t) : t :=
  {| save_path := save_path r; tensorboard := tensorboard r;
     tf_writer := f (tf_writer r); _step := _step r;
     obs_train := obs_train r; obs_train_local := obs_train_local r;
     obs_dev := obs_dev r; steps := steps r; logged := logged r |}.

(** *** Methods: state passing with exceptions *)

Definition M (A : Type) : Type := t -> t * result A.

Definition ret {A} (a : A) : M A := fun r => (r, Ok a).
Definition bind {A B} (m : M A) (k : A -> M B) : M B :=
  fun r => match m r with
           | (r', Ok a) => k a r'
           | (r', Raise e) => (r', Raise e)
           end.
Definition lift {A} (x : result A) : M A := fun r => (r, x).
Definition get {A} (f : t -> A) : M A := fun r => (r, Ok (f r)).
Definition modify (f : t -> t) : M unit := fun r => (f r, Ok tt).
Definition when (b : bool) (m : M unit) : M unit := if b then m else ret tt.

Notation "'do' x <- m ; k" := (bind m (fun x => k))
  (at level 10, x name, m at level 100, k at level 200).
Notation "'do' ' ( x , y ) <- m ; k" := (bind m (fun '(x, y) => k))
  (at level 10, x name, y name, m at level 100, k at level 200).
Notation "m ;; k" := (bind m (fun _ => k))
  (at level 100, k at level 200, right associativity).

(** [if name not in obs[category].keys(): obs[category][name] = []] *)
Definition ensure_list (obs : gmap string (gmap string (list pyfloat)))
    (category name : string) : result (gmap string (gmap string (list pyfloat))) :=
  d ← getitem obs category;
  match d !! name with
  | Some _ => Ok obs
  | None => Ok (<[category := <[name := []]> d]> obs)
  end.

(** [obs[category][name].append(v)] *)
Definition append_obs (obs : gmap string (gmap string (list pyfloat)))
    (category name : string) (v : pyfloat)
    : result (gmap string (gmap string (list pyfloat))) :=
  d ← getitem obs category;
  l ← getitem d name;
  Ok (<[category := <[name := l ++ [v]]> d]> obs).

(** [np.mean(self.obs_train_local[category][name])] *)
Definition local_mean (r : t) (category name : string) : result pyfloat :=
  d ← getitem (obs_train_local r) category;
  l ← getitem d name;
  Ok (np_mean l).

Definition logger_warning (msg : string) : M unit :=
  modify (with_logged (fun l => l ++ [LogWarning msg])).
Definition logger_info (prefix : string) (v : pyfloat) : M unit :=
  modify (with_logged (fun l => l ++ [LogInfo prefix v])).

(** The body of the loop of [add] for one item [(k, v)] of the
    observation. *)
Definition add_item (k : string) (v : option pyfloat) (is_eval : bool) : M unit :=
  match v with
  | None => ret tt                                              (* continue *)
  | Some v =>
    do '(category, name) <- lift (unpack2 (split_on "." k));
    when (is_inf v)
      (logger_warning ("WARNING: received an inf loss for " +:+ k +:+ ".")) ;;
    if negb is_eval then
      do o <- get obs_train_local;
      do o1 <- lift (ensure_list o category name);
      modify (with_obs_train_local (fun _ => o1)) ;;
      do o2 <- lift (append_obs o1 category name v);
      modify (with_obs_train_local (fun _ => o2))
    else
      (* average for training *)
      do o <- get obs_train;
      do o1 <- lift (ensure_list o category name);
      modify (with_obs_train (fun _ => o1)) ;;
      do r <- get (fun r => r);
      do m <- lift (local_mean r category name);
      do o2 <- lift (append_obs o1 category name m);
      modify (with_obs_train (fun _ => o2)) ;;
      do m' <- lift (local_mean r category name);
      logger_info (k +:+ " (train, mean): ") m' ;;
      do d <- get obs_dev;
      do d1 <- lift (ensure_list d category name);
      modify (with_obs_dev (fun _ => d1)) ;;
      do d2 <- lift (append_obs d1 category name v);
      modify (with_obs_dev (fun _ => d2)) ;;
      logger_info (k +:+ " (dev): ") v ;;
      (* logging by tensorboard; [not is_eval] is false on this path *)
      do tb <- get tensorboard;
      do st <- get _step;
      when tb
        (modify (with_tf_writer (fun w => w ++
           [{| tag := "dev/" +:+ category +:+ "/" +:+ name;
               scalar := v; at_step := st |}])))
  end.

(** [add(observation, is_eval)]: [observation.items()] in dict order. *)
Fixpoint add (observation : list (string * option pyfloat)) (is_eval : bool)
    : M unit :=
  match observation with
  | [] => ret tt
  | (k, v) :: rest => add_item k v is_eval ;; add rest is_eval
  end.

(** [step(is_eval)] *)
Definition step (is_eval : bool) (r : t) : t :=
  let s := _step r + 1 in
  {| save_path := save_path r; tensorboard := tensorboard r;
     tf_writer := tf_writer r; _step := s;
     obs_train := obs_train r;
     obs_train_local := if is_eval then empty_obs else obs_train_local r;
     obs_dev := obs_dev r;
     steps := if is_eval then steps r ++ [s] else steps r;
     logged := logged r |}.

End Reporter.

(* ===================================================================== *)
(** ** The optimizer, as far as the controller touches it *)
(* ===================================================================== *)

(** Values held in a parameter group ([lr], [eps], [momentum], [params],
    ...); only floats are ever written by this program. *)
Inductive pyval : Type :=
| PyFloat (x : pyfloat)
| PyInt (n : Z)
| PyBool (b : bool)
| PyObject (id : nat).

Inductive optimizer_class : Type :=
| Adadelta
| OtherOptimizer (name : string).

Record Optimizer := {
  class_of : optimizer_class;
  param_groups : list (gmap string pyval)
}.

(** [isinstance(optimizer, torch.optim.Adadelta)] *)
Definition isinstance_Adadelta (optimizer : Optimizer) : bool :=
  match class_of optimizer with
  | Adadelta => true
  | OtherOptimizer _ => false
  end.

(** [for param_group in optimizer.param_groups: body(param_group)] where the
    body assigns to one key of the group. *)
Definition for_param_groups (body : gmap string pyval -> gmap string pyval)
    (optimizer : Optimizer) : Optimizer :=
  {| class_of := class_of optimizer;
     param_groups := map body (param_groups optimizer) |}.

(* ===================================================================== *)
(** ** Controller  (train_utils.py) *)
(* ===================================================================== *)

Module Controller.

Record t := {
  lr_max : pyfloat;
  decay_type : string;
  decay_start_epoch : Z;
  decay_rate : pyfloat;
  decay_patient_epoch : Z;
  not_improved_epoch : Z;
  lower_better : bool;
  best_value : pyfloat;
  lr_init : pyfloat;
  warmup_start_lr : pyfloat;
  warmup_nsteps : Z
}.

(** The defaults of the keyword arguments of [__init__]. *)
Definition default_decay_patient_epoch : Z := 1.
Definition default_lower_better : bool := true.
Definition default_best_value : pyfloat := Fin 10000.
Definition default_model_size : Z := 1.
Definition default_warmup_start_learning_rate : pyfloat := Fin 0.
Definition default_warmup_nsteps : Z := 4000.
Definition default_factor : pyfloat := Fin 1.

Definition __init__ (learning_rate : pyfloat) (decay_type : string)
    (decay_start_epoch : Z) (decay_rate : pyfloat)
    (decay_patient_epoch : Z) (lower_better : bool) (best_value : pyfloat)
    (model_size : Z) (warmup_start_learning_rate : pyfloat)
    (warmup_nsteps : Z) (factor : pyfloat) : result t :=
  let lr_init :=
    (* for warmup *)
    if 0 <? warmup_nsteps then
      if fgt warmup_start_learning_rate (Fin 0) then warmup_start_learning_rate
      else fmul factor (np_power (IZR model_size) (- (1 / 2)))
    else learning_rate in
  if String.eqb decay_type "warmup" && negb (0 <? warmup_nsteps)
  then Raise AssertionError
  else Ok {| lr_max := learning_rate;
             decay_type := decay_type;
             decay_start_epoch := decay_start_epoch;
             decay_rate := decay_rate;
             decay_patient_epoch := decay_patient_epoch;
             not_improved_epoch := 0;
             lower_better := lower_better;
             best_value := best_value;
             lr_init := lr_init;
             warmup_start_lr := warmup_start_learning_rate;
             warmup_nsteps := warmup_nsteps |}.

(** [self.best_value = b; self.not_improved_epoch = n] *)
Definition set_tracking (b : pyfloat) (n : Z) (self : t) : t :=
  {| lr_max := lr_max self; decay_type := decay_type self;
     decay_start_epoch := decay_start_epoch self;
     decay_rate := decay_rate self;
     decay_patient_epoch := decay_patient_epoch self;
     not_improved_epoch := n;
     lower_better := lower_better self;
     best_value := b;
     lr_init := lr_init self; warmup_start_lr := warmup_start_lr self;
     warmup_nsteps := warmup_nsteps self |}.

(** The "Update optimizer" loop of [decay_lr]. *)
Definition update_optimizer (optimizer : Optimizer) (lr : pyfloat) : Optimizer :=
  for_param_groups
    (fun param_group =>
       if isinstance_Adadelta optimizer
       then <["eps" := PyFloat lr]> param_group
       else <["lr" := PyFloat lr]> param_group)
    optimizer.

(** [decay_lr(optimizer, lr, epoch, value)]: the mutated controller, and the
    returned pair [(optimizer, lr)]. *)
Definition decay_lr (self : t) (optimizer : Optimizer) (lr : pyfloat)
    (epoch : Z) (value : pyfloat) : t * (Optimizer * pyfloat) :=
  let value := if negb (lower_better self) then fmul value (of_int (-1))
               else value in
  if epoch <? decay_start_epoch self then
    if String.eqb (decay_type self) "metric" then
      if flt value (best_value self) then
        (* Update the best value; the learning rate is not updated here *)
        (set_tracking value (not_improved_epoch self) self, (optimizer, lr))
      else (self, (optimizer, lr))
    else (self, (optimizer, lr))
  else
    if String.eqb (decay_type self) "metric" then
      if flt value (best_value self) then
        (* Improved *)
        (set_tracking value 0 self, (optimizer, lr))
      else if not_improved_epoch self <? decay_patient_epoch self then
        (* Not improved, but learning rate will be not decayed *)
        (set_tracking (best_value self) (not_improved_epoch self + 1) self,
         (optimizer, lr))
      else
        (* Not improved, and learning rate will be decayed *)
        let lr := fmul lr (decay_rate self) in
        (set_tracking (best_value self) 0 self,
         (update_optimizer optimizer lr, lr))
    else if String.eqb (decay_type self) "epoch" then
      let lr := fmul lr (decay_rate self) in
      (self, (update_optimizer optimizer lr, lr))
    else (self, (optimizer, lr)).

(** [warmup_lr(optimizer, lr, step)]: the returned pair [(optimizer, lr)];
    the controller itself is not mutated.  The incoming [lr] is overwritten
    before it is read. *)
Definition warmup_lr (self : t) (optimizer : Optimizer) (lr : pyfloat)
    (step : Z) : result (Optimizer * pyfloat) :=
  lr ← (if fgt (warmup_start_lr self) (Fin 0) then
          (* linearly increase *)
          q ← py_truediv (fsub (lr_max self) (warmup_start_lr self))
                         (of_int (warmup_nsteps self));
          Ok (fadd (fmul q (of_int step)) (lr_init self))
        else
          (* based on the original transformer paper *)
          Ok (fmul (lr_init self)
                (np_min2 (np_power (IZR step) (- (1 / 2)))
                         (fmul (of_int step)
                               (np_power (IZR (warmup_nsteps self))
                                         (- (3 / 2)))))));
  Ok (for_param_groups (fun param_group => <["lr" := PyFloat lr]> param_group)
        optimizer, lr).

(** A training loop that calls [decay_lr] once per entry [(epoch, value)],
    feeding each call the optimizer and the rate the previous one
    returned. *)
Fixpoint decay_loop (self : t) (optimizer : Optimizer) (lr : pyfloat)
    (calls : list (Z * pyfloat)) : t * (Optimizer * pyfloat) :=
  match calls with
  | [] => (self, (optimizer, lr))
  | (epoch, value) :: rest =>
      let '(self', (optimizer', lr')) := decay_lr self optimizer lr epoch value in
      decay_loop self' optimizer' lr' rest
  end.

End Controller.

(* ===================================================================== *)
(** ** Error-rate scorer  (cer.py) *)
(* ===================================================================== *)

(** [re.sub(r'[@>]+', '', s)]: every [@] and [>] is deleted. *)
Fixpoint remove_garbage (s : string) : string :=
  match s with
  | EmptyString => EmptyString
  | String c rest =>
      if Ascii.eqb c "@" || Ascii.eqb c ">" then remove_garbage rest
      else String c (remove_garbage rest)
  end.

(** [re.sub(r'[_]+', '_', s)]: a run of [_] becomes a single [_]. *)
Fixpoint squeeze_spaces (s : string) : string :=
  match s with
  | EmptyString => EmptyString
  | String c rest =>
      if Ascii.eqb c "_" then
        match rest with
        | String c' _ =>
            if Ascii.eqb c' "_" then squeeze_spaces rest
            else String c (squeeze_spaces rest)
        | EmptyString => String c EmptyString
        end
      else String c (squeeze_spaces rest)
  end.

(** [s.replace('_', '')] *)
Fixpoint remove_spaces (s : string) : string :=
  match s with
  | EmptyString => EmptyString
  | String c rest =>
      if Ascii.eqb c "_" then remove_spaces rest
      else String c (remove_spaces rest)
  end.

(** [list(s)]: the one-character strings of [s]. *)
Fixpoint chars (s : string) : list string :=
  match s with
  | EmptyString => []
  | String c rest => String c EmptyString :: chars rest
  end.

(** [x in l] for a list of strings. *)
Definition str_in (x : string) (l : list string) : bool :=
  existsb (String.eqb x) l.

(** [sub in s]: [sub] occurs in [s] as a substring. *)
Fixpoint contains (sub s : string) : bool :=
  String.prefix sub s ||
  match s with
  | EmptyString => false
  | String _ rest => contains sub rest
  end.

Module Cer.

(** The running totals of [do_eval_cer] (lines 46-49), all Python ints:
    with [normalize=False] the scorer returns edit counts. *)
Record tally := {
  cer : Z; wer : Z;
  sub_char : Z; ins_char : Z; del_char : Z;
  sub_word : Z; ins_word : Z; del_word : Z;
  num_words : Z; num_chars : Z
}.

Definition zero_tally : tally :=
  {| cer := 0; wer := 0; sub_char := 0; ins_char := 0; del_char := 0;
     sub_word := 0; ins_word := 0; del_word := 0;
     num_words := 0; num_chars := 0 |}.

(** What [do_eval_cer] reads of its arguments: the [model_type] of each
    model, and the label types of the dataset. *)
Record setting := {
  model_types : list string;
  label_type : string;
  label_type_sub : string
}.

(** The returned triple; [df_wer_cer] has the rows [CER] and [WER] and the
    columns [SUB], [INS], [DEL]. *)
Record rates := {
  cer_rate : pyfloat;
  wer_rate : pyfloat;
  df_wer_cer : list (string * (pyfloat * pyfloat * pyfloat))
}.

Section Scorer.

(** [utils.evaluation.edit_distance.compute_wer(ref, hyp, normalize=False)],
    which is not part of the sources at hand: it returns
    [(edit_count, substitutions, insertions, deletions)] or raises. *)
Variable compute_wer : list string -> list string -> result (Z * Z * Z * Z).

(** [task_index] as the decoding step sets it, and the model whose
    [model_type] the hypothesis clean-up reads. *)
Definition task_index (s : setting) : result Z :=
  match model_types s with
  | [] => Raise (ExternalError "IndexError")                  (* models[0] *)
  | [m] => Ok (if str_in m ["ctc"; "attention"] then 0 else 1)
  | m :: _ => if str_in m ["ctc"] then Ok 0 else Raise AssertionError
  end.

(** [dataset.label_type == 'kanji_wb' or
     (task_index > 0 and dataset.label_type_sub == 'kanji_wb')] *)
Definition scores_words (s : setting) (task_index : Z) : bool :=
  String.eqb (label_type s) "kanji_wb"
  || ((0 <? task_index) && String.eqb (label_type_sub s) "kanji_wb").

(** The body of the loop over the utterances of a batch, from the decoded
    reference and hypothesis strings on. *)
Definition score_utterance (attention words : bool) (t : tally)
    (u : string * string) : tally :=
  let str_ref := fst u in
  let str_hyp := snd u in
  (* truncate by the first <EOS> *)
  let str_hyp := if attention then hd EmptyString (split_on ">" str_hyp)
                 else str_hyp in
  (* remove garbage labels *)
  let str_ref := remove_garbage str_ref in
  let str_hyp := remove_garbage str_hyp in
  (* remove consecutive spaces *)
  let str_ref := squeeze_spaces str_ref in
  let str_hyp := squeeze_spaces str_hyp in
  let t :=
    if words then
      (* compute WER *)
      match compute_wer (split_on "_" str_ref) (split_on "_" str_hyp) with
      | Ok (wer_b, sub_b, ins_b, del_b) =>
          {| cer := cer t; wer := wer t + wer_b;
             sub_char := sub_char t; ins_char := ins_char t;
             del_char := del_char t;
             sub_word := sub_word t + sub_b; ins_word := ins_word t + ins_b;
             del_word := del_word t + del_b;
             num_words := num_words t
                          + Z.of_nat (length (split_on "_" str_ref));
             num_chars := num_chars t |}
      | Raise _ => t                                         (* except: pass *)
      end
    else t in
  (* compute CER *)
  match compute_wer (chars (remove_spaces str_ref))
                    (chars (remove_spaces str_hyp)) with
  | Ok (cer_b, sub_b, ins_b, del_b) =>
      {| cer := cer t + cer_b; wer := wer t;
         sub_char := sub_char t + sub_b; ins_char := ins_char t + ins_b;
         del_char := del_char t + del_b;
         sub_word := sub_word t; ins_word := ins_word t;
         del_word := del_word t;
         num_words := num_words t;
         num_chars := num_chars t
                      + Z.of_nat (String.length (remove_spaces str_ref)) |}
  | Raise _ => t                                             (* except: pass *)
  end.

(** Lines 167-186: the totals are turned into rates. *)
Definition finish (words : bool) (t : tally) : result rates :=
  '(wer, sub_word, ins_word, del_word) ←
    (if words then
       w ← py_truediv (of_int (wer t)) (of_int (num_words t));
       s ← py_truediv (of_int (sub_word t)) (of_int (num_words t));
       i ← py_truediv (of_int (ins_word t)) (of_int (num_words t));
       d ← py_truediv (of_int (del_word t)) (of_int (num_words t));
       Ok (w, s, i, d)
     else Ok (of_int 0, of_int 0, of_int 0, of_int 0));
  cer ← py_truediv (of_int (cer t)) (of_int (num_chars t));
  sub_char ← py_truediv (of_int (sub_char t)) (of_int (num_chars t));
  ins_char ← py_truediv (of_int (ins_char t)) (of_int (num_chars t));
  del_char ← py_truediv (of_int (del_char t)) (of_int (num_chars t));
  Ok {| cer_rate := cer; wer_rate := wer;
        df_wer_cer :=
          [("CER", (fmul sub_char (of_int 100), fmul ins_char (of_int 100),
                    fmul del_char (of_int 100)));
           ("WER", (fmul sub_word (of_int 100), fmul ins_word (of_int 100),
                    fmul del_word (of_int 100)))] |}.

(** The totals of a whole pass: [utterances] are the decoded
    (reference, hypothesis) pairs of all batches up to the one that signals
    the new epoch, in order. *)
Definition accumulate (s : setting) (task_index : Z)
    (utterances : list (string * string)) : tally :=
  let attention :=
    match last (model_types s) with
    | Some m => contains "attention" m
    | None => false
    end in
  fold_left (score_utterance attention (scores_words s task_index))
            utterances zero_tally.

Definition do_eval_cer (s : setting) (utterances : list (string * string))
    : result rates :=
  ti ← task_index s;
  finish (scores_words s ti) (accumulate s ti utterances).

End Scorer.

End Cer.

(* ===================================================================== *)
(** ** Dataset index  (load_dataset.py) *)
(* ===================================================================== *)

(** [os.path.join] on POSIX paths. *)
Definition ends_with_sep (s : string) : bool :=
  match last (list_ascii_of_string s) with
  | Some c => Ascii.eqb c "/"
  | None => false
  end.

Definition join2 (path b : string) : string :=
  if String.prefix "/" b then b
  else if String.eqb path "" || ends_with_sep path then path +:+ b
  else path +:+ "/" +:+ b.

Definition join (a : string) (p : list string) : string := fold_left join2 p a.

Module Dataset.

(** The attributes [__init__] assigns from its arguments (lines 59-78);
    all of them are set on [self] before [len(self)] is called. *)
Record attrs := {
  s_is_test : bool;
  s_model_type : string;
  s_data_type : string;
  s_data_size : string;
  s_label_type : string;
  s_batch_size : Z;
  s_max_epoch : option Z;
  s_splice : Z;
  s_num_stack : Z;
  s_num_skip : Z;
  s_shuffle : bool;
  s_sort_utt : bool;
  s_sort_stop_epoch : option Z;
  s_num_gpus : Z;
  s_use_cuda : bool;
  s_volatile : bool;
  s_save_format : string
}.

(** The collaborators of the constructor that live outside the sources at
    hand: the base class, the label codecs and pandas.  Each may raise. *)
Class Collaborators := {
  Base : Type;
  MapFn : Type;
  DataFrame : Type;
  (** [super(Dataset, self).__init__(vocab_file_path=vocab_file_path)] *)
  DatasetBase_init : string -> result Base;
  Word2idx : string -> result MapFn;
  (** [Char2idx(vocab_file_path, double_letter=...)] *)
  Char2idx : string -> bool -> result MapFn;
  (** [pd.read_csv(path)] *)
  read_csv : string -> result DataFrame;
  (** [df.loc[:, columns]] *)
  loc_columns : DataFrame -> list string -> result DataFrame;
  (** [df.sort_values(by=..., ascending=...)] *)
  sort_values : DataFrame -> string -> bool -> result DataFrame;
  (** [len(self)]: [__len__] is the base class's and may read whatever
      [self] holds at that point, that is the part set by the base
      constructor, the attributes assigned from the arguments,
      [self.map_fn] and [self.df] *)
  len_self : Base -> attrs -> MapFn -> DataFrame -> result Z;
  (** [pd.DataFrame([0] * n, columns=['index'])] *)
  zeros_frame : Z -> list string -> result DataFrame;
  (** [pd.concat([a, b], axis=1)] *)
  concat_axis1 : DataFrame -> DataFrame -> result DataFrame;
  (** [len(df)] *)
  len_df : DataFrame -> Z
}.

(** The arguments of [__init__]. *)
Record args := {
  a_model_type : string;
  a_data_type : string;
  a_data_size : string;
  a_label_type : string;
  a_batch_size : Z;
  a_vocab_file_path : string;
  a_max_epoch : option Z;
  a_splice : Z;
  a_num_stack : Z;
  a_num_skip : Z;
  a_shuffle : bool;
  a_sort_utt : bool;
  a_reverse : bool;
  a_sort_stop_epoch : option Z;
  a_num_gpus : Z;
  a_use_cuda : bool;
  a_volatile : bool;
  a_save_format : string
}.

Section Init.
Context `{C : Collaborators}.

Record t := {
  base : Base;
  is_test : bool;
  model_type : string;
  data_type : string;
  data_size : string;
  label_type : string;
  batch_size : Z;
  max_epoch : option Z;
  splice : Z;
  num_stack : Z;
  num_skip : Z;
  shuffle : bool;
  sort_utt : bool;
  sort_stop_epoch : option Z;
  num_gpus : Z;
  use_cuda : bool;
  volatile : bool;
  save_format : string;
  map_fn : MapFn;
  df : DataFrame;
  rest : gset Z
}.

(** The manifest chosen by the [if]/[elif] chain on [label_type]; no branch
    binds [dataset_path] when none of the four words occurs. *)
Definition dataset_path (a : args) : result string :=
  let dir file := join "/n/sd8/inaguma/corpus/csj/dataset"
                    [a_save_format a; a_data_size a; a_data_type a; file] in
  if contains "kana" (a_label_type a) then Ok (dir "dataset_kana.csv")
  else if contains "kanji" (a_label_type a) || contains "word" (a_label_type a)
  then Ok (dir "dataset_kanji.csv")
  else if contains "phone" (a_label_type a) then Ok (dir "dataset_phone.csv")
  else Raise (UnboundLocalError "dataset_path").

(** The attributes assigned from the arguments [a]. *)
Definition stored (a : args) : attrs :=
  {| s_is_test := str_in (a_data_type a) ["eval1"; "eval2"; "eval3"];
     s_model_type := a_model_type a;
     s_data_type := a_data_type a;
     s_data_size := a_data_size a;
     s_label_type := a_label_type a;
     s_batch_size := a_batch_size a * a_num_gpus a;
     s_max_epoch := a_max_epoch a;
     s_splice := a_splice a;
     s_num_stack := a_num_stack a;
     s_num_skip := a_num_skip a;
     s_shuffle := a_shuffle a;
     s_sort_utt := a_sort_utt a;
     s_sort_stop_epoch := a_sort_stop_epoch a;
     s_num_gpus := a_num_gpus a;
     s_use_cuda := a_use_cuda a;
     s_volatile := a_volatile a;
     s_save_format := a_save_format a |}.

Definition __init__ (a : args) : result t :=
  b ← DatasetBase_init (a_vocab_file_path a);
  let is_test := str_in (a_data_type a) ["eval1"; "eval2"; "eval3"] in
  (* set mapping function *)
  let path := dataset_path a in
  map_fn ← (if contains "word" (a_label_type a)
            then Word2idx (a_vocab_file_path a)
            else Char2idx (a_vocab_file_path a) true);
  (* load dataset file *)
  path ← path;
  df ← read_csv path;
  df ← loc_columns df ["frame_num"; "input_path"; "transcript"];
  (* sort paths to input & label *)
  df ← (if a_sort_utt a
        then sort_values df "frame_num" (negb (a_reverse a))
        else sort_values df "input_path" true);
  n ← len_self b (stored a) map_fn df;
  new_df ← zeros_frame n ["index"];
  df ← concat_axis1 df new_df;
  Ok {| base := b;
        is_test := is_test;
        model_type := a_model_type a;
        data_type := a_data_type a;
        data_size := a_data_size a;
        label_type := a_label_type a;
        batch_size := a_batch_size a * a_num_gpus a;
        max_epoch := a_max_epoch a;
        splice := a_splice a;
        num_stack := a_num_stack a;
        num_skip := a_num_skip a;
        shuffle := a_shuffle a;
        sort_utt := a_sort_utt a;
        sort_stop_epoch := a_sort_stop_epoch a;
        num_gpus := a_num_gpus a;
        use_cuda := a_use_cuda a;
        volatile := a_volatile a;
        save_format := a_save_format a;
        map_fn := map_fn;
        df := df;
        rest := list_to_set (seqZ 0 (len_df df)) |}.

End Init.

(** Collaborators that all succeed, over a frame that is a list of
    (frame_num, input_path, transcript) rows. *)
Definition plain_collaborators : Collaborators :=
  {| Base := unit;
     MapFn := string;
     DataFrame := list (Z * string * string);
     DatasetBase_init := fun _ => Ok tt;
     Word2idx := fun vocab => Ok vocab;
     Char2idx := fun vocab _ => Ok vocab;
     read_csv := fun _ => Ok [(120, "a.npy", "ab"); (80, "b.npy", "c")];
     loc_columns := fun df _ => Ok df;
     sort_values := fun df _ _ => Ok df;
     len_self := fun _ _ _ df => Ok (Z.of_nat (length df));
     zeros_frame := fun _ _ => Ok [];
     concat_axis1 := fun df _ => Ok df;
     len_df := fun df => Z.of_nat (length df) |}.

(** Rows in the order of [le], by insertion. *)
Fixpoint insert_row {A : Type} (le : A -> A -> bool) (x : A) (l : list A)
    : list A :=
  match l with
  | [] => [x]
  | y :: l' => if le x y then x :: l else y :: insert_row le x l'
  end.

Definition sort_rows {A : Type} (le : A -> A -> bool) (l : list A) : list A :=
  foldr (insert_row le) [] l.

(** As [plain_collaborators], with a [sort_values] that sorts: by the
    frame count or by the input path, in the direction asked for. *)
Definition sorting_collaborators : Collaborators :=
  {| Base := unit;
     MapFn := string;
     DataFrame := list (Z * string * string);
     DatasetBase_init := fun _ => Ok tt;
     Word2idx := fun vocab => Ok vocab;
     Char2idx := fun vocab _ => Ok vocab;
     read_csv := fun _ => Ok [(120, "a.npy", "ab"); (80, "b.npy", "c")];
     loc_columns := fun df _ => Ok df;
     sort_values := fun df by_ ascending =>
       let le (x y : Z * string * string) :=
         if String.eqb by_ "frame_num" then x.1.1 <=? y.1.1
         else String.leb x.1.2 y.1.2 in
       Ok (sort_rows (fun x y => if ascending then le x y else le y x) df);
     len_self := fun _ _ _ df => Ok (Z.of_nat (length df));
     zeros_frame := fun _ _ => Ok [];
     concat_axis1 := fun df _ => Ok df;
     len_df := fun df => Z.of_nat (length df) |}.

(** A training set request with both [shuffle] and [sort_utt] set. *)
Definition shuffle_and_sort : args :=
  {| a_model_type := "attention"; a_data_type := "train";
     a_data_size := "subset"; a_label_type := "kanji";
     a_batch_size := 32; a_vocab_file_path := "vocab.txt";
     a_max_epoch := None; a_splice := 1; a_num_stack := 1; a_num_skip := 1;
     a_shuffle := true; a_sort_utt := true; a_reverse := false;
     a_sort_stop_epoch := None; a_num_gpus := 1; a_use_cuda := false;
     a_volatile := false; a_save_format := "numpy" |}.

End Dataset.

(* ===================================================================== *)
(** ** Configuration files  (train_utils.py) *)
(* ===================================================================== *)

Module Config.

Section Yaml.

(** The values found under the keys of a [param] mapping, and the YAML
    library, are outside the sources at hand. *)
Variable Value : Type.

(** What a top-level key of a configuration document holds: a string (as
    [parent] does) or a mapping (as [param] does). *)
Inductive node : Type :=
| Text (s : string)
| Mapping (m : gmap string Value).

(** [yaml.load] on the text of a file, and [yaml.dump(..., 
    default_flow_style=False)]. *)
Variable yaml_load : string -> result (gmap string node).
Variable yaml_dump : gmap string node -> string.

(** [open(path, "r")] and reading it, on a file system that maps paths to
    contents. *)
Definition open_read (fs : gmap string string) (path : string)
    : result string :=
  match fs !! path with
  | Some text => Ok text
  | None => Raise (ExternalError "FileNotFoundError")
  end.

(** [for key in items: params[key] = value]: item assignment needs
    [params] to be a mapping. *)
Fixpoint override (params : node) (items : list (string * Value))
    : result node :=
  match items with
  | [] => Ok params
  | (key, value) :: rest =>
      match params with
      | Mapping m => override (Mapping (<[key := value]> m)) rest
      | Text _ => Raise (ExternalError "TypeError")
      end
  end.

Definition load_config (fs : gmap string string) (config_path : string)
    : result node :=
  text ← open_read fs config_path;
  config ← yaml_load text;
  match config !! "parent" with
  | Some parent =>
      (* load the parent config file *)
      path ← match parent with
             | Text s => Ok s
             | Mapping _ => Raise (ExternalError "TypeError")
             end;
      parent_text ← open_read fs path;
      config_parent ← yaml_load parent_text;
      params ← getitem config_parent "param";
      (* override *)
      child ← getitem config "param";
      keys ← match child with
             | Mapping m => Ok (map_to_list m)
             | Text _ => Raise (ExternalError "AttributeError")
             end;
      override params keys
  | None => getitem config "param"
  end.

(** [save_config(config, save_path)]: the file system after the write. *)
Definition save_config (config : gmap string Value) (save_path : string)
    (fs : gmap string string) : gmap string string :=
  <[join save_path ["config.yml"] :=
      yaml_dump (<["param" := Mapping config]> ∅)]> fs.

End Yaml.

End Config.

(* ===================================================================== *)
(** ** Reporter.snapshot: the plot of one category  (train_utils.py) *)
(* ===================================================================== *)

Module Snapshot.

(** The calls made to matplotlib and to the file system, in order. *)
Inductive drawing : Type :=
| Clf
| Plot (xs : list Z) (ys : list pyfloat) (color label linestyle : string)
| Xlabel (text : string)
| Ylabel (text : string)
| Ylim (lower upper : pyfloat)
| Legend
| Remove (path : string)
| Savefig (path : string).

Definition blue : string := "#4682B4".
Definition orange : string := "#D2691E".

Definition linestyles : list string :=
  ["-"; "--"; "-."; ":"; ":"; ":"; ":"; ":"; ":"; ":"; ":"; ":"].

(** The builtins [max(a, b)] and [min(a, b)]: the second argument is taken
    only when it compares greater (smaller) than the first. *)
Definition py_max2 (a b : pyfloat) : pyfloat := if fgt b a then b else a.
Definition py_min2 (a b : pyfloat) : pyfloat := if flt b a then b else a.

(** [max(l)]: [ValueError] on an empty list. *)
Definition py_max (l : list pyfloat) : result pyfloat :=
  match l with
  | [] => Raise ValueError
  | x :: rest => Ok (fold_left py_max2 rest x)
  end.

(** [plt.plot(xs, ys, color, label=..., linestyle=...)]: matplotlib raises
    [ValueError] when [xs] and [ys] differ in length. *)
Definition plt_plot (xs : list Z) (ys : list pyfloat)
    (color label linestyle : string) : result drawing :=
  if Nat.eqb (length xs) (length ys)
  then Ok (Plot xs ys color label linestyle)
  else Raise ValueError.

(** [linestyles[i]] *)
Definition linestyle_at (i : nat) : result string :=
  match linestyles !! i with
  | Some s => Ok s
  | None => Raise (ExternalError "IndexError")
  end.

(** The body of the first inner loop of [snapshot], for one [name] of
    [sorted(self.obs_train[category].items())]; the state is
    [(upper, i)] and the drawings made so far. *)
Definition plot_metric (r : Reporter.t) (category name : string)
    (st : pyfloat * nat * list drawing)
    : result (pyfloat * nat * list drawing) :=
  let '(upper, i, out) := st in
  train_c ← getitem (Reporter.obs_train r) category;
  train ← getitem train_c name;
  (* skip non-observed values *)
  if feq (np_mean train) (of_int 0) then Ok st
  else
    ls ← linestyle_at i;
    p1 ← plt_plot (Reporter.steps r) train blue (name +:+ " (train)") ls;
    dev_c ← getitem (Reporter.obs_dev r) category;
    dev ← getitem dev_c name;
    p2 ← plt_plot (Reporter.steps r) dev orange (name +:+ " (dev)") ls;
    m ← py_max train;
    let upper := py_max2 upper m in
    m' ← py_max dev;
    let upper := py_max2 upper m' in
    Ok (upper, S i, out ++ [p1; p2]).

Fixpoint plot_metrics (r : Reporter.t) (category : string)
    (names : list string) (st : pyfloat * nat * list drawing)
    : result (pyfloat * nat * list drawing) :=
  match names with
  | [] => Ok st
  | name :: rest =>
      st' ← plot_metric r category name st;
      plot_metrics r category rest st'
  end.

(** [sorted(d.items())], as far as the names go: the keys in increasing
    order. *)
Definition sorted_names (d : gmap string (list pyfloat)) : list string :=
  merge_sort (fun a b : string => Is_true (String.leb a b))
             (map fst (map_to_list d)).

(** The body of the loop over the categories, up to and including
    [plt.savefig] (lines 112-135); [existing] are the paths for which
    [os.path.isfile] holds.  The CSV half that follows is not modelled. *)
Definition plot_category (r : Reporter.t) (existing : gset string)
    (category : string) : result (list drawing) :=
  train_c ← getitem (Reporter.obs_train r) category;
  '(upper, _, out) ←
    plot_metrics r category (sorted_names train_c) (of_int 0, 0%nat, [Clf]);
  let upper := py_min2 (fadd upper (of_int 10)) (of_int 300) in
  let png := join (Reporter.save_path r) [category +:+ ".png"] in
  Ok (out ++ [Xlabel "step"; Ylabel category; Ylim (of_int 0) upper; Legend]
          ++ (if bool_decide (png ∈ existing) then [Remove png] else [])
          ++ [Savefig png]).

End Snapshot.

(* ===================================================================== *)
(** ** Vocabulary of the statements *)
(* ===================================================================== *)

(** The number of calls of a [decay_loop] whose epoch has reached
    [start]. *)
Fixpoint epochs_from (start : Z) (calls : list (Z * pyfloat)) : nat :=
  match calls with
  | [] => O
  | (epoch, _) :: rest =>
      if epoch <? start then epochs_from start rest
      else S (epochs_from start rest)
  end.

(** Each value is below the one before it. *)
Fixpoint strictly_decreasing (vs : list pyfloat) : bool :=
  match vs with
  | v :: ((w :: _) as rest) => flt w v && strictly_decreasing rest
  | _ => true
  end.

(** One iteration of a training loop as the reporter sees it: [add] of a
    single metric, then [step]. *)
Definition record_and_advance (k : string) (v : pyfloat) (is_eval : bool)
    : Reporter.M unit :=
  Reporter.bind (Reporter.add [(k, Some v)] is_eval)
                (fun _ => Reporter.modify (Reporter.step is_eval)).

(** The list held under [category] and [name], if any. *)
Definition series (obs : gmap string (gmap string (list pyfloat)))
    (category name : string) : option (list pyfloat) :=
  d ← obs !! category; d !! name.

(** A stand-in for the scorer where every edit-distance scorer agrees:
    no edits between two identical sequences.  It raises on everything
    else. *)
Definition score_identical (ref hyp : list string) : result (Z * Z * Z * Z) :=
  if bool_decide (ref = hyp) then Ok (0, 0, 0, 0)
  else Raise (ExternalError "compute_wer").

(** Evaluation settings: one CTC model on plain kanji labels, and on kanji
    labels with word boundaries. *)
Definition ctc_kanji : Cer.setting :=
  {| Cer.model_types := ["ctc"]; Cer.label_type := "kanji";
     Cer.label_type_sub := "" |}.

Definition ctc_kanji_wb : Cer.setting :=
  {| Cer.model_types := ["ctc"]; Cer.label_type := "kanji_wb";
     Cer.label_type_sub := "" |}.

(** The key a learning-rate update writes: [eps] for Adadelta in
    [decay_lr], [lr] otherwise. *)
Definition decay_field (optimizer : Optimizer) : string :=
  if isinstance_Adadelta optimizer then "eps" else "lr".

(** Concrete optimizers: plain SGD with one parameter group, and Adadelta
    with two. *)
Definition sgd_optimizer : Optimizer :=
  {| class_of := OtherOptimizer "SGD";
     param_groups :=
       [ <["lr" := PyFloat (Fin 1)]>
           (<["momentum" := PyFloat (Fin (9 / 10))]> ∅) ] |}.

Definition adadelta_optimizer : Optimizer :=
  {| class_of := Adadelta;
     param_groups :=
       [ <["lr" := PyFloat (Fin 1)]>
           (<["rho" := PyFloat (Fin (95 / 100))]>
              (<["eps" := PyFloat (Fin (1 / 1000000))]> ∅));
         <["lr" := PyFloat (Fin 1)]>
           (<["eps" := PyFloat (Fin (1 / 100000000))]> ∅) ] |}.

(** [Controller(learning_rate, decay_type, decay_start_epoch, decay_rate)]
    and [Controller(..., decay_patient_epoch=p)] with every other keyword
    argument at its default. *)
Definition Controller_with_patience (learning_rate : pyfloat)
    (decay_type : string) (decay_start_epoch : Z) (decay_rate : pyfloat)
    (decay_patient_epoch : Z) : result Controller.t :=
  Controller.__init__ learning_rate decay_type decay_start_epoch decay_rate
    decay_patient_epoch Controller.default_lower_better
    Controller.default_best_value Controller.default_model_size
    Controller.default_warmup_start_learning_rate
    Controller.default_warmup_nsteps Controller.default_factor.

Definition Controller_default (learning_rate : pyfloat)
    (decay_type : string) (decay_start_epoch : Z) (decay_rate : pyfloat)
    : result Controller.t :=
  Controller_with_patience learning_rate decay_type decay_start_epoch
    decay_rate Controller.default_decay_patient_epoch.

(** A plateau controller in mid-training: the best value seen so far is 3,
    the rate is halved after more than one epoch without improvement. *)
Definition plateau_controller : Controller.t :=
  {| Controller.lr_max := Fin 1;
     Controller.decay_type := "metric";
     Controller.decay_start_epoch := 0;
     Controller.decay_rate := Fin (1 / 2);
     Controller.decay_patient_epoch := 1;
     Controller.not_improved_epoch := 0;
     Controller.lower_better := true;
     Controller.best_value := Fin 3;
     Controller.lr_init := Fin 1;
     Controller.warmup_start_lr := Fin 0;
     Controller.warmup_nsteps := 4000 |}.

(** A warm-up controller on the inverse-square-root schedule, with a
    warm-up of 4000 steps. *)
Definition warmup_controller : Controller.t :=
  {| Controller.lr_max := Fin 1;
     Controller.decay_type := "warmup";
     Controller.decay_start_epoch := 0;
     Controller.decay_rate := Fin (1 / 2);
     Controller.decay_patient_epoch := 1;
     Controller.not_improved_epoch := 0;
     Controller.lower_better := true;
     Controller.best_value := Fin 10000;
     Controller.lr_init := Fin 1;
     Controller.warmup_start_lr := Fin 0;
     Controller.warmup_nsteps := 4000 |}.

(** [after] is [before] with [field] set to [v] in every parameter group
    and nothing else changed. *)
Definition sets_field (field : string) (v : pyval)
    (before after : Optimizer) : Prop :=
  class_of after = class_of before
  /\ length (param_groups after) = length (param_groups before)
  /\ forall (i : nat) (g : gmap string pyval),
       param_groups before !! i = Some g ->
       exists g' : gmap string pyval,
         param_groups after !! i = Some g'
         /\ g' !! field = Some v
         /\ forall k : string, k <> field -> g' !! k = g !! k.

(** The reporters a training loop can hold: a fresh one, and whatever
    [add] (also when it raises) and [step] leave behind. *)
Inductive reachable : Reporter.t -> Prop :=
| reachable_init (save_path : string) (tensorboard : bool) :
    reachable (Reporter.__init__ save_path tensorboard)
| reachable_add (r : Reporter.t) (observation : list (string * option pyfloat))
      (is_eval : bool) :
    reachable r -> reachable (Reporter.add observation is_eval r).1
| reachable_step (r : Reporter.t) (is_eval : bool) :
    reachable r -> reachable (Reporter.step is_eval r).

(** [obs'] is [obs] after [obs[c][n].append(x)], the list being created
    first if [n] was not a key. *)
Definition appended (obs obs' : gmap string (gmap string (list pyfloat)))
    (c n : string) (x : pyfloat) : Prop :=
  exists d, obs !! c = Some d
            /\ obs' = <[c := <[n := default [] (d !! n) ++ [x]]> d]> obs.

(** [obs'] is [obs] after [if n not in obs[c].keys(): obs[c][n] = []]. *)
Definition ensured (obs obs' : gmap string (gmap string (list pyfloat)))
    (c n : string) : Prop :=
  exists d, obs !! c = Some d
            /\ obs' = match d !! n with
                      | Some _ => obs
                      | None => <[c := <[n := []]> d]> obs
                      end.

(** What one iteration of the loop of [add] can have done to the
    reporter, the log apart. *)
Definition add_effect (is_eval : bool) (v : pyfloat) (r r' : Reporter.t)
    : Prop :=
  Reporter._step r' = Reporter._step r
  /\ Reporter.steps r' = Reporter.steps r
  /\ Reporter.tensorboard r' = Reporter.tensorboard r
  /\ Reporter.save_path r' = Reporter.save_path r
  /\ if is_eval then
       Reporter.obs_train_local r' = Reporter.obs_train_local r
       /\ ((Reporter.obs_train r' = Reporter.obs_train r
            /\ Reporter.obs_dev r' = Reporter.obs_dev r)
           \/ (exists c n,
                 ensured (Reporter.obs_train r) (Reporter.obs_train r') c n
                 /\ Reporter.obs_dev r' = Reporter.obs_dev r)
           \/ (exists c n m,
                 appended (Reporter.obs_train r) (Reporter.obs_train r') c n m
                 /\ ((Reporter.obs_dev r !! c = None
                      /\ Reporter.obs_dev r' = Reporter.obs_dev r)
                     \/ appended (Reporter.obs_dev r) (Reporter.obs_dev r')
                          c n v)))
     else
       Reporter.obs_train r' = Reporter.obs_train r
       /\ Reporter.obs_dev r' = Reporter.obs_dev r
       /\ Reporter.tf_writer r' = Reporter.tf_writer r
       /\ (Reporter.obs_train_local r' = Reporter.obs_train_local r
           \/ exists c n,
                appended (Reporter.obs_train_local r)
                         (Reporter.obs_train_local r') c n v).

(** The number of occurrences of [c] in [s]. *)
Fixpoint count_char (c : ascii) (s : string) : nat :=
  match s with
  | EmptyString => O
  | String c' rest =>
      if Ascii.eqb c' c then S (count_char c rest) else count_char c rest
  end.



(** The metric as [decay_lr] compares it: negated when higher is better. *)
Definition adjusted (lower_better : bool) (v : R) : R :=
  if lower_better then v else (v * -1)%R.


(** A request for a label type the constructor has no manifest for, and a
    request that sorts by path. *)
Definition grapheme_request : Dataset.args :=
  {| Dataset.a_model_type := "ctc"; Dataset.a_data_type := "dev";
     Dataset.a_data_size := "subset"; Dataset.a_label_type := "grapheme";
     Dataset.a_batch_size := 8; Dataset.a_vocab_file_path := "vocab.txt";
     Dataset.a_max_epoch := None; Dataset.a_splice := 1;
     Dataset.a_num_stack := 1; Dataset.a_num_skip := 1;
     Dataset.a_shuffle := false; Dataset.a_sort_utt := false;
     Dataset.a_reverse := false; Dataset.a_sort_stop_epoch := None;
     Dataset.a_num_gpus := 2; Dataset.a_use_cuda := false;
     Dataset.a_volatile := false; Dataset.a_save_format := "numpy" |}.

Definition by_path_request : Dataset.args :=
  {| Dataset.a_model_type := "ctc"; Dataset.a_data_type := "eval1";
     Dataset.a_data_size := "subset"; Dataset.a_label_type := "kana";
     Dataset.a_batch_size := 8; Dataset.a_vocab_file_path := "vocab.txt";
     Dataset.a_max_epoch := None; Dataset.a_splice := 1;
     Dataset.a_num_stack := 1; Dataset.a_num_skip := 1;
     Dataset.a_shuffle := false; Dataset.a_sort_utt := false;
     Dataset.a_reverse := false; Dataset.a_sort_stop_epoch := None;
     Dataset.a_num_gpus := 2; Dataset.a_use_cuda := false;
     Dataset.a_volatile := false; Dataset.a_save_format := "numpy" |}.

(** A run of training iterations that record the same metric: the
    reporter after [add] and [step(is_eval=False)] for each value in
    turn. *)
Fixpoint train_run (k : string) (vs : list pyfloat) (r : Reporter.t)
    : Reporter.t :=
  match vs with
  | [] => r
  | v :: rest => train_run k rest (record_and_advance k v false r).1
  end.

(** [e] is raised by one of the collaborators of the dataset constructor,
    on some arguments. *)
Definition raised_by_collaborator `{C : Dataset.Collaborators} (e : exn)
    : Prop :=
  (exists v, Dataset.DatasetBase_init v = Raise e)
  \/ (exists v, Dataset.Word2idx v = Raise e)
  \/ (exists v double_letter, Dataset.Char2idx v double_letter = Raise e)
  \/ (exists path, Dataset.read_csv path = Raise e)
  \/ (exists df columns, Dataset.loc_columns df columns = Raise e)
  \/ (exists df by_ ascending,
        Dataset.sort_values df by_ ascending = Raise e)
  \/ (exists b at_ m df, Dataset.len_self b at_ m df = Raise e)
  \/ (exists n columns, Dataset.zeros_frame n columns = Raise e)
  \/ (exists df new_df, Dataset.concat_axis1 df new_df = Raise e).

(* ===================================================================== *)
(** * Properties *)
(* ===================================================================== *)

(** ** Floats *)

Lemma R_ltb_lt (a b : R) : R_ltb a b = true <-> (a < b)%R.
Proof. unfold R_ltb. destruct (Rlt_dec a b); split; intros; try done. Qed.

Lemma R_ltb_ge (a b : R) : R_ltb a b = false <-> (b <= a)%R.
Proof.
  unfold R_ltb. destruct (Rlt_dec a b); split; intros; try done; lra.
Qed.

Lemma R_eqb_eq (a b : R) : R_eqb a b = true <-> a = b.
Proof. unfold R_eqb. destruct (Req_dec_T a b); split; intros; done. Qed.

Lemma R_eqb_neq (a b : R) : R_eqb a b = false <-> a <> b.
Proof. unfold R_eqb. destruct (Req_dec_T a b); split; intros; done. Qed.

Lemma flt_irrefl (x : pyfloat) : flt x x = false.
Proof. destruct x; simpl; try done. apply R_ltb_ge. lra. Qed.

Lemma flt_trans (x y z : pyfloat) :
  flt x y = true -> flt y z = true -> flt x z = true.
Proof.
  destruct x, y, z; simpl; try done.
  rewrite !R_ltb_lt. lra.
Qed.

(** ** Controller: one call in each policy *)

Lemma decay_lr_epoch (self : Controller.t) optimizer lr epoch value :
  Controller.decay_type self = "epoch" ->
  Controller.decay_lr self optimizer lr epoch value =
    if epoch <? Controller.decay_start_epoch self
    then (self, (optimizer, lr))
    else (self,
          (Controller.update_optimizer optimizer
             (fmul lr (Controller.decay_rate self)),
           fmul lr (Controller.decay_rate self))).
Proof.
  intros Ht. unfold Controller.decay_lr. rewrite Ht. simpl.
  destruct (epoch <? _); reflexivity.
Qed.

Lemma decay_loop_epoch (self : Controller.t) (r : R) calls :
  Controller.decay_type self = "epoch" ->
  Controller.decay_rate self = Fin r ->
  forall optimizer (l : R),
    (Controller.decay_loop self optimizer (Fin l) calls).2.2
    = Fin (l * r ^ epochs_from (Controller.decay_start_epoch self) calls).
Proof.
  intros Ht Hr. induction calls as [|[epoch value] rest IH]; intros optimizer l.
  - simpl. f_equal. lra.
  - simpl. rewrite decay_lr_epoch by done. rewrite Hr.
    destruct (epoch <? _).
    + apply IH.
    + simpl fmul. rewrite IH. f_equal. simpl. lra.
Qed.

(** C2.  A controller built with [decay_type="epoch"] and rate
    [initial_rate]: a loop that feeds [decay_lr] its own result ends, after
    [N] calls whose epoch has reached [decay_start_epoch] (and any number
    of earlier ones, in any order), with [initial_rate * decay_rate^N]; a
    call before [decay_start_epoch] returns the controller, the optimizer
    and the rate it was given. *)
Theorem epoch_decay_is_geometric
    (initial_rate decay_rate : R) (decay_start_epoch decay_patient_epoch : Z)
    (lower_better : bool) (best_value : pyfloat) (model_size : Z)
    (warmup_start_learning_rate : pyfloat) (warmup_nsteps : Z)
    (factor : pyfloat) :
  exists self,
    Controller.__init__ (Fin initial_rate) "epoch" decay_start_epoch
      (Fin decay_rate) decay_patient_epoch lower_better best_value
      model_size warmup_start_learning_rate warmup_nsteps factor = Ok self
    /\ (forall optimizer calls,
          (Controller.decay_loop self optimizer (Fin initial_rate) calls).2.2
          = Fin (initial_rate
                 * decay_rate ^ epochs_from decay_start_epoch calls))
    /\ (forall optimizer lr epoch value,
          epoch < decay_start_epoch ->
          Controller.decay_lr self optimizer lr epoch value
          = (self, (optimizer, lr))).
Proof.
  eexists. split; [reflexivity|]. split.
  - intros optimizer calls.
    by rewrite (decay_loop_epoch _ decay_rate).
  - intros optimizer lr epoch value Hlt.
    rewrite decay_lr_epoch by done. simpl.
    destruct (Z.ltb_spec epoch decay_start_epoch); [done | lia].
Qed.

Lemma decay_lr_metric (self : Controller.t) optimizer lr epoch value :
  Controller.decay_type self = "metric" ->
  Controller.lower_better self = true ->
  Controller.decay_lr self optimizer lr epoch value =
    if epoch <? Controller.decay_start_epoch self then
      if flt value (Controller.best_value self)
      then (Controller.set_tracking value
              (Controller.not_improved_epoch self) self, (optimizer, lr))
      else (self, (optimizer, lr))
    else if flt value (Controller.best_value self)
    then (Controller.set_tracking value 0 self, (optimizer, lr))
    else if Controller.not_improved_epoch self
            <? Controller.decay_patient_epoch self
    then (Controller.set_tracking (Controller.best_value self)
            (Controller.not_improved_epoch self + 1) self, (optimizer, lr))
    else (Controller.set_tracking (Controller.best_value self) 0 self,
          (Controller.update_optimizer optimizer
             (fmul lr (Controller.decay_rate self)),
           fmul lr (Controller.decay_rate self))).
Proof.
  intros Ht Hl. unfold Controller.decay_lr. rewrite Ht, Hl. reflexivity.
Qed.

(** A strictly decreasing run below the tracked best never decays. *)
Lemma decay_loop_decreasing calls :
  forall (self : Controller.t) optimizer lr,
    Controller.decay_type self = "metric" ->
    Controller.lower_better self = true ->
    strictly_decreasing (Controller.best_value self :: map snd calls) = true ->
    (Controller.decay_loop self optimizer lr calls).2 = (optimizer, lr).
Proof.
  induction calls as [|[epoch value] rest IH]; intros self optimizer lr Ht Hl Hd.
  - reflexivity.
  - cbn [map snd strictly_decreasing] in Hd.
    apply andb_prop in Hd as [Hv Hd].
    cbn [Controller.decay_loop]. rewrite decay_lr_metric by done. rewrite Hv.
    destruct (epoch <? _); apply IH; done.
Qed.

(** From a counter [c] within the patience window, [n] epochs without
    improvement decay the rate [(c + n) / (patience + 1)] times. *)
Lemma decay_loop_plateau (r : R) calls :
  forall (self : Controller.t) optimizer (l : R),
    Controller.decay_type self = "metric" ->
    Controller.lower_better self = true ->
    Controller.decay_rate self = Fin r ->
    0 <= Controller.not_improved_epoch self
      <= Controller.decay_patient_epoch self ->
    Forall (fun c => Controller.decay_start_epoch self <= c.1
                     /\ flt c.2 (Controller.best_value self) = false) calls ->
    let period := Controller.decay_patient_epoch self + 1 in
    let total := Controller.not_improved_epoch self
                 + Z.of_nat (length calls) in
    let out := Controller.decay_loop self optimizer (Fin l) calls in
    out.2.2 = Fin (l * r ^ Z.to_nat (total / period))
    /\ Controller.not_improved_epoch out.1 = total mod period
    /\ Controller.best_value out.1 = Controller.best_value self.
Proof.
  induction calls as [|[epoch value] rest IH];
    intros self optimizer l Ht Hl Hr Hc Hall period total out.
  - subst out total period. cbn [Controller.decay_loop length].
    rewrite Z.add_0_r, Z.div_small, Z.mod_small by lia.
    cbn. split; [f_equal; change (Z.to_nat 0) with O; simpl; lra | done].
  - apply Forall_cons in Hall as [[He Hv] Hall]. cbn [fst snd] in He, Hv.
    subst out. cbn [Controller.decay_loop].
    rewrite decay_lr_metric by done.
    destruct (Z.ltb_spec epoch (Controller.decay_start_epoch self)); [lia|].
    rewrite Hv, Hr.
    destruct (Z.ltb_spec (Controller.not_improved_epoch self)
                (Controller.decay_patient_epoch self)) as [Hlt|Hge].
    + specialize (IH (Controller.set_tracking (Controller.best_value self)
                        (Controller.not_improved_epoch self + 1) self)
                     optimizer l Ht Hl Hr).
      cbn [Controller.not_improved_epoch Controller.decay_patient_epoch
           Controller.set_tracking Controller.decay_start_epoch
           Controller.best_value] in IH.
      destruct IH as (IH1 & IH2 & IH3); [lia | done |].
      subst total period.
      replace (Controller.not_improved_epoch self
               + Z.of_nat (length ((epoch, value) :: rest)))
        with (Controller.not_improved_epoch self + 1
              + Z.of_nat (length rest)) by (cbn [length]; lia).
      done.
    + assert (Hp : Controller.not_improved_epoch self
                   = Controller.decay_patient_epoch self) by lia.
      specialize (IH (Controller.set_tracking (Controller.best_value self)
                        0 self)
                     (Controller.update_optimizer optimizer (Fin (l * r)))
                     (l * r)%R Ht Hl Hr).
      cbn [Controller.not_improved_epoch Controller.decay_patient_epoch
           Controller.set_tracking Controller.decay_start_epoch
           Controller.best_value] in IH.
      destruct IH as (IH1 & IH2 & IH3); [lia | done |].
      subst total period. cbn [fmul].
      replace (Controller.not_improved_epoch self
               + Z.of_nat (length ((epoch, value) :: rest)))
        with (1 * (Controller.decay_patient_epoch self + 1)
              + (0 + Z.of_nat (length rest))) by (cbn [length]; lia).
      rewrite Z.div_add_l by lia.
      rewrite (Z.add_comm (1 * _)), Z.mod_add by lia.
      rewrite IH1, IH2, IH3. split; [|done].
      f_equal.
      rewrite Z2Nat.inj_add by (try apply Z.div_pos; lia).
      change (Z.to_nat 1) with 1%nat. simpl. lra.
Qed.

(** Comparisons of two numerals. *)
Ltac decide_R :=
  repeat match goal with
    | |- context [R_ltb ?a ?b] =>
        first [ rewrite (proj2 (R_ltb_lt a b)) by lra
              | rewrite (proj2 (R_ltb_ge a b)) by lra ]
    | |- context [R_eqb ?a ?b] =>
        first [ rewrite (proj2 (R_eqb_eq a b)) by lra
              | rewrite (proj2 (R_eqb_neq a b)) by lra ]
    end.

(** The claim of C3 fails as stated: with the default [best_value] of 10000
    and the default patience of 1, the strictly decreasing values 30000,
    20000 never improve on the tracked best, and the second call multiplies
    the rate by [decay_rate]. *)
Lemma decreasing_run_above_best_decays :
  strictly_decreasing [Fin 30000; Fin 20000] = true
  /\ (self ← Controller_default (Fin 1) "metric" 0 (Fin (1 / 2));
      Ok (Controller.decay_loop self sgd_optimizer (Fin 1)
            [(0, Fin 30000); (1, Fin 20000)]).2.2)
     = Ok (fmul (Fin 1) (Fin (1 / 2)))
  /\ fmul (Fin 1) (Fin (1 / 2)) <> Fin 1.
Proof.
  split; [|split].
  - simpl. decide_R. reflexivity.
  - unfold Controller_default, Controller_with_patience, Controller.__init__.
    simpl. unfold Controller.decay_lr.
    repeat (simpl; decide_R). reflexivity.
  - simpl. intros H. injection H as H. lra.
Qed.

(** C3, amended.  For a controller with [decay_type="metric"] and
    [lower_better=True]:
    - a strictly decreasing run of values that starts below the tracked
      best value never changes the rate or the optimizer;
    - from [decay_start_epoch] on and from a counter of 0, [n] epochs
      without improvement (a flat run at or above the best value) decay
      the rate once per period of [decay_patient_epoch + 1] epochs, and
      leave the counter at [n mod (decay_patient_epoch + 1)];
    - from [decay_start_epoch] on, an improvement resets the counter to 0
      and leaves the rate alone, a decay resets the counter to 0, and any
      other call adds 1 to the counter and leaves the rate alone. *)
Theorem metric_plateau_policy (self : Controller.t) (optimizer : Optimizer)
    (l r : R) :
  Controller.decay_type self = "metric" ->
  Controller.lower_better self = true ->
  Controller.decay_rate self = Fin r ->
  (forall calls,
      strictly_decreasing (Controller.best_value self :: map snd calls) = true ->
      (Controller.decay_loop self optimizer (Fin l) calls).2
      = (optimizer, Fin l))
  /\ (forall calls,
        Controller.not_improved_epoch self = 0 ->
        0 <= Controller.decay_patient_epoch self ->
        Forall (fun c => Controller.decay_start_epoch self <= c.1
                         /\ flt c.2 (Controller.best_value self) = false)
               calls ->
        let period := Controller.decay_patient_epoch self + 1 in
        let n := Z.of_nat (length calls) in
        let out := Controller.decay_loop self optimizer (Fin l) calls in
        out.2.2 = Fin (l * r ^ Z.to_nat (n / period))
        /\ Controller.not_improved_epoch out.1 = n mod period)
  /\ (forall epoch value,
        Controller.decay_start_epoch self <= epoch ->
        let out := Controller.decay_lr self optimizer (Fin l) epoch value in
        (flt value (Controller.best_value self) = true ->
         Controller.not_improved_epoch out.1 = 0
         /\ Controller.best_value out.1 = value
         /\ out.2 = (optimizer, Fin l))
        /\ (flt value (Controller.best_value self) = false ->
            Controller.decay_patient_epoch self
              <= Controller.not_improved_epoch self ->
            Controller.not_improved_epoch out.1 = 0
            /\ out.2.2 = Fin (l * r))
        /\ (flt value (Controller.best_value self) = false ->
            Controller.not_improved_epoch self
              < Controller.decay_patient_epoch self ->
            Controller.not_improved_epoch out.1
              = Controller.not_improved_epoch self + 1
            /\ out.2 = (optimizer, Fin l))).
Proof.
  intros Ht Hl Hr. split; [|split].
  - intros calls Hd. by apply decay_loop_decreasing.
  - intros calls H0 Hp Hall period n out.
    destruct (decay_loop_plateau r calls self optimizer l Ht Hl Hr)
      as (H1 & H2 & _); [lia | done |].
    rewrite H0, Z.add_0_l in H1, H2. done.
  - intros epoch value He out. subst out.
    rewrite decay_lr_metric by done.
    destruct (Z.ltb_spec epoch (Controller.decay_start_epoch self)); [lia|].
    split; [|split].
    + intros ->. done.
    + intros -> Hge.
      destruct (Z.ltb_spec (Controller.not_improved_epoch self)
                  (Controller.decay_patient_epoch self)); [lia|].
      rewrite Hr. done.
    + intros -> Hlt.
      destruct (Z.ltb_spec (Controller.not_improved_epoch self)
                  (Controller.decay_patient_epoch self)); [|lia].
      done.
Qed.

(** [metric_plateau_policy] at work: four flat epochs at the best value,
    with a patience of 1, halve the rate twice. *)
Lemma metric_plateau_policy_witness :
  Controller.decay_type plateau_controller = "metric"
  /\ Controller.lower_better plateau_controller = true
  /\ Controller.decay_rate plateau_controller = Fin (1 / 2)
  /\ (Controller.decay_loop plateau_controller sgd_optimizer (Fin 1)
        [(1, Fin 3); (2, Fin 3); (3, Fin 3); (4, Fin 3)]).2.2
     = Fin (1 * (1 / 2) ^ 2).
Proof.
  repeat (split; [reflexivity|]).
  destruct (metric_plateau_policy plateau_controller sgd_optimizer 1 (1 / 2)
              eq_refl eq_refl eq_refl) as (_ & Hflat & _).
  refine (proj1 (Hflat [(1, Fin 3); (2, Fin 3); (3, Fin 3); (4, Fin 3)]
                   eq_refl _ _)).
  - simpl. lia.
  - repeat constructor; simpl; try lia; apply R_ltb_ge; lra.
Defined.

(** ** Controller: warm-up *)

Lemma Rpower_pos (x y : R) : (0 < Rpower x y)%R.
Proof. unfold Rpower. apply exp_pos. Qed.

(** [n * n^-1.5 = n^-0.5]: the two arms of the schedule meet at
    [step = warmup_nsteps]. *)
Lemma Rpower_arms_meet (n : R) :
  (0 < n)%R -> (n * Rpower n (- (3 / 2)) = Rpower n (- (1 / 2)))%R.
Proof.
  intros Hn.
  rewrite <- (Rpower_1 n) at 1 by done.
  rewrite <- Rpower_plus. f_equal. lra.
Qed.

Lemma np_power_pos (x y : R) : (0 < x)%R -> np_power x y = Fin (Rpower x y).
Proof. intros Hx. unfold np_power. by rewrite (proj2 (R_ltb_lt 0 x)). Qed.

Lemma np_min2_Fin (a b : R) : np_min2 (Fin a) (Fin b) = Fin (Rmin a b).
Proof.
  unfold np_min2, Rmin. simpl. unfold R_ltb.
  destruct (Rlt_dec b a), (Rle_dec a b); try done; f_equal; lra.
Qed.

Lemma IZR_pos (n : Z) : 1 <= n -> (0 < IZR n)%R.
Proof. intros H. apply IZR_lt. lia. Qed.

Lemma warmup_lr_inverse_sqrt (self : Controller.t) optimizer lr step :
  fgt (Controller.warmup_start_lr self) (Fin 0) = false ->
  snd <$> Controller.warmup_lr self optimizer lr step
  = Ok (fmul (Controller.lr_init self)
          (np_min2 (np_power (IZR step) (- (1 / 2)))
                   (fmul (of_int step)
                         (np_power (IZR (Controller.warmup_nsteps self))
                                   (- (3 / 2)))))).
Proof. intros Hw. unfold Controller.warmup_lr. rewrite Hw. reflexivity. Qed.

Lemma warmup_lr_inverse_sqrt_real (self : Controller.t) optimizer lr step
    (li : R) :
  fgt (Controller.warmup_start_lr self) (Fin 0) = false ->
  Controller.lr_init self = Fin li ->
  1 <= step -> 1 <= Controller.warmup_nsteps self ->
  snd <$> Controller.warmup_lr self optimizer lr step
  = Ok (Fin (li * Rmin (Rpower (IZR step) (- (1 / 2)))
                       (IZR step
                        * Rpower (IZR (Controller.warmup_nsteps self))
                                 (- (3 / 2))))).
Proof.
  intros Hw Hi Hs Hn. rewrite warmup_lr_inverse_sqrt by done.
  rewrite Hi, !np_power_pos by by apply IZR_pos.
  unfold of_int. cbn [fmul]. by rewrite np_min2_Fin.
Qed.

Lemma warmup_lr_linear (self : Controller.t) optimizer lr step (w m li : R) :
  Controller.warmup_start_lr self = Fin w -> (0 < w)%R ->
  Controller.lr_max self = Fin m ->
  Controller.lr_init self = Fin li ->
  Controller.warmup_nsteps self <> 0 ->
  snd <$> Controller.warmup_lr self optimizer lr step
  = Ok (Fin ((m + - w) / IZR (Controller.warmup_nsteps self) * IZR step + li)).
Proof.
  intros Hw Hpos Hm Hi Hn. unfold Controller.warmup_lr.
  rewrite Hw, Hm, Hi. unfold fgt. cbn [flt].
  rewrite (proj2 (R_ltb_lt 0 w)) by done.
  unfold py_truediv, of_int. cbn [feq].
  rewrite (proj2 (R_eqb_neq _ 0)).
  - cbn. rewrite (proj2 (R_eqb_neq _ 0)); [done|].
    intros H. by apply eq_IZR in H.
  - intros H. by apply eq_IZR in H.
Qed.

(** C4.  In the inverse-square-root branch ([warmup_start_learning_rate]
    is 0), [warmup_lr] returns
    [lr_init * min(step^-0.5, step * warmup_nsteps^-1.5)] at every step
    (in float terms: at step 0 the first arm is [inf]); from step 1 on this
    is the real number of that formula; and at [step = warmup_nsteps] it is
    [lr_init * warmup_nsteps^-0.5], exactly in real arithmetic and so
    within every tolerance. *)
Theorem warmup_inverse_sqrt_schedule (self : Controller.t)
    (optimizer : Optimizer) (lr : pyfloat) (li : R) :
  Controller.warmup_start_lr self = Fin 0 ->
  Controller.lr_init self = Fin li ->
  (forall step,
      snd <$> Controller.warmup_lr self optimizer lr step
      = Ok (fmul (Fin li)
              (np_min2 (np_power (IZR step) (- (1 / 2)))
                       (fmul (of_int step)
                             (np_power (IZR (Controller.warmup_nsteps self))
                                       (- (3 / 2)))))))
  /\ (forall step,
        1 <= step -> 1 <= Controller.warmup_nsteps self ->
        snd <$> Controller.warmup_lr self optimizer lr step
        = Ok (Fin (li * Rmin (Rpower (IZR step) (- (1 / 2)))
                             (IZR step
                              * Rpower (IZR (Controller.warmup_nsteps self))
                                       (- (3 / 2))))))
  /\ (1 <= Controller.warmup_nsteps self ->
      exists rate : R,
        snd <$> Controller.warmup_lr self optimizer lr
                  (Controller.warmup_nsteps self) = Ok (Fin rate)
        /\ rate = (li * Rpower (IZR (Controller.warmup_nsteps self))
                               (- (1 / 2)))%R
        /\ forall tolerance : R,
             (0 < tolerance)%R ->
             (Rabs (rate - li * Rpower (IZR (Controller.warmup_nsteps self))
                                       (- (1 / 2))) < tolerance)%R).
Proof.
  intros Hw Hi.
  assert (Hbranch : fgt (Controller.warmup_start_lr self) (Fin 0) = false).
  { rewrite Hw. unfold fgt. simpl. apply R_ltb_ge. lra. }
  split; [|split].
  - intros step. rewrite warmup_lr_inverse_sqrt by done. by rewrite Hi.
  - intros step Hs Hn. by apply warmup_lr_inverse_sqrt_real.
  - intros Hn. eexists. split; [by apply warmup_lr_inverse_sqrt_real|].
    assert (Heq : (li * Rmin (Rpower (IZR (Controller.warmup_nsteps self))
                                     (- (1 / 2)))
                             (IZR (Controller.warmup_nsteps self)
                              * Rpower (IZR (Controller.warmup_nsteps self))
                                       (- (3 / 2)))
                   = li * Rpower (IZR (Controller.warmup_nsteps self))
                                 (- (1 / 2)))%R).
    { rewrite Rpower_arms_meet by by apply IZR_pos.
      unfold Rmin. by destruct (Rle_dec _ _). }
    split; [exact Heq|].
    intros tolerance Ht. rewrite Heq.
    rewrite Rminus_diag, Rabs_R0. done.
Qed.

(** [warmup_inverse_sqrt_schedule] at work, at the end of the warm-up. *)
Lemma warmup_inverse_sqrt_schedule_witness :
  Controller.warmup_start_lr warmup_controller = Fin 0
  /\ Controller.lr_init warmup_controller = Fin 1
  /\ snd <$> Controller.warmup_lr warmup_controller sgd_optimizer (Fin 1) 4000
     = Ok (Fin (1 * Rmin (Rpower 4000 (- (1 / 2)))
                         (4000 * Rpower 4000 (- (3 / 2))))).
Proof.
  repeat (split; [reflexivity|]).
  destruct (warmup_inverse_sqrt_schedule warmup_controller sgd_optimizer
              (Fin 1) 1 eq_refl eq_refl) as (_ & Hreal & _).
  refine (Hreal 4000 _ _); simpl; lia.
Defined.

(** ** Controller: what is written to the optimizer *)

Lemma for_param_groups_insert (field : string) (v : pyval)
    (optimizer : Optimizer) :
  sets_field field v optimizer
    (for_param_groups (fun g => <[field := v]> g) optimizer).
Proof.
  unfold sets_field, for_param_groups. simpl.
  split; [done|]. split; [by rewrite length_map|].
  intros i g Hg. exists (<[field := v]> g).
  rewrite list_lookup_fmap, Hg. split; [done|].
  split; [by rewrite lookup_insert_eq|].
  intros k Hk. by rewrite lookup_insert_ne.
Qed.

Lemma update_optimizer_sets (optimizer : Optimizer) (lr : pyfloat) :
  sets_field (decay_field optimizer) (PyFloat lr) optimizer
    (Controller.update_optimizer optimizer lr).
Proof.
  unfold Controller.update_optimizer, decay_field.
  destruct (isinstance_Adadelta optimizer); apply for_param_groups_insert.
Qed.

(** C5.  The code departs from the claim, and from its own sibling: both
    update loops of [decay_lr] write to [eps] for Adadelta, the loop of
    [warmup_lr] has no such case.  On one and the same Adadelta optimizer
    (groups with [lr] 1 and [eps] 1e-6 and 1e-8), [decay_lr] with the
    per-epoch policy and decay rate 1/2 writes the decayed rate 1/2 under
    [eps] of both groups and leaves [lr], whereas [warmup_lr] on a linear
    warm-up from 1/2 to 1 over 2 steps writes the rate of step 1, 3/4,
    under [lr] of both groups and leaves their [eps] as they were. *)
Lemma warmup_writes_lr_of_adadelta :
  isinstance_Adadelta adadelta_optimizer = true
  /\ (self ← Controller.__init__ (Fin 1) "epoch" 0 (Fin (1 / 2)) 1 true
               (Fin 10000) 1 (Fin (1 / 2)) 2 (Fin 1);
      Ok (map (fun g : gmap string pyval => (g !! "lr", g !! "eps"))
              (param_groups
                 (Controller.decay_lr self adadelta_optimizer (Fin 1) 0
                    (Fin 0)).2.1)))
     = Ok [ (Some (PyFloat (Fin 1)), Some (PyFloat (Fin (1 * (1 / 2)))));
            (Some (PyFloat (Fin 1)), Some (PyFloat (Fin (1 * (1 / 2))))) ]
  /\ (self ← Controller.__init__ (Fin 1) "warmup" 0 (Fin (1 / 2)) 1 true
               (Fin 10000) 1 (Fin (1 / 2)) 2 (Fin 1);
      out ← Controller.warmup_lr self adadelta_optimizer (Fin 1) 1;
      Ok (map (fun g : gmap string pyval => (g !! "lr", g !! "eps"))
              (param_groups out.1)))
     = Ok [ (Some (PyFloat (Fin ((1 + - (1 / 2)) / 2 * 1 + 1 / 2))),
             Some (PyFloat (Fin (1 / 1000000))));
            (Some (PyFloat (Fin ((1 + - (1 / 2)) / 2 * 1 + 1 / 2))),
             Some (PyFloat (Fin (1 / 100000000)))) ]
  /\ ((1 + - (1 / 2)) / 2 * 1 + 1 / 2 = 3 / 4)%R.
Proof.
  split; [reflexivity|]. split; [|split; [|lra]].
  - unfold Controller.__init__, Controller.decay_lr,
      Controller.update_optimizer, fgt.
    repeat (simpl; decide_R).
    repeat first [ rewrite lookup_insert_eq
                 | rewrite lookup_insert_ne by done ].
    reflexivity.
  - unfold Controller.__init__, Controller.warmup_lr, py_truediv, fgt.
    repeat (simpl; decide_R).
    repeat first [ rewrite lookup_insert_eq
                 | rewrite lookup_insert_ne by done ].
    reflexivity.
Qed.

(** The frame of both methods, as the code has it.  [decay_lr] either
    returns the optimizer and the rate it was given (no decay at this
    call), or returns [lr * decay_rate] and has written it to every
    parameter group: under [eps] for Adadelta, under [lr] otherwise.
    [warmup_lr], when it returns, has written the rate it returns under
    [lr] of every parameter group; its loop does not look at the optimizer
    class.  In both, no other key of any group and no other part of the
    optimizer has changed. *)
Theorem rate_updates_frame (self : Controller.t) (optimizer : Optimizer)
    (lr : pyfloat) :
  (forall epoch value,
      let out := Controller.decay_lr self optimizer lr epoch value in
      (out.2 = (optimizer, lr))
      \/ (out.2.2 = fmul lr (Controller.decay_rate self)
          /\ sets_field (if isinstance_Adadelta optimizer then "eps" else "lr")
               (PyFloat out.2.2) optimizer out.2.1))
  /\ (forall step out,
        Controller.warmup_lr self optimizer lr step = Ok out ->
        sets_field "lr" (PyFloat out.2) optimizer out.1).
Proof.
  split.
  - intros epoch value. unfold Controller.decay_lr.
    repeat match goal with
           | |- context [if ?b then _ else _] =>
               lazymatch b with
               | isinstance_Adadelta _ => fail
               | _ => destruct b
               end
           end;
      cbn [fst snd]; try (left; reflexivity);
      right; (split; [reflexivity | apply update_optimizer_sets]).
  - intros step out. unfold Controller.warmup_lr.
    destruct (fgt _ _).
    + destruct (py_truediv _ _); simpl; [|done].
      intros [= <-]. apply for_param_groups_insert.
    + simpl. intros [= <-]. apply for_param_groups_insert.
Qed.

(** ** Controller: sign of the rate *)


(** Why the warm-up arguments matter for the sign: a negative [factor]
    gives a negative rate at step 1, a warm-up start rate above
    [learning_rate] gives a negative rate once the line has fallen far
    enough (start 2, maximum 1, one warm-up step, step 3: -1), and a
    negative [model_size] gives [nan]. *)
Lemma warmup_rate_follows_warmup_arguments :
  (exists lr' : R,
      (self ← Controller.__init__ (Fin 1) "warmup" 0 (Fin (1 / 2)) 1 true
                (Fin 10000) 1 (Fin 0) 4000 (Fin (- 1));
       snd <$> Controller.warmup_lr self sgd_optimizer (Fin 1) 1)
      = Ok (Fin lr') /\ (lr' < 0)%R)
  /\ (exists lr' : R,
        (self ← Controller.__init__ (Fin 1) "warmup" 0 (Fin (1 / 2)) 1 true
                  (Fin 10000) 1 (Fin 2) 1 (Fin 1);
         snd <$> Controller.warmup_lr self sgd_optimizer (Fin 1) 3)
        = Ok (Fin lr') /\ lr' = (- 1)%R)
  /\ (self ← Controller.__init__ (Fin 1) "warmup" 0 (Fin (1 / 2)) 1 true
                (Fin 10000) (- 1) (Fin 0) 4000 (Fin 1);
      snd <$> Controller.warmup_lr self sgd_optimizer (Fin 1) 1)
     = Ok NaN.
Proof.
  split; [|split].
  - unfold Controller.__init__. simpl. unfold fgt. simpl. decide_R.
    rewrite np_power_pos by lra. cbn [fmul]. eexists. split.
    + apply warmup_lr_inverse_sqrt_real;
        first [apply flt_irrefl | reflexivity | simpl; lia].
    + cbn [Controller.warmup_nsteps].
      assert (0 < Rmin (Rpower 1 (- (1 / 2))) (1 * Rpower 4000 (- (3 / 2))))%R.
      { apply Rmin_glb_lt; [apply Rpower_pos|].
        apply Rmult_lt_0_compat; [lra | apply Rpower_pos]. }
      pose proof (Rpower_pos 1 (- (1 / 2))). nra.
  - eexists. split.
    + unfold Controller.__init__, Controller.warmup_lr, py_truediv, fgt.
      repeat (simpl; decide_R). reflexivity.
    + lra.
  - unfold Controller.__init__, Controller.warmup_lr, fgt, np_power.
    repeat (simpl; decide_R). reflexivity.
Qed.





(** ** Error-rate scorer *)

Lemma py_truediv_int (a b : Z) :
  py_truediv (of_int a) (of_int b)
  = if b =? 0 then Raise ZeroDivisionError else Ok (Fin (IZR a / IZR b)).
Proof.
  unfold py_truediv, of_int. cbn [feq].
  destruct (Z.eqb_spec b 0) as [->|Hb].
  - by rewrite (proj2 (R_eqb_eq 0 0)).
  - assert (IZR b <> 0%R) by (intros H; by apply eq_IZR in H).
    rewrite (proj2 (R_eqb_neq (IZR b) 0)) by done.
    cbn [fdiv_ieee]. by rewrite (proj2 (R_eqb_neq (IZR b) 0)).
Qed.

Lemma finish_zero_chars (words : bool) (t : Cer.tally) :
  Cer.num_chars t = 0 -> Cer.finish words t = Raise ZeroDivisionError.
Proof.
  intros H0. unfold Cer.finish. rewrite !py_truediv_int, H0.
  destruct words; [|reflexivity].
  destruct (Cer.num_words t =? 0); reflexivity.
Qed.

Lemma finish_zero_words (t : Cer.tally) :
  Cer.num_words t = 0 -> Cer.finish true t = Raise ZeroDivisionError.
Proof.
  intros H0. unfold Cer.finish. rewrite !py_truediv_int, H0. reflexivity.
Qed.

Lemma finish_nonzero (words : bool) (t : Cer.tally) :
  Cer.num_chars t <> 0 ->
  (words = true -> Cer.num_words t <> 0) ->
  exists r,
    Cer.finish words t = Ok r
    /\ Cer.cer_rate r = Fin (IZR (Cer.cer t) / IZR (Cer.num_chars t))
    /\ Cer.wer_rate r
       = if words then Fin (IZR (Cer.wer t) / IZR (Cer.num_words t))
         else Fin 0.
Proof.
  intros Hc Hw. unfold Cer.finish. rewrite !py_truediv_int.
  destruct (Z.eqb_spec (Cer.num_chars t) 0); [done|].
  destruct words.
  - destruct (Z.eqb_spec (Cer.num_words t) 0); [by destruct Hw|].
    eexists. split; [reflexivity|]. done.
  - eexists. split; [reflexivity|]. done.
Qed.

Lemma score_utterance_chars_only compute_wer attention t u :
  Cer.num_words (Cer.score_utterance compute_wer attention false t u)
  = Cer.num_words t.
Proof.
  unfold Cer.score_utterance.
  destruct (compute_wer _ _) as [[[[? ?] ?] ?]|]; reflexivity.
Qed.

Lemma accumulate_chars_only compute_wer s ti utterances :
  Cer.scores_words s ti = false ->
  Cer.num_words (Cer.accumulate compute_wer s ti utterances) = 0.
Proof.
  intros Hw. unfold Cer.accumulate. rewrite Hw.
  generalize (match last (Cer.model_types s) with
              | Some m => contains "attention" m
              | None => false
              end). intros attention.
  enough (Hfold : forall t,
             Cer.num_words
               (fold_left (Cer.score_utterance compute_wer attention false)
                          utterances t)
             = Cer.num_words t) by apply Hfold.
  induction utterances as [|u rest IH]; intros t; [done|].
  simpl. rewrite IH. apply score_utterance_chars_only.
Qed.

(** The claim of C1 fails as stated: a pass over one utterance whose
    reference holds nothing but the silence label [@] accumulates a
    reference length of zero, and the division by [num_chars] raises. *)
Lemma zero_reference_length_raises :
  Cer.num_chars (Cer.accumulate score_identical ctc_kanji 0 [("@", "@")]) = 0
  /\ Cer.do_eval_cer score_identical ctc_kanji [("@", "@")]
     = Raise ZeroDivisionError.
Proof.
  split; [reflexivity|].
  unfold Cer.do_eval_cer. simpl. by apply finish_zero_chars.
Qed.

(** C1, amended.  Over the totals [t] of a pass:
    - the only rate reported as 0 without a division is the word rate of a
      label scheme that marks no word boundaries, whose [num_words] is
      always 0;
    - a rate whose reference length is not zero is the total over that
      length;
    - a zero reference length is not guarded: with [num_chars = 0], or
      with word boundaries and [num_words = 0], the division raises
      [ZeroDivisionError]. *)
Theorem rates_divide_by_reference_length
    (compute_wer : list string -> list string -> result (Z * Z * Z * Z))
    (s : Cer.setting) (utterances : list (string * string)) (ti : Z) :
  Cer.task_index s = Ok ti ->
  let t := Cer.accumulate compute_wer s ti utterances in
  let words := Cer.scores_words s ti in
  (words = false -> Cer.num_words t = 0)
  /\ (Cer.num_chars t <> 0 ->
      (words = true -> Cer.num_words t <> 0) ->
      exists r,
        Cer.do_eval_cer compute_wer s utterances = Ok r
        /\ Cer.cer_rate r = Fin (IZR (Cer.cer t) / IZR (Cer.num_chars t))
        /\ Cer.wer_rate r
           = if words then Fin (IZR (Cer.wer t) / IZR (Cer.num_words t))
             else Fin 0)
  /\ (Cer.num_chars t = 0 ->
      Cer.do_eval_cer compute_wer s utterances = Raise ZeroDivisionError)
  /\ (words = true -> Cer.num_words t = 0 ->
      Cer.do_eval_cer compute_wer s utterances = Raise ZeroDivisionError).
Proof.
  intros Hti t words. unfold Cer.do_eval_cer. rewrite Hti. cbn [mbind result_bind].
  fold t words. split; [|split; [|split]].
  - intros Hw. by apply accumulate_chars_only.
  - intros Hc Hw. by apply finish_nonzero.
  - intros Hc. by apply finish_zero_chars.
  - intros -> Hw. by apply finish_zero_words.
Qed.

(** [rates_divide_by_reference_length] at work: one utterance of two
    words and three characters, recognised without error. *)
Lemma rates_divide_by_reference_length_witness :
  Cer.task_index ctc_kanji_wb = Ok 0
  /\ exists r,
       Cer.do_eval_cer score_identical ctc_kanji_wb [("ab_c", "ab_c")] = Ok r
       /\ Cer.cer_rate r = Fin (0 / 3)
       /\ Cer.wer_rate r = Fin (0 / 2).
Proof.
  split; [reflexivity|].
  refine (proj1 (proj2 (rates_divide_by_reference_length score_identical
                          ctc_kanji_wb [("ab_c", "ab_c")] 0 eq_refl)) _ _).
  - simpl. lia.
  - intros _. simpl. lia.
Defined.

(** ** Dataset index *)

(** What the constructor raises once the base class and the codec have
    returned. *)
Lemma init_tail_raises `{C : Dataset.Collaborators} (a : Dataset.args)
    (cont : Dataset.DataFrame -> result Dataset.t)
    (len : Dataset.DataFrame -> result Z) (e : exn) :
  (forall df, len df = Raise e -> raised_by_collaborator e) ->
  (path ← Dataset.dataset_path a;
   df ← Dataset.read_csv path;
   df ← Dataset.loc_columns df ["frame_num"; "input_path"; "transcript"];
   df ← (if Dataset.a_sort_utt a
         then Dataset.sort_values df "frame_num" (negb (Dataset.a_reverse a))
         else Dataset.sort_values df "input_path" true);
   n ← len df;
   new_df ← Dataset.zeros_frame n ["index"];
   df ← Dataset.concat_axis1 df new_df;
   cont df) = Raise e ->
  (forall df, cont df <> Raise e) ->
  e = UnboundLocalError "dataset_path" \/ raised_by_collaborator e.
Proof.
  intros Hlen Hraise Hcont. revert Hraise. unfold Dataset.dataset_path.
  assert (forall path,
             (df ← Dataset.read_csv path;
              df ← Dataset.loc_columns df
                     ["frame_num"; "input_path"; "transcript"];
              df ← (if Dataset.a_sort_utt a
                    then Dataset.sort_values df "frame_num"
                           (negb (Dataset.a_reverse a))
                    else Dataset.sort_values df "input_path" true);
              n ← len df;
              new_df ← Dataset.zeros_frame n ["index"];
              df ← Dataset.concat_axis1 df new_df;
              cont df) = Raise e ->
             raised_by_collaborator e) as Hread.
  { intros path.
    destruct (Dataset.read_csv path) as [df0|] eqn:H0; cbn;
      [|intros [= <-]; unfold raised_by_collaborator; eauto 20].
    destruct (Dataset.loc_columns df0 _) as [df1|] eqn:H1; cbn;
      [|intros [= <-]; unfold raised_by_collaborator; eauto 20].
    destruct (Dataset.a_sort_utt a).
    - destruct (Dataset.sort_values df1 _ _) as [df2|] eqn:H2; cbn;
        [|intros [= <-]; unfold raised_by_collaborator; eauto 20].
      destruct (len df2) as [n|] eqn:Hn; cbn;
        [|intros [= <-]; by eapply Hlen].
      destruct (Dataset.zeros_frame n _) as [z|] eqn:Hz; cbn;
        [|intros [= <-]; unfold raised_by_collaborator; eauto 20].
      destruct (Dataset.concat_axis1 df2 z) as [df3|] eqn:H3; cbn;
        [|intros [= <-]; unfold raised_by_collaborator; eauto 20].
      intros H. by apply Hcont in H.
    - destruct (Dataset.sort_values df1 _ _) as [df2|] eqn:H2; cbn;
        [|intros [= <-]; unfold raised_by_collaborator; eauto 20].
      destruct (len df2) as [n|] eqn:Hn; cbn;
        [|intros [= <-]; by eapply Hlen].
      destruct (Dataset.zeros_frame n _) as [z|] eqn:Hz; cbn;
        [|intros [= <-]; unfold raised_by_collaborator; eauto 20].
      destruct (Dataset.concat_axis1 df2 z) as [df3|] eqn:H3; cbn;
        [|intros [= <-]; unfold raised_by_collaborator; eauto 20].
      intros H. by apply Hcont in H. }
  repeat match goal with
         | |- context [if ?b then _ else _] =>
             lazymatch b with
             | Dataset.a_sort_utt _ => fail
             | _ => destruct b
             end
         end; cbn; try (intros H; right; by eapply Hread).
  intros [= <-]. by left.
Qed.

(** The claim of C6 fails as stated: with collaborators that succeed, a
    request with both [shuffle] and [sort_utt] set is constructed, and
    keeps both flags. *)
Lemma shuffle_with_sort_is_accepted :
  Dataset.a_shuffle Dataset.shuffle_and_sort = true
  /\ Dataset.a_sort_utt Dataset.shuffle_and_sort = true
  /\ exists d,
       Dataset.__init__ (C := Dataset.plain_collaborators)
         Dataset.shuffle_and_sort = Ok d
       /\ Dataset.shuffle d = true
       /\ Dataset.sort_utt d = true.
Proof.
  split; [reflexivity|]. split; [reflexivity|].
  eexists. split; [reflexivity|]. split; reflexivity.
Qed.

(** C6, amended.  The constructor has no error of its own for [shuffle]
    together with [sort_utt].  Whatever it raises is the [UnboundLocalError]
    of a label type without manifest or was raised by the base class, a
    label codec or pandas.  And with both flags set, whenever those calls
    return, it returns a dataset that stores [shuffle] and [sort_utt] as
    [True] and whose frame is the manifest sorted by [frame_num]
    (ascending unless [reverse]), joined with the index column. *)
Theorem shuffle_with_sort_is_constructed `{C : Dataset.Collaborators}
    (a : Dataset.args) :
  (forall e,
      Dataset.__init__ a = Raise e ->
      e = UnboundLocalError "dataset_path" \/ raised_by_collaborator e)
  /\ (forall b m path df0 df1 df2 n z df3,
        Dataset.a_shuffle a = true ->
        Dataset.a_sort_utt a = true ->
        Dataset.DatasetBase_init (Dataset.a_vocab_file_path a) = Ok b ->
        (if contains "word" (Dataset.a_label_type a)
         then Dataset.Word2idx (Dataset.a_vocab_file_path a)
         else Dataset.Char2idx (Dataset.a_vocab_file_path a) true) = Ok m ->
        Dataset.dataset_path a = Ok path ->
        Dataset.read_csv path = Ok df0 ->
        Dataset.loc_columns df0 ["frame_num"; "input_path"; "transcript"]
        = Ok df1 ->
        Dataset.sort_values df1 "frame_num" (negb (Dataset.a_reverse a))
        = Ok df2 ->
        Dataset.len_self b (Dataset.stored a) m df2 = Ok n ->
        Dataset.zeros_frame n ["index"] = Ok z ->
        Dataset.concat_axis1 df2 z = Ok df3 ->
        exists d,
          Dataset.__init__ a = Ok d
          /\ Dataset.shuffle d = true
          /\ Dataset.sort_utt d = true
          /\ Dataset.df d = df3).
Proof.
  split.
  - intros e. unfold Dataset.__init__, raised_by_collaborator.
    destruct (Dataset.DatasetBase_init _) as [b|] eqn:Hb; cbn;
      [|intros [= <-]; eauto 20].
    destruct (contains "word" (Dataset.a_label_type a)).
    + destruct (Dataset.Word2idx _) as [m|] eqn:Hm; cbn;
        [|intros [= <-]; eauto 20].
      intros H.
      eapply (init_tail_raises a _ (Dataset.len_self b (Dataset.stored a) m));
        [|exact H|done].
      intros df Hlen. unfold raised_by_collaborator. eauto 20.
    + destruct (Dataset.Char2idx _ _) as [m|] eqn:Hm; cbn;
        [|intros [= <-]; eauto 20].
      intros H.
      eapply (init_tail_raises a _ (Dataset.len_self b (Dataset.stored a) m));
        [|exact H|done].
      intros df Hlen. unfold raised_by_collaborator. eauto 20.
  - intros b m path df0 df1 df2 n z df3 Hs Hu Hb Hm Hp H0 H1 H2 Hn Hz H3.
    unfold Dataset.__init__.
    rewrite Hb. cbn. rewrite Hm. cbn. rewrite Hp. cbn. rewrite H0. cbn.
    rewrite H1. cbn. rewrite Hu, H2. cbn. rewrite Hn. cbn. rewrite Hz. cbn.
    rewrite H3. cbn. eexists. split; [reflexivity|]. cbn. by rewrite Hs.
Qed.

(** [shuffle_with_sort_is_constructed] at work: over collaborators whose
    [sort_values] sorts, the request with both flags set gives a dataset
    with both flags set and the two rows by rising frame count. *)
Lemma shuffle_with_sort_is_constructed_witness :
  exists d,
    Dataset.__init__ (C := Dataset.sorting_collaborators)
      Dataset.shuffle_and_sort = Ok d
    /\ Dataset.shuffle d = true
    /\ Dataset.sort_utt d = true
    /\ Dataset.df d = [(80, "b.npy", "c"); (120, "a.npy", "ab")].
Proof.
  exact (proj2 (shuffle_with_sort_is_constructed
                  (C := Dataset.sorting_collaborators)
                  Dataset.shuffle_and_sort)
           tt "vocab.txt"
           "/n/sd8/inaguma/corpus/csj/dataset/numpy/subset/train/dataset_kanji.csv"
           [(120, "a.npy", "ab"); (80, "b.npy", "c")]
           [(120, "a.npy", "ab"); (80, "b.npy", "c")]
           [(80, "b.npy", "c"); (120, "a.npy", "ab")]
           2 [] [(80, "b.npy", "c"); (120, "a.npy", "ab")]
           eq_refl eq_refl eq_refl eq_refl eq_refl eq_refl eq_refl eq_refl
           eq_refl eq_refl eq_refl).
Defined.

(** ** Reporter *)

Lemma ensure_list_known (obs : gmap string (gmap string (list pyfloat)))
    (category name : string) (d : gmap string (list pyfloat)) :
  obs !! category = Some d ->
  Reporter.ensure_list obs category name
  = Ok (match d !! name with
        | Some _ => obs
        | None => <[category := <[name := []]> d]> obs
        end).
Proof.
  intros Hd. unfold Reporter.ensure_list, getitem. rewrite Hd. simpl.
  by destruct (d !! name).
Qed.

Lemma ensure_list_unknown (obs : gmap string (gmap string (list pyfloat)))
    (category name : string) :
  obs !! category = None ->
  Reporter.ensure_list obs category name = Raise (KeyError category).
Proof. intros Hd. unfold Reporter.ensure_list, getitem. by rewrite Hd. Qed.

(** After [ensure_list], the append succeeds, and the list under [name] is
    the old one (or the empty one) with [v] at its end. *)
Lemma append_after_ensure (obs : gmap string (gmap string (list pyfloat)))
    (category name : string) (d : gmap string (list pyfloat)) (v : pyfloat) :
  obs !! category = Some d ->
  Reporter.append_obs
    (match d !! name with
     | Some _ => obs
     | None => <[category := <[name := []]> d]> obs
     end) category name v
  = Ok (<[category := <[name := default [] (d !! name) ++ [v]]> d]> obs).
Proof.
  intros Hd. unfold Reporter.append_obs, getitem.
  destruct (d !! name) as [l|] eqn:Hn.
  - rewrite Hd. simpl. by rewrite Hn.
  - rewrite lookup_insert_eq. simpl. rewrite lookup_insert_eq. simpl.
    by rewrite !insert_insert_eq.
Qed.

Lemma series_insert (obs : gmap string (gmap string (list pyfloat)))
    (category name : string) (d : gmap string (list pyfloat))
    (l : list pyfloat) :
  series (<[category := <[name := l]> d]> obs) category name = Some l.
Proof. unfold series. rewrite lookup_insert_eq. simpl. apply lookup_insert_eq. Qed.

Lemma local_mean_buffered (r : Reporter.t) (category name : string)
    (d : gmap string (list pyfloat)) (buf : list pyfloat) :
  Reporter.obs_train_local r !! category = Some d ->
  d !! name = Some buf ->
  Reporter.local_mean r category name = Ok (np_mean buf).
Proof.
  intros Hd Hn. unfold Reporter.local_mean, getitem. rewrite Hd. simpl.
  by rewrite Hn.
Qed.

(** The infinity check changes nothing but the log. *)
Lemma warn_if_inf (k : string) (v : pyfloat) (r : Reporter.t) :
  exists r0,
    Reporter.when (is_inf v)
      (Reporter.logger_warning
         ("WARNING: received an inf loss for " +:+ k +:+ ".")) r
    = (r0, Ok tt)
    /\ Reporter.obs_train_local r0 = Reporter.obs_train_local r
    /\ Reporter.obs_train r0 = Reporter.obs_train r
    /\ Reporter.obs_dev r0 = Reporter.obs_dev r
    /\ Reporter._step r0 = Reporter._step r
    /\ Reporter.steps r0 = Reporter.steps r
    /\ Reporter.tf_writer r0 = Reporter.tf_writer r
    /\ Reporter.tensorboard r0 = Reporter.tensorboard r
    /\ Reporter.logged r0
       = Reporter.logged r
         ++ (if is_inf v
             then [Reporter.LogWarning
                     ("WARNING: received an inf loss for " +:+ k +:+ ".")]
             else []).
Proof.
  unfold Reporter.when, Reporter.logger_warning, Reporter.modify, Reporter.ret.
  destruct (is_inf v); eexists; (split; [reflexivity|]); cbn;
    rewrite ?app_nil_r; done.
Qed.

(** [add] of one observation on a training step. *)
Lemma add_train (k category name : string) (v : pyfloat) (r : Reporter.t)
    (d : gmap string (list pyfloat)) :
  split_on "." k = [category; name] ->
  Reporter.obs_train_local r !! category = Some d ->
  exists r',
    Reporter.add [(k, Some v)] false r = (r', Ok tt)
    /\ Reporter.obs_train_local r'
       = <[category := <[name := default [] (d !! name) ++ [v]]> d]>
           (Reporter.obs_train_local r)
    /\ Reporter.obs_train r' = Reporter.obs_train r
    /\ Reporter.obs_dev r' = Reporter.obs_dev r
    /\ Reporter._step r' = Reporter._step r
    /\ Reporter.steps r' = Reporter.steps r
    /\ Reporter.tf_writer r' = Reporter.tf_writer r
    /\ Reporter.tensorboard r' = Reporter.tensorboard r
    /\ Reporter.logged r'
       = Reporter.logged r
         ++ (if is_inf v
             then [Reporter.LogWarning
                     ("WARNING: received an inf loss for " +:+ k +:+ ".")]
             else []).
Proof.
  intros Hk Hd.
  destruct (warn_if_inf k v r)
    as (r0 & Hwarn & Hloc & Htr & Hdev & Hst & Hsteps & Htf & Htb & Hlog).
  eexists. split.
  - unfold Reporter.add, Reporter.add_item, Reporter.bind at 1 2 3,
      Reporter.lift at 1.
    rewrite Hk. cbn [unpack2 negb]. rewrite Hwarn.
    unfold Reporter.bind, Reporter.lift, Reporter.modify, Reporter.get,
      Reporter.ret.
    rewrite Hloc, (ensure_list_known _ _ _ d Hd).
    rewrite (append_after_ensure _ _ _ d v Hd).
    reflexivity.
  - cbn. done.
Qed.

Ltac reporter_fields :=
  cbn [Reporter.obs_train Reporter.obs_train_local Reporter.obs_dev
       Reporter._step Reporter.steps Reporter.logged Reporter.tf_writer
       Reporter.tensorboard Reporter.save_path
       Reporter.with_obs_train Reporter.with_obs_train_local
       Reporter.with_obs_dev Reporter.with_logged Reporter.with_tf_writer].

(** [add] of one observation on an evaluation step, when [name] is in the
    local buffer. *)
Lemma add_eval (k category name : string) (v : pyfloat) (r : Reporter.t)
    (dt dl dd : gmap string (list pyfloat)) (buf : list pyfloat) :
  split_on "." k = [category; name] ->
  Reporter.obs_train r !! category = Some dt ->
  Reporter.obs_train_local r !! category = Some dl ->
  dl !! name = Some buf ->
  Reporter.obs_dev r !! category = Some dd ->
  exists r',
    Reporter.add [(k, Some v)] true r = (r', Ok tt)
    /\ Reporter.obs_train r'
       = <[category := <[name := default [] (dt !! name) ++ [np_mean buf]]> dt]>
           (Reporter.obs_train r)
    /\ Reporter.obs_dev r'
       = <[category := <[name := default [] (dd !! name) ++ [v]]> dd]>
           (Reporter.obs_dev r)
    /\ Reporter.obs_train_local r' = Reporter.obs_train_local r
    /\ Reporter._step r' = Reporter._step r
    /\ Reporter.steps r' = Reporter.steps r
    /\ Reporter.logged r'
       = ((Reporter.logged r
           ++ (if is_inf v
               then [Reporter.LogWarning
                       ("WARNING: received an inf loss for " +:+ k +:+ ".")]
               else []))
          ++ [Reporter.LogInfo (k +:+ " (train, mean): ") (np_mean buf)])
         ++ [Reporter.LogInfo (k +:+ " (dev): ") v]
    /\ Reporter.tf_writer r'
       = Reporter.tf_writer r
         ++ (if Reporter.tensorboard r
             then [{| Reporter.tag := "dev/" +:+ category +:+ "/" +:+ name;
                      Reporter.scalar := v;
                      Reporter.at_step := Reporter._step r |}]
             else []).
Proof.
  intros Hk Ht Hl Hn Hd.
  destruct (warn_if_inf k v r)
    as (r0 & Hwarn & Hloc & Htr & Hdev & Hst & Hsteps & Htf & Htb & Hlog).
  destruct (Reporter.tensorboard r0) eqn:Htb0; eexists; (split; [
    unfold Reporter.add, Reporter.add_item, Reporter.bind at 1 2 3,
      Reporter.lift at 1;
    rewrite Hk; cbn [unpack2 negb]; rewrite Hwarn;
    unfold Reporter.logger_info, Reporter.when;
    unfold Reporter.bind, Reporter.lift, Reporter.modify, Reporter.get,
      Reporter.ret;
    rewrite Htr, (ensure_list_known _ _ _ dt Ht);
    rewrite (local_mean_buffered _ category name dl buf)
      by (reporter_fields; by rewrite ?Hloc);
    rewrite (append_after_ensure _ _ _ dt _ Ht);
    reporter_fields;
    rewrite Hdev, (ensure_list_known _ _ _ dd Hd);
    rewrite (append_after_ensure _ _ _ dd v Hd);
    reporter_fields; rewrite Htb0;
    reflexivity |]); cbn;
    rewrite Hlog, Htf, ?Hst, <- Htb, ?app_nil_r; done.
Qed.

Lemma local_mean_unbuffered (r : Reporter.t) (category name : string)
    (d : gmap string (list pyfloat)) :
  Reporter.obs_train_local r !! category = Some d ->
  d !! name = None ->
  Reporter.local_mean r category name = Raise (KeyError name).
Proof.
  intros Hd Hn. unfold Reporter.local_mean, getitem. rewrite Hd. simpl.
  by rewrite Hn.
Qed.

Lemma local_mean_returns (r : Reporter.t) (category name : string)
    (m : pyfloat) :
  Reporter.local_mean r category name = Ok m ->
  exists buf, series (Reporter.obs_train_local r) category name = Some buf.
Proof.
  unfold Reporter.local_mean, getitem, series.
  destruct (Reporter.obs_train_local r !! category) as [d|]; [|done]. simpl.
  destruct (d !! name) as [buf|]; [|done]. by exists buf.
Qed.

Lemma unpack2_returns (l : list string) (a b : string) :
  unpack2 l = Ok (a, b) -> l = [a; b].
Proof.
  destruct l as [|x [|y [|z l]]]; simpl; try done. by intros [= -> ->].
Qed.

(** [add] of one observation on an evaluation step, when [name] is not in
    the local buffer: the look-up inside [np.mean(...)] raises, after the
    train history got its (possibly new, empty) list and before anything
    is appended or the dev history is touched. *)
Lemma add_eval_unbuffered (k category name : string) (v : pyfloat)
    (r : Reporter.t) (dt dl : gmap string (list pyfloat)) :
  split_on "." k = [category; name] ->
  Reporter.obs_train r !! category = Some dt ->
  Reporter.obs_train_local r !! category = Some dl ->
  dl !! name = None ->
  exists r',
    Reporter.add [(k, Some v)] true r = (r', Raise (KeyError name))
    /\ Reporter.obs_dev r' = Reporter.obs_dev r
    /\ Reporter.obs_train_local r' = Reporter.obs_train_local r
    /\ Reporter.obs_train r'
       = match dt !! name with
         | Some _ => Reporter.obs_train r
         | None => <[category := <[name := []]> dt]> (Reporter.obs_train r)
         end
    /\ Reporter._step r' = Reporter._step r
    /\ Reporter.steps r' = Reporter.steps r
    /\ Reporter.tf_writer r' = Reporter.tf_writer r.
Proof.
  intros Hk Ht Hl Hn.
  destruct (warn_if_inf k v r)
    as (r0 & Hwarn & Hloc & Htr & Hdev & Hst & Hsteps & Htf & Htb & Hlog).
  eexists. split.
  - unfold Reporter.add, Reporter.add_item, Reporter.bind at 1 2 3,
      Reporter.lift at 1.
    rewrite Hk. cbn [unpack2 negb]. rewrite Hwarn.
    unfold Reporter.logger_info, Reporter.when.
    unfold Reporter.bind, Reporter.lift, Reporter.modify, Reporter.get,
      Reporter.ret.
    rewrite Htr, (ensure_list_known _ _ _ dt Ht).
    rewrite (local_mean_unbuffered _ category name dl)
      by (reporter_fields; by rewrite ?Hloc).
    reflexivity.
  - cbn. done.
Qed.

(** An evaluation-step [add] that returns has found [name] in the local
    buffer. *)
Lemma add_eval_returns (k : string) (v : pyfloat) (r r' : Reporter.t) :
  Reporter.add [(k, Some v)] true r = (r', Ok tt) ->
  exists category name buf,
    split_on "." k = [category; name]
    /\ series (Reporter.obs_train_local r) category name = Some buf.
Proof.
  destruct (warn_if_inf k v r)
    as (r0 & Hwarn & Hloc & Htr & Hdev & Hst & Hsteps & Htf & Htb & Hlog).
  unfold Reporter.add, Reporter.add_item, Reporter.bind at 1 2 3,
    Reporter.lift at 1.
  destruct (unpack2 (split_on "." k)) as [[category name]|] eqn:Hk; [|done].
  apply unpack2_returns in Hk.
  cbn [negb]. rewrite Hwarn.
  unfold Reporter.logger_info, Reporter.when.
  unfold Reporter.bind, Reporter.lift, Reporter.modify, Reporter.get,
    Reporter.ret.
  destruct (Reporter.ensure_list (Reporter.obs_train r0) category name)
    as [o1|]; [|done].
  destruct (Reporter.local_mean _ category name) as [m|] eqn:Hm; [|done].
  intros _. apply local_mean_returns in Hm as [buf Hbuf].
  revert Hbuf. reporter_fields. rewrite Hloc. intros Hbuf.
  by exists category, name, buf.
Qed.

(** One training iteration: the value joins the local buffer and the step
    counter advances. *)
Lemma record_and_advance_train (k category name : string) (v : pyfloat)
    (r : Reporter.t) (d : gmap string (list pyfloat)) :
  split_on "." k = [category; name] ->
  Reporter.obs_train_local r !! category = Some d ->
  exists r',
    record_and_advance k v false r = (r', Ok tt)
    /\ Reporter.obs_train_local r'
       = <[category := <[name := default [] (d !! name) ++ [v]]> d]>
           (Reporter.obs_train_local r)
    /\ Reporter.obs_train r' = Reporter.obs_train r
    /\ Reporter.obs_dev r' = Reporter.obs_dev r
    /\ Reporter._step r' = Reporter._step r + 1
    /\ Reporter.steps r' = Reporter.steps r.
Proof.
  intros Hk Hd.
  destruct (add_train k category name v r d Hk Hd)
    as (r1 & Hadd & Hloc & Htr & Hdev & Hst & Hsteps & _).
  eexists. split.
  - unfold record_and_advance, Reporter.bind. rewrite Hadd. reflexivity.
  - cbn. rewrite Hst. done.
Qed.

Lemma np_mean_3 (a b c : R) :
  np_mean [Fin a; Fin b; Fin c] = Fin ((a + b + c) / 3).
Proof.
  unfold np_mean, np_sum. cbn [fold_left fadd length].
  rewrite INR_IZR_INZ. change (Z.of_nat 3) with 3.
  cbn [fdiv_ieee]. rewrite (proj2 (R_eqb_neq 3 0)) by lra.
  f_equal. lra.
Qed.

(** C7.  Three training iterations that record the same metric, then an
    evaluation step: the [add] of the evaluation step appends the mean of
    the three buffered values to the train history of the metric and the
    incoming value to its dev history, and the [step(is_eval=True)] that
    follows appends the step count it has just reached to [steps] and
    resets the local buffer. *)
Theorem three_train_steps_then_eval (k category name : string)
    (a b c : R) (dev : pyfloat) (r : Reporter.t)
    (dt dl dd : gmap string (list pyfloat)) :
  split_on "." k = [category; name] ->
  Reporter.obs_train r !! category = Some dt ->
  Reporter.obs_train_local r !! category = Some dl ->
  dl !! name = None ->
  Reporter.obs_dev r !! category = Some dd ->
  let '(r1, o1) := record_and_advance k (Fin a) false r in
  let '(r2, o2) := record_and_advance k (Fin b) false r1 in
  let '(r3, o3) := record_and_advance k (Fin c) false r2 in
  let '(r4, o4) := Reporter.add [(k, Some dev)] true r3 in
  let r5 := Reporter.step true r4 in
  (o1 = Ok tt /\ o2 = Ok tt /\ o3 = Ok tt /\ o4 = Ok tt)
  /\ series (Reporter.obs_train_local r3) category name
     = Some [Fin a; Fin b; Fin c]
  /\ series (Reporter.obs_train r4) category name
     = Some (default [] (dt !! name) ++ [Fin ((a + b + c) / 3)])
  /\ series (Reporter.obs_dev r4) category name
     = Some (default [] (dd !! name) ++ [dev])
  /\ Reporter._step r5 = Reporter._step r + 4
  /\ Reporter.steps r5 = Reporter.steps r ++ [Reporter._step r5]
  /\ Reporter.obs_train_local r5 = Reporter.empty_obs.
Proof.
  intros Hk Ht Hl Hn Hd.
  destruct (record_and_advance_train k category name (Fin a) r dl Hk Hl)
    as (r1 & -> & Hl1 & Ht1 & Hd1 & Hs1 & Hx1).
  rewrite Hn in Hl1. cbn [default app] in Hl1.
  destruct (record_and_advance_train k category name (Fin b) r1
              (<[name := [Fin a]]> dl) Hk)
    as (r2 & -> & Hl2 & Ht2 & Hd2 & Hs2 & Hx2).
  { rewrite Hl1. apply lookup_insert_eq. }
  rewrite lookup_insert_eq, Hl1, !insert_insert_eq in Hl2.
  cbn [default app] in Hl2.
  destruct (record_and_advance_train k category name (Fin c) r2
              (<[name := [Fin a; Fin b]]> dl) Hk)
    as (r3 & -> & Hl3 & Ht3 & Hd3 & Hs3 & Hx3).
  { rewrite Hl2. apply lookup_insert_eq. }
  rewrite lookup_insert_eq, Hl2, !insert_insert_eq in Hl3.
  cbn [default app] in Hl3.
  destruct (add_eval k category name dev r3 dt
              (<[name := [Fin a; Fin b; Fin c]]> dl) dd
              [Fin a; Fin b; Fin c] Hk)
    as (r4 & -> & Ht4 & Hd4 & Hl4 & Hs4 & Hx4 & _).
  { by rewrite Ht3, Ht2, Ht1. }
  { rewrite Hl3. apply lookup_insert_eq. }
  { apply lookup_insert_eq. }
  { by rewrite Hd3, Hd2, Hd1. }
  rewrite np_mean_3, Ht3, Ht2, Ht1 in Ht4.
  rewrite Hd3, Hd2, Hd1 in Hd4.
  split; [done|]. split; [by rewrite Hl3, series_insert|].
  split; [by rewrite Ht4, series_insert|].
  split; [by rewrite Hd4, series_insert|].
  cbn. rewrite Hs4, Hs3, Hs2, Hs1, Hx4, Hx3, Hx2, Hx1.
  split; [lia|done].
Qed.

(** [three_train_steps_then_eval] at work on a fresh reporter: the losses
    1, 2, 3 on training steps, then 4 on the evaluation step. *)
Lemma three_train_steps_then_eval_witness :
  let r := Reporter.__init__ "exp" true in
  let '(r1, o1) := record_and_advance "loss.total" (Fin 1) false r in
  let '(r2, o2) := record_and_advance "loss.total" (Fin 2) false r1 in
  let '(r3, o3) := record_and_advance "loss.total" (Fin 3) false r2 in
  let '(r4, o4) := Reporter.add [("loss.total", Some (Fin 4))] true r3 in
  let r5 := Reporter.step true r4 in
  (o1 = Ok tt /\ o2 = Ok tt /\ o3 = Ok tt /\ o4 = Ok tt)
  /\ series (Reporter.obs_train_local r3) "loss" "total"
     = Some [Fin 1; Fin 2; Fin 3]
  /\ series (Reporter.obs_train r4) "loss" "total"
     = Some ([] ++ [Fin ((1 + 2 + 3) / 3)])
  /\ series (Reporter.obs_dev r4) "loss" "total" = Some ([] ++ [Fin 4])
  /\ Reporter._step r5 = 0 + 4
  /\ Reporter.steps r5 = [] ++ [Reporter._step r5]
  /\ Reporter.obs_train_local r5 = Reporter.empty_obs.
Proof.
  exact (three_train_steps_then_eval "loss.total" "loss" "total" 1 2 3
           (Fin 4) (Reporter.__init__ "exp" true) ∅ ∅ ∅
           eq_refl eq_refl eq_refl eq_refl eq_refl).
Defined.

(** C10.  For a metric [category.name] of a reporter that knows the
    category, with [dl] the local-train buffer of the category:
    - when [name] is not in [dl], an evaluation-step [add] raises
      [KeyError] on that name and leaves the dev history as it was;
    - an evaluation-step [add] returns exactly when [name] is in [dl];
    - after [step(is_eval=True)] the evaluation-step [add] raises the
      [KeyError], whatever [dl] held before, since that step empties the
      buffer;
    - after [step(is_eval=False)] a buffered name is still accepted.
    So a dev value is accepted only if a train value of the same name was
    buffered since the last evaluation step. *)
Theorem dev_value_needs_buffered_train (k category name : string)
    (v : pyfloat) (r : Reporter.t) (dt dl : gmap string (list pyfloat)) :
  split_on "." k = [category; name] ->
  Reporter.obs_train r !! category = Some dt ->
  Reporter.obs_train_local r !! category = Some dl ->
  (dl !! name = None ->
   exists r',
     Reporter.add [(k, Some v)] true r = (r', Raise (KeyError name))
     /\ Reporter.obs_dev r' = Reporter.obs_dev r)
  /\ (forall dd,
        Reporter.obs_dev r !! category = Some dd ->
        (exists r', Reporter.add [(k, Some v)] true r = (r', Ok tt))
        <-> (exists buf, dl !! name = Some buf))
  /\ (Reporter.empty_obs !! category = Some ∅ ->
      exists r',
        Reporter.add [(k, Some v)] true (Reporter.step true r)
        = (r', Raise (KeyError name))
        /\ Reporter.obs_dev r' = Reporter.obs_dev r)
  /\ (forall dd buf,
        Reporter.obs_dev r !! category = Some dd ->
        dl !! name = Some buf ->
        exists r',
          Reporter.add [(k, Some v)] true (Reporter.step false r)
          = (r', Ok tt)).
Proof.
  intros Hk Ht Hl. split; [|split; [|split]].
  - intros Hn.
    destruct (add_eval_unbuffered k category name v r dt dl Hk Ht Hl Hn)
      as (r' & Hadd & Hdev & _).
    by exists r'.
  - intros dd Hd. split.
    + intros [r' Hadd].
      destruct (add_eval_returns k v r r' Hadd)
        as (category2 & name2 & buf & Hk2 & Hbuf).
      rewrite Hk in Hk2. injection Hk2 as <- <-.
      unfold series in Hbuf. rewrite Hl in Hbuf. by exists buf.
    + intros [buf Hbuf].
      destruct (add_eval k category name v r dt dl dd buf Hk Ht Hl Hbuf Hd)
        as (r' & Hadd & _).
      by exists r'.
  - intros Hcat.
    destruct (add_eval_unbuffered k category name v (Reporter.step true r)
                dt ∅ Hk)
      as (r' & Hadd & Hdev & _); try done.
    by exists r'.
  - intros dd buf Hd Hbuf.
    destruct (add_eval k category name v (Reporter.step false r)
                dt dl dd buf Hk)
      as (r' & Hadd & _); try done.
    by exists r'.
Qed.

(** [dev_value_needs_buffered_train] at work: after one training iteration
    that recorded the loss 1, a dev loss is accepted if a training step
    comes in between, and refused with the [KeyError] if an evaluation step
    does. *)
Lemma dev_value_needs_buffered_train_witness :
  let r := (record_and_advance "loss.total" (Fin 1) false
              (Reporter.__init__ "exp" true)).1 in
  series (Reporter.obs_train_local r) "loss" "total" = Some [Fin 1]
  /\ (exists r',
         Reporter.add [("loss.total", Some (Fin 4))] true
           (Reporter.step false r)
         = (r', Ok tt))
  /\ (exists r',
         Reporter.add [("loss.total", Some (Fin 4))] true
           (Reporter.step true r)
         = (r', Raise (KeyError "total"))
         /\ Reporter.obs_dev r' = Reporter.obs_dev r).
Proof.
  intros r.
  pose proof (dev_value_needs_buffered_train "loss.total" "loss" "total"
                (Fin 4) r ∅ (<["total" := [Fin 1]]> ∅)
                eq_refl eq_refl eq_refl) as (_ & _ & Hcleared & Hkept).
  split; [reflexivity|]. split.
  - exact (Hkept ∅ [Fin 1] eq_refl eq_refl).
  - exact (Hcleared eq_refl).
Defined.

Lemma local_mean_unknown (r : Reporter.t) (category name : string) :
  Reporter.obs_train_local r !! category = None ->
  Reporter.local_mean r category name = Raise (KeyError category).
Proof.
  intros Hd. unfold Reporter.local_mean, getitem. by rewrite Hd.
Qed.

Lemma add_single (k : string) (v : option pyfloat) (is_eval : bool)
    (r : Reporter.t) :
  Reporter.add [(k, v)] is_eval r = Reporter.add_item k v is_eval r.
Proof.
  unfold Reporter.add, Reporter.bind, Reporter.ret.
  by destruct (Reporter.add_item k v is_eval r) as [r' [[]|e]].
Qed.

(** Whether [add] of one observation returns or raises, and what it
    raises, in terms of the keys present before the call. *)
Lemma add_outcome (k : string) (v : pyfloat) (is_eval : bool)
    (r : Reporter.t) :
  (Reporter.add [(k, Some v)] is_eval r).2
  = match unpack2 (split_on "." k) with
    | Raise e => Raise e
    | Ok (category, name) =>
        if is_eval then
          _ ← getitem (Reporter.obs_train r) category;
          dl ← getitem (Reporter.obs_train_local r) category;
          _ ← getitem dl name;
          _ ← getitem (Reporter.obs_dev r) category;
          Ok tt
        else
          _ ← getitem (Reporter.obs_train_local r) category;
          Ok tt
    end.
Proof.
  destruct (warn_if_inf k v r)
    as (r0 & Hwarn & Hloc & Htr & Hdev & _ & _ & _ & Htb & _).
  rewrite add_single.
  unfold Reporter.add_item, Reporter.bind at 1, Reporter.lift at 1.
  destruct (unpack2 (split_on "." k)) as [[category name]|]; [|done].
  unfold Reporter.bind at 1. rewrite Hwarn.
  unfold Reporter.logger_info, Reporter.when.
  unfold Reporter.bind, Reporter.lift, Reporter.modify, Reporter.get,
    Reporter.ret, getitem.
  destruct is_eval; cbn [negb].
  - rewrite Htr.
    destruct (Reporter.obs_train r !! category) as [dt|] eqn:Ht;
      [|by rewrite (ensure_list_unknown _ _ _ Ht)].
    rewrite (ensure_list_known _ _ _ dt Ht). cbn [mbind result_bind].
    destruct (Reporter.obs_train_local r !! category) as [dl|] eqn:Hl;
      [|by rewrite local_mean_unknown
           by (reporter_fields; by rewrite Hloc)].
    cbn [mbind result_bind].
    destruct (dl !! name) as [buf|] eqn:Hn;
      [|by rewrite (local_mean_unbuffered _ category name dl)
           by (reporter_fields; by rewrite ?Hloc)].
    rewrite (local_mean_buffered _ category name dl buf)
      by (reporter_fields; by rewrite ?Hloc).
    rewrite (append_after_ensure _ _ _ dt _ Ht).
    reporter_fields. rewrite Hdev. cbn [mbind result_bind].
    destruct (Reporter.obs_dev r !! category) as [dd|] eqn:Hd;
      [|by rewrite (ensure_list_unknown _ _ _ Hd)].
    rewrite (ensure_list_known _ _ _ dd Hd).
    rewrite (append_after_ensure _ _ _ dd v Hd).
    reporter_fields. by destruct (Reporter.tensorboard r0).
  - rewrite Hloc.
    destruct (Reporter.obs_train_local r !! category) as [dl|] eqn:Hl;
      [|by rewrite (ensure_list_unknown _ _ _ Hl)].
    rewrite (ensure_list_known _ _ _ dl Hl).
    by rewrite (append_after_ensure _ _ _ dl v Hl).
Qed.

(** C8.  An infinite value makes [add] log a warning and nothing else: the
    call returns or raises exactly as it would for any other value [w],
    and where it returns, the infinite value has been stored like any
    other (appended to the local buffer on a training step, to the dev
    history on an evaluation step), after the warning was logged. *)
Theorem infinite_value_is_warned_not_raised (k : string) (v : pyfloat)
    (r : Reporter.t) :
  v = PInf \/ v = NInf ->
  (forall is_eval w,
      (Reporter.add [(k, Some v)] is_eval r).2
      = (Reporter.add [(k, Some w)] is_eval r).2)
  /\ (forall category name d,
        split_on "." k = [category; name] ->
        Reporter.obs_train_local r !! category = Some d ->
        exists r',
          Reporter.add [(k, Some v)] false r = (r', Ok tt)
          /\ series (Reporter.obs_train_local r') category name
             = Some (default [] (d !! name) ++ [v])
          /\ Reporter.logged r'
             = Reporter.logged r
               ++ [Reporter.LogWarning
                     ("WARNING: received an inf loss for " +:+ k +:+ ".")])
  /\ (forall category name dt dl dd buf,
        split_on "." k = [category; name] ->
        Reporter.obs_train r !! category = Some dt ->
        Reporter.obs_train_local r !! category = Some dl ->
        dl !! name = Some buf ->
        Reporter.obs_dev r !! category = Some dd ->
        exists r',
          Reporter.add [(k, Some v)] true r = (r', Ok tt)
          /\ series (Reporter.obs_dev r') category name
             = Some (default [] (dd !! name) ++ [v])
          /\ series (Reporter.obs_train r') category name
             = Some (default [] (dt !! name) ++ [np_mean buf])
          /\ Reporter.logged r'
             = Reporter.logged r
               ++ [Reporter.LogWarning
                     ("WARNING: received an inf loss for " +:+ k +:+ ".");
                   Reporter.LogInfo (k +:+ " (train, mean): ") (np_mean buf);
                   Reporter.LogInfo (k +:+ " (dev): ") v]).
Proof.
  intros Hinf.
  assert (Hv : is_inf v = true) by (by destruct Hinf as [-> | ->]).
  split; [|split].
  - intros is_eval w. by rewrite !add_outcome.
  - intros category name d Hk Hd.
    destruct (add_train k category name v r d Hk Hd)
      as (r' & Hadd & Hloc & _ & _ & _ & _ & _ & _ & Hlog).
    exists r'. rewrite Hloc, series_insert, Hlog, Hv. done.
  - intros category name dt dl dd buf Hk Ht Hl Hn Hd.
    destruct (add_eval k category name v r dt dl dd buf Hk Ht Hl Hn Hd)
      as (r' & Hadd & Htr & Hdev & _ & _ & _ & Hlog & _).
    exists r'. rewrite Htr, Hdev, !series_insert, Hlog, Hv.
    rewrite <- !app_assoc. done.
Qed.

(** [infinite_value_is_warned_not_raised] at work: an infinite training
    loss on a fresh reporter. *)
Lemma infinite_value_is_warned_not_raised_witness :
  exists r',
    Reporter.add [("loss.total", Some PInf)] false
      (Reporter.__init__ "exp" true) = (r', Ok tt)
    /\ series (Reporter.obs_train_local r') "loss" "total"
       = Some ([] ++ [PInf])
    /\ Reporter.logged r'
       = [] ++ [Reporter.LogWarning
                  "WARNING: received an inf loss for loss.total."].
Proof.
  exact (proj1 (proj2 (infinite_value_is_warned_not_raised "loss.total" PInf
                         (Reporter.__init__ "exp" true) (or_introl eq_refl)))
           "loss" "total" ∅ eq_refl eq_refl).
Defined.

(* ===================================================================== *)
(** * Further properties *)
(* ===================================================================== *)

(** ** Reporter: what [add] can change *)

Lemma appended_after_ensure (obs : gmap string (gmap string (list pyfloat)))
    (c n : string) (d : gmap string (list pyfloat)) (x : pyfloat) :
  obs !! c = Some d ->
  appended obs (<[c := <[n := default [] (d !! n) ++ [x]]> d]> obs) c n x.
Proof. intros Hd. by exists d. Qed.

Lemma add_item_effect (k : string) (v : pyfloat) (is_eval : bool)
    (r : Reporter.t) :
  add_effect is_eval v r (Reporter.add_item k (Some v) is_eval r).1.
Proof.
  destruct (warn_if_inf k v r)
    as (r0 & Hwarn & Hloc & Htr & Hdev & Hst & Hsteps & Htf & Htb & _).
  assert (Hsp : Reporter.save_path r0 = Reporter.save_path r).
  { revert Hwarn. unfold Reporter.when, Reporter.logger_warning,
      Reporter.modify, Reporter.ret.
    destruct (is_inf v); by intros [= <-]. }
  unfold Reporter.add_item, Reporter.bind at 1, Reporter.lift at 1.
  destruct (unpack2 (split_on "." k)) as [[category name]|].
  2:{ unfold add_effect. cbn [fst]. destruct is_eval; naive_solver. }
  unfold Reporter.bind at 1. rewrite Hwarn.
  unfold Reporter.logger_info, Reporter.when.
  unfold Reporter.bind, Reporter.lift, Reporter.modify, Reporter.get,
    Reporter.ret.
  unfold add_effect.
  destruct is_eval; cbn [negb].
  - rewrite Htr.
    destruct (Reporter.obs_train r !! category) as [dt|] eqn:Ht.
    2:{ rewrite (ensure_list_unknown _ _ _ Ht). cbn [fst]. naive_solver. }
    rewrite (ensure_list_known _ _ _ dt Ht).
    destruct (Reporter.local_mean _ category name) as [m|].
    2:{ cbn [fst]. reporter_fields.
        repeat (split; [done|]). right. left.
        exists category, name. split; [|done]. by exists dt. }
    rewrite (append_after_ensure _ _ _ dt _ Ht).
    reporter_fields. rewrite Hdev.
    destruct (Reporter.obs_dev r !! category) as [dd|] eqn:Hd.
    2:{ rewrite (ensure_list_unknown _ _ _ Hd). cbn [fst]. reporter_fields.
        repeat (split; [done|]). right. right.
        exists category, name, m. split; [by exists dt|]. by left. }
    rewrite (ensure_list_known _ _ _ dd Hd).
    rewrite (append_after_ensure _ _ _ dd v Hd).
    reporter_fields.
    case_eq (Reporter.tensorboard r0); intros _; cbn [fst]; reporter_fields;
      (repeat (split; [done|])); right; right;
      exists category, name, m; (split; [by exists dt|]); right; by exists dd.
  - rewrite Hloc.
    destruct (Reporter.obs_train_local r !! category) as [dl|] eqn:Hl.
    2:{ rewrite (ensure_list_unknown _ _ _ Hl). cbn [fst]. naive_solver. }
    rewrite (ensure_list_known _ _ _ dl Hl).
    rewrite (append_after_ensure _ _ _ dl v Hl).
    cbn [fst]. reporter_fields.
    repeat (split; [done|]). right. exists category, name. by exists dl.
Qed.

Lemma add_item_skips_None (k : string) (is_eval : bool) (r : Reporter.t) :
  Reporter.add_item k None is_eval r = (r, Ok tt).
Proof. reflexivity. Qed.

(** A property of reporters kept by every iteration of the loop of [add]
    is kept by [add], whether it returns or raises. *)
Lemma add_preserves (P : Reporter.t -> Prop) (is_eval : bool) :
  (forall k v r, P r -> P (Reporter.add_item k (Some v) is_eval r).1) ->
  forall observation r, P r -> P (Reporter.add observation is_eval r).1.
Proof.
  intros Hitem observation.
  induction observation as [|[k [v|]] rest IH]; intros r Hr; [done| |].
  - cbn [Reporter.add]. unfold Reporter.bind at 1.
    specialize (Hitem k v r Hr).
    destruct (Reporter.add_item k (Some v) is_eval r) as [r1 [[]|e]];
      cbn [fst] in *; [by apply IH | done].
  - cbn [Reporter.add]. unfold Reporter.bind at 1.
    rewrite add_item_skips_None. by apply IH.
Qed.

(** X1.  Whatever the observation, and whether [add] returns or raises:
    [add] never moves the step counter or [steps]; on a training step it
    leaves both histories and the tensorboard writer untouched; on an
    evaluation step it leaves the local buffer untouched. *)
Theorem add_frame (observation : list (string * option pyfloat))
    (r : Reporter.t) :
  (forall is_eval,
      Reporter._step (Reporter.add observation is_eval r).1
      = Reporter._step r
      /\ Reporter.steps (Reporter.add observation is_eval r).1
         = Reporter.steps r)
  /\ (Reporter.obs_train (Reporter.add observation false r).1
      = Reporter.obs_train r
      /\ Reporter.obs_dev (Reporter.add observation false r).1
         = Reporter.obs_dev r
      /\ Reporter.tf_writer (Reporter.add observation false r).1
         = Reporter.tf_writer r)
  /\ Reporter.obs_train_local (Reporter.add observation true r).1
     = Reporter.obs_train_local r.
Proof.
  split; [|split].
  - intros is_eval.
    apply (add_preserves
             (fun r' => Reporter._step r' = Reporter._step r
                        /\ Reporter.steps r' = Reporter.steps r)); [|done].
    intros k v r1 [H1 H2].
    destruct (add_item_effect k v is_eval r1) as (-> & -> & _). done.
  - apply (add_preserves
             (fun r' => Reporter.obs_train r' = Reporter.obs_train r
                        /\ Reporter.obs_dev r' = Reporter.obs_dev r
                        /\ Reporter.tf_writer r' = Reporter.tf_writer r));
      [|done].
    intros k v r1 (H1 & H2 & H3).
    destruct (add_item_effect k v false r1)
      as (_ & _ & _ & _ & -> & -> & -> & _). done.
  - apply (add_preserves
             (fun r' => Reporter.obs_train_local r'
                        = Reporter.obs_train_local r)); [|done].
    intros k v r1 H1.
    destruct (add_item_effect k v true r1) as (_ & _ & _ & _ & -> & _). done.
Qed.

(** X2.  Observations whose values are all [None] are skipped before their
    keys are even split: [add] returns and the reporter is unchanged,
    however malformed the keys. *)
Theorem add_skips_absent_values (observation : list (string * option pyfloat))
    (is_eval : bool) (r : Reporter.t) :
  Forall (fun kv => kv.2 = None) observation ->
  Reporter.add observation is_eval r = (r, Ok tt).
Proof.
  induction 1 as [|[k v] rest Hv _ IH]; [done|].
  cbn [snd] in Hv. subst v.
  cbn [Reporter.add]. unfold Reporter.bind at 1.
  by rewrite add_item_skips_None.
Qed.

Lemma add_skips_absent_values_witness :
  Reporter.add [("no dot at all", None); ("a.b.c", None)] true
    (Reporter.__init__ "exp" false)
  = (Reporter.__init__ "exp" false, Ok tt).
Proof.
  apply add_skips_absent_values. repeat constructor.
Defined.

Lemma split_on_length (sep : ascii) (s : string) :
  length (split_on sep s) = S (count_char sep s).
Proof.
  induction s as [|c rest IH]; [done|].
  cbn [split_on count_char]. destruct (Ascii.eqb c sep).
  - cbn [length]. by rewrite IH.
  - destruct (split_on sep rest) as [|w ws]; [done|]. exact IH.
Qed.

Lemma unpack2_outcome (l : list string) :
  match unpack2 l with
  | Ok (a, b) => l = [a; b]
  | Raise e => e = ValueError /\ length l <> 2%nat
  end.
Proof. by destruct l as [|x [|y [|z l]]]. Qed.

(** X3.  A key is accepted exactly when it holds one dot: with any other
    number of dots [add] raises [ValueError] on that item, changes nothing
    and does not look at the items after it; with one dot it never raises
    [ValueError]. *)
Theorem add_needs_one_dot (k : string) (v : pyfloat) (is_eval : bool)
    (r : Reporter.t) :
  (count_char "." k <> 1%nat ->
   forall rest,
     Reporter.add ((k, Some v) :: rest) is_eval r = (r, Raise ValueError))
  /\ (count_char "." k = 1%nat ->
      (Reporter.add [(k, Some v)] is_eval r).2 <> Raise ValueError).
Proof.
  pose proof (unpack2_outcome (split_on "." k)) as Hu.
  pose proof (split_on_length "." k) as Hlen.
  split.
  - intros Hdots rest. cbn [Reporter.add].
    unfold Reporter.bind at 1, Reporter.add_item, Reporter.bind at 1,
      Reporter.lift at 1.
    destruct (unpack2 (split_on "." k)) as [[c n]|e].
    + rewrite Hu in Hlen. cbn in Hlen. lia.
    + by destruct Hu as [-> _].
  - intros Hdots. rewrite add_outcome.
    destruct (unpack2 (split_on "." k)) as [[c n]|e].
    + unfold getitem.
      destruct is_eval;
        repeat (match goal with
                | |- context [?m !! ?i] =>
                    lazymatch type of i with
                    | string => destruct (m !! i)
                    end
                end; cbn); done.
    + destruct Hu as [_ Hne]. rewrite Hlen, Hdots in Hne. done.
Qed.

Lemma add_needs_one_dot_witness :
  Reporter.add [("a.b.c", Some (Fin 1)); ("loss.total", Some (Fin 2))] false
    (Reporter.__init__ "exp" false)
  = (Reporter.__init__ "exp" false, Raise ValueError).
Proof.
  apply (proj1 (add_needs_one_dot "a.b.c" (Fin 1) false
                  (Reporter.__init__ "exp" false))).
  simpl. lia.
Defined.

(** ** Reporter: invariants of the reachable states *)

Lemma appended_dom obs obs' c n x :
  appended obs obs' c n x -> dom obs' = dom obs.
Proof. intros (d & Hd & ->). by apply dom_insert_lookup_L. Qed.

Lemma ensured_dom obs obs' c n : ensured obs obs' c n -> dom obs' = dom obs.
Proof.
  intros (d & Hd & ->). destruct (d !! n); [done|].
  by apply dom_insert_lookup_L.
Qed.

Lemma series_appended obs obs' c n x c' n' :
  appended obs obs' c n x ->
  series obs' c' n'
  = if decide (c' = c /\ n' = n)
    then Some (default [] (series obs c n) ++ [x])
    else series obs c' n'.
Proof.
  intros (d & Hd & ->). unfold series.
  destruct (decide (c' = c)) as [->|Hc].
  - rewrite lookup_insert_eq. cbn. rewrite Hd. cbn.
    destruct (decide (n' = n)) as [->|Hn].
    + rewrite lookup_insert_eq. by rewrite decide_True.
    + rewrite lookup_insert_ne by done.
      rewrite decide_False by (by intros [_ ?]). done.
  - rewrite lookup_insert_ne by done.
    rewrite decide_False by (by intros [? _]). done.
Qed.

Lemma series_ensured obs obs' c n c' n' :
  ensured obs obs' c n ->
  default [] (series obs' c' n') = default [] (series obs c' n').
Proof.
  intros (d & Hd & ->). destruct (d !! n) as [l|] eqn:Hn; [done|].
  unfold series.
  destruct (decide (c' = c)) as [->|Hc].
  - rewrite lookup_insert_eq, Hd. cbn.
    destruct (decide (n' = n)) as [->|Hn'].
    + by rewrite lookup_insert_eq, Hn.
    + by rewrite lookup_insert_ne.
  - by rewrite lookup_insert_ne.
Qed.

Lemma series_empty_obs c n : series Reporter.empty_obs c n = None.
Proof.
  unfold series, Reporter.empty_obs.
  rewrite !lookup_insert. repeat case_decide; cbn; done.
Qed.

(** X4.  The categories never change: in every reachable reporter the
    three dictionaries have exactly the keys they were created with
    ([loss], [acc], [ppl]); an observation of another category can only
    raise. *)
Theorem categories_are_fixed (r : Reporter.t) :
  reachable r ->
  dom (Reporter.obs_train r) = dom Reporter.empty_obs
  /\ dom (Reporter.obs_train_local r) = dom Reporter.empty_obs
  /\ dom (Reporter.obs_dev r) = dom Reporter.empty_obs.
Proof.
  induction 1 as [sp tb | r observation is_eval _ IH | r is_eval _ IH].
  - done.
  - revert IH.
    apply (add_preserves
             (fun r' => dom (Reporter.obs_train r') = dom Reporter.empty_obs
                        /\ dom (Reporter.obs_train_local r')
                           = dom Reporter.empty_obs
                        /\ dom (Reporter.obs_dev r')
                           = dom Reporter.empty_obs)).
    clear r observation. intros k v r (Ht & Hl & Hd).
    destruct (add_item_effect k v is_eval r) as (_ & _ & _ & _ & Heff).
    destruct is_eval.
    + destruct Heff as [-> [[-> ->] | [(c & n & He & ->)
                                      | (c & n & m & Ha & [[_ ->] | Hb])]]];
        rewrite ?(ensured_dom _ _ _ _ He), ?(appended_dom _ _ _ _ _ Ha),
          ?(appended_dom _ _ _ _ _ Hb); done.
    + destruct Heff as (-> & -> & _ & [-> | (c & n & Ha)]);
        rewrite ?(appended_dom _ _ _ _ _ Ha); done.
  - destruct IH as (Ht & Hl & Hd). destruct is_eval; done.
Qed.

Lemma categories_are_fixed_witness :
  dom (Reporter.obs_dev
         (Reporter.add [("bleu.total", Some (Fin 1))] true
            (Reporter.__init__ "exp" false)).1)
  = dom Reporter.empty_obs.
Proof.
  apply (categories_are_fixed
           (Reporter.add [("bleu.total", Some (Fin 1))] true
              (Reporter.__init__ "exp" false)).1).
  apply reachable_add, reachable_init.
Defined.

(** X5.  In every reachable reporter the train history and the dev history
    of each metric have the same length (a missing list counting as
    empty): an evaluation-step [add] appends to both or to neither. *)
Theorem histories_stay_aligned (r : Reporter.t) :
  reachable r ->
  forall c n,
    length (default [] (series (Reporter.obs_train r) c n))
    = length (default [] (series (Reporter.obs_dev r) c n)).
Proof.
  intros Hr.
  enough (Hboth : (dom (Reporter.obs_train r) = dom (Reporter.obs_dev r))
                  /\ forall c n,
                       length (default [] (series (Reporter.obs_train r) c n))
                       = length (default [] (series (Reporter.obs_dev r) c n)))
    by apply Hboth.
  induction Hr as [sp tb | r observation is_eval _ IH | r is_eval _ IH].
  - split; [done|]. intros c n. cbn. by rewrite series_empty_obs.
  - revert IH.
    apply (add_preserves
             (fun r' =>
                dom (Reporter.obs_train r') = dom (Reporter.obs_dev r')
                /\ forall c n,
                     length (default [] (series (Reporter.obs_train r') c n))
                     = length (default [] (series (Reporter.obs_dev r') c n)))).
    clear r observation. intros k v r [Hdom Hlen].
    destruct (add_item_effect k v is_eval r) as (_ & _ & _ & _ & Heff).
    destruct is_eval.
    + destruct Heff as [_ [[-> ->] | [(c & n & He & ->)
                                     | (c & n & m & Ha & [[Hnone _] | Hb])]]].
      * done.
      * split; [by rewrite (ensured_dom _ _ _ _ He)|].
        intros c' n'. by rewrite (series_ensured _ _ _ _ c' n' He).
      * destruct Ha as (d & Hd & _).
        assert (Hin : c ∈ dom (Reporter.obs_train r))
          by (apply elem_of_dom; eauto).
        rewrite Hdom in Hin. apply elem_of_dom in Hin as [? Hin].
        by rewrite Hnone in Hin.
      * split.
        { by rewrite (appended_dom _ _ _ _ _ Ha), (appended_dom _ _ _ _ _ Hb). }
        intros c' n'.
        rewrite (series_appended _ _ _ _ _ c' n' Ha),
          (series_appended _ _ _ _ _ c' n' Hb).
        case_decide; [|done]. cbn. rewrite !length_app. cbn.
        by rewrite Hlen.
    + by destruct Heff as (-> & -> & _).
  - by destruct is_eval.
Qed.

Lemma histories_stay_aligned_witness :
  length (default [] (series (Reporter.obs_train
            (Reporter.add [("loss.total", Some (Fin 1))] true
               (Reporter.__init__ "exp" false)).1) "loss" "total"))
  = length (default [] (series (Reporter.obs_dev
              (Reporter.add [("loss.total", Some (Fin 1))] true
                 (Reporter.__init__ "exp" false)).1) "loss" "total")).
Proof.
  apply (histories_stay_aligned
           (Reporter.add [("loss.total", Some (Fin 1))] true
              (Reporter.__init__ "exp" false)).1).
  apply reachable_add, reachable_init.
Defined.

(** X6.  In every reachable reporter the step counter is never negative,
    and [steps] (the x axis of the plots) is strictly increasing with
    every entry between 1 and the counter. *)
Theorem steps_strictly_increase (r : Reporter.t) :
  reachable r ->
  0 <= Reporter._step r
  /\ StronglySorted Z.lt (Reporter.steps r)
  /\ Forall (fun s => 1 <= s <= Reporter._step r) (Reporter.steps r).
Proof.
  induction 1 as [sp tb | r observation is_eval _ IH | r is_eval _ IH].
  - repeat split; [done | constructor | constructor].
  - destruct (add_frame observation r) as [Hsame _].
    destruct (Hsame is_eval) as [-> ->]. done.
  - destruct IH as (H0 & Hsorted & Hall).
    cbn [Reporter.step Reporter._step Reporter.steps].
    split; [lia|]. destruct is_eval.
    + split.
      * apply StronglySorted_app_2; [|done|repeat constructor].
        intros x1 x2 Hx1 Hx2. apply list_elem_of_singleton in Hx2 as ->.
        rewrite Forall_forall in Hall. specialize (Hall x1 Hx1). lia.
      * apply Forall_app. split.
        -- eapply Forall_impl; [exact Hall|]. intros s Hs. cbn in Hs. lia.
        -- repeat constructor; lia.
    + split; [done|].
      eapply Forall_impl; [exact Hall|]. intros s Hs. cbn in Hs. lia.
Qed.

Lemma steps_strictly_increase_witness :
  StronglySorted Z.lt
    (Reporter.steps
       (Reporter.step true
          (Reporter.step false
             (Reporter.step true (Reporter.__init__ "exp" false))))).
Proof.
  apply (steps_strictly_increase
           (Reporter.step true
              (Reporter.step false
                 (Reporter.step true (Reporter.__init__ "exp" false))))).
  repeat apply reachable_step. apply reachable_init.
Defined.

(** X7.  In every reachable reporter each list of the local buffer holds
    at least one value: a name enters the buffer together with its first
    value, so the [np.mean] of an evaluation step never averages an empty
    list. *)
Theorem buffered_lists_are_not_empty (r : Reporter.t) :
  reachable r ->
  forall c n l, series (Reporter.obs_train_local r) c n = Some l -> l <> [].
Proof.
  induction 1 as [sp tb | r observation is_eval _ IH | r is_eval _ IH].
  - intros c n l. cbn. by rewrite series_empty_obs.
  - revert IH.
    apply (add_preserves
             (fun r' => forall c n l,
                series (Reporter.obs_train_local r') c n = Some l -> l <> [])).
    clear r observation. intros k v r IH.
    destruct (add_item_effect k v is_eval r) as (_ & _ & _ & _ & Heff).
    destruct is_eval.
    + by destruct Heff as [-> _].
    + destruct Heff as (_ & _ & _ & [-> | (c & n & Ha)]); [done|].
      intros c' n' l. rewrite (series_appended _ _ _ _ _ c' n' Ha).
      case_decide; [|by apply IH].
      intros [= <-]. by destruct (default [] _).
  - intros c n l. destruct is_eval; cbn; [|by apply IH].
    by rewrite series_empty_obs.
Qed.

Lemma buffered_lists_are_not_empty_witness :
  series (Reporter.obs_train_local
            (Reporter.add [("loss.total", Some (Fin 1))] false
               (Reporter.__init__ "exp" false)).1) "loss" "total" <> Some [].
Proof.
  intros H.
  refine (buffered_lists_are_not_empty
            (Reporter.add [("loss.total", Some (Fin 1))] false
               (Reporter.__init__ "exp" false)).1 _ _ _ _ H eq_refl).
  apply reachable_add, reachable_init.
Defined.

(** ** Reporter.snapshot: the y axis *)

(** The running maximum of the plot loop is a non-negative number or
    [inf]: [max(upper, m)] takes [m] only when [m > upper]. *)
Lemma py_max2_upper (u m : pyfloat) :
  ((exists x, u = Fin x /\ (0 <= x)%R) \/ u = PInf) ->
  (exists x, Snapshot.py_max2 u m = Fin x /\ (0 <= x)%R)
  \/ Snapshot.py_max2 u m = PInf.
Proof.
  unfold Snapshot.py_max2, fgt. intros [(x & -> & Hx) | ->].
  - destruct m as [y| | |]; cbn [flt]; try (left; by exists x).
    + destruct (R_ltb x y) eqn:Hlt.
      * apply R_ltb_lt in Hlt. left. exists y. split; [done|lra].
      * left. by exists x.
    + by right.
  - right. by destruct m.
Qed.

Lemma plot_metric_upper r category name u i out u' i' out' :
  Snapshot.plot_metric r category name (u, i, out) = Ok (u', i', out') ->
  ((exists x, u = Fin x /\ (0 <= x)%R) \/ u = PInf) ->
  (exists x, u' = Fin x /\ (0 <= x)%R) \/ u' = PInf.
Proof.
  unfold Snapshot.plot_metric. intros Hrun Hu.
  destruct (getitem (Reporter.obs_train r) category) as [train_c|]; [|done].
  cbn in Hrun.
  destruct (getitem train_c name) as [train|]; [|done]. cbn in Hrun.
  destruct (feq (np_mean train) (of_int 0)); [by injection Hrun as <- _ _|].
  destruct (Snapshot.linestyle_at i) as [ls|]; [|done]. cbn in Hrun.
  destruct (Snapshot.plt_plot _ train _ _ _) as [p1|]; [|done]. cbn in Hrun.
  destruct (getitem (Reporter.obs_dev r) category) as [dev_c|]; [|done].
  cbn in Hrun.
  destruct (getitem dev_c name) as [dev|]; [|done]. cbn in Hrun.
  destruct (Snapshot.plt_plot _ dev _ _ _) as [p2|]; [|done]. cbn in Hrun.
  destruct (Snapshot.py_max train) as [m|]; [|done]. cbn in Hrun.
  destruct (Snapshot.py_max dev) as [m'|]; [|done]. cbn in Hrun.
  injection Hrun as <- _ _.
  by apply py_max2_upper, py_max2_upper.
Qed.

Lemma plot_metrics_upper r category names :
  forall u i out u' i' out',
    Snapshot.plot_metrics r category names (u, i, out) = Ok (u', i', out') ->
    ((exists x, u = Fin x /\ (0 <= x)%R) \/ u = PInf) ->
    (exists x, u' = Fin x /\ (0 <= x)%R) \/ u' = PInf.
Proof.
  induction names as [|name rest IH]; intros u i out u' i' out' Hrun Hu.
  - by injection Hrun as <- _ _.
  - cbn [Snapshot.plot_metrics] in Hrun.
    destruct (Snapshot.plot_metric r category name (u, i, out))
      as [[[u1 i1] out1]|] eqn:H1; [|done].
    cbn in Hrun. eapply IH; [exact Hrun|].
    by eapply plot_metric_upper.
Qed.

(** X8.  Whenever the plot of a category is drawn, the upper limit handed
    to [plt.ylim] is a number between 10 and 300, whatever was recorded:
    infinite and NaN values included. *)
Theorem ylim_is_between_10_and_300 (r : Reporter.t) (existing : gset string)
    (category : string) (out : list Snapshot.drawing) :
  Snapshot.plot_category r existing category = Ok out ->
  exists upper : R,
    Snapshot.Ylim (Fin 0) (Fin upper) ∈ out
    /\ (10 <= upper <= 300)%R.
Proof.
  unfold Snapshot.plot_category. intros Hrun.
  destruct (getitem (Reporter.obs_train r) category) as [train_c|]; [|done].
  cbn in Hrun.
  destruct (Snapshot.plot_metrics r category _ _) as [[[u i] drawn]|] eqn:Hloop;
    [|done].
  cbn in Hrun. injection Hrun as <-.
  apply plot_metrics_upper in Hloop; [|left; exists 0%R; split; [done|lra]].
  assert (Hlim : exists upper : R,
             Snapshot.py_min2 (fadd u (of_int 10)) (of_int 300) = Fin upper
             /\ (10 <= upper <= 300)%R).
  { unfold Snapshot.py_min2, of_int.
    destruct Hloop as [(x & -> & Hx) | ->]; cbn [fadd flt].
    - destruct (R_ltb 300 (x + 10)) eqn:Hlt.
      + exists 300%R. split; [done|lra].
      + apply R_ltb_ge in Hlt. exists (x + 10)%R. split; [done|lra].
    - exists 300%R. split; [done|lra]. }
  destruct Hlim as (upper & Hupper & Hrange).
  exists upper. split; [|done].
  rewrite Hupper. apply elem_of_app. right.
  do 2 constructor 2. constructor 1.
Qed.

(** [ylim_is_between_10_and_300] at work: after a training iteration with
    the loss 400 and an evaluation step with the dev loss 2, the plot of
    the losses is drawn and capped. *)
Lemma ylim_is_between_10_and_300_witness :
  let r := (record_and_advance "loss.total" (Fin 2) true
              (record_and_advance "loss.total" (Fin 400) false
                 (Reporter.__init__ "exp" false)).1).1 in
  exists out upper,
    Snapshot.plot_category r ∅ "loss" = Ok out
    /\ Snapshot.Ylim (Fin 0) (Fin upper) ∈ out
    /\ (10 <= upper <= 300)%R.
Proof.
  intros r.
  assert (exists out, Snapshot.plot_category r ∅ "loss" = Ok out)
    as [out Hout].
  { assert (Ht : Reporter.obs_train r
                 = <["loss" := <["total" := [np_mean [Fin 400]]]> ∅]>
                     Reporter.empty_obs) by reflexivity.
    assert (Hd : Reporter.obs_dev r
                 = <["loss" := <["total" := [Fin 2]]> ∅]> Reporter.empty_obs)
      by reflexivity.
    assert (Hs : Reporter.steps r = [2]) by reflexivity.
    assert (Hp : Reporter.save_path r = "exp") by reflexivity.
    assert (Hm : np_mean [Fin 400] = Fin (400 / 1)).
    { unfold np_mean, np_sum. simpl. decide_R. f_equal. lra. }
    clearbody r.
    unfold Snapshot.plot_category, getitem. rewrite Ht, lookup_insert_eq.
    cbn [mbind result_bind].
    change (Snapshot.sorted_names _) with ["total"].
    cbn [Snapshot.plot_metrics]. unfold Snapshot.plot_metric, getitem.
    rewrite Ht, Hd, Hs, Hp, !lookup_insert_eq. cbn [mbind result_bind].
    rewrite !lookup_insert_eq. cbn [mbind result_bind]. rewrite Hm.
    eexists. unfold np_mean, np_sum, of_int, Snapshot.py_max2, fgt.
    repeat (simpl; decide_R). reflexivity. }
  destruct (ylim_is_between_10_and_300 r ∅ "loss" out Hout)
    as (upper & Hin & Hrange).
  exists out, upper. split; [exact Hout|]. split; [exact Hin | exact Hrange].
Defined.

(** ** Controller: what a decay loop keeps *)

Lemma decay_lr_counter (self : Controller.t) optimizer lr epoch value :
  0 <= Controller.not_improved_epoch self
    <= Controller.decay_patient_epoch self ->
  let self' := (Controller.decay_lr self optimizer lr epoch value).1 in
  0 <= Controller.not_improved_epoch self'
    <= Controller.decay_patient_epoch self'
  /\ Controller.decay_patient_epoch self'
     = Controller.decay_patient_epoch self.
Proof.
  intros Hc. unfold Controller.decay_lr.
  destruct (epoch <? _); destruct (String.eqb _ "metric");
    try destruct (flt _ _);
    try destruct (Z.ltb_spec (Controller.not_improved_epoch self)
                    (Controller.decay_patient_epoch self));
    try destruct (String.eqb _ "epoch"); cbn; lia.
Qed.

(** X9.  A controller constructed with a patience of at least 0 keeps its
    not-improved counter between 0 and [decay_patient_epoch] through every
    sequence of [decay_lr] calls, whatever the policy, the epochs and the
    values. *)
Theorem counter_stays_within_patience
    (learning_rate decay_rate best_value warmup_start factor : pyfloat)
    (decay_type : string)
    (decay_start_epoch decay_patient_epoch model_size warmup_nsteps : Z)
    (lower_better : bool) (self : Controller.t) :
  0 <= decay_patient_epoch ->
  Controller.__init__ learning_rate decay_type decay_start_epoch decay_rate
    decay_patient_epoch lower_better best_value model_size warmup_start
    warmup_nsteps factor = Ok self ->
  forall optimizer lr calls,
    0 <= Controller.not_improved_epoch
           (Controller.decay_loop self optimizer lr calls).1
      <= decay_patient_epoch.
Proof.
  intros Hp Hinit optimizer lr calls.
  assert (Hself : 0 <= Controller.not_improved_epoch self
                    <= Controller.decay_patient_epoch self
                  /\ Controller.decay_patient_epoch self = decay_patient_epoch).
  { revert Hinit. unfold Controller.__init__.
    destruct (_ && _); [done|]. intros [= <-]. cbn. lia. }
  clear Hinit. revert self optimizer lr Hself.
  induction calls as [|[epoch value] rest IH]; intros self optimizer lr [Hc Heq].
  - cbn. lia.
  - cbn [Controller.decay_loop].
    pose proof (decay_lr_counter self optimizer lr epoch value Hc) as Hstep.
    destruct (Controller.decay_lr self optimizer lr epoch value)
      as [self' [optimizer' lr']].
    cbn [fst] in Hstep. apply IH. split; [apply Hstep|].
    destruct Hstep as [_ ->]. done.
Qed.

Lemma counter_stays_within_patience_witness :
  0 <= Controller.not_improved_epoch
         (Controller.decay_loop
            {| Controller.lr_max := Fin 1;
               Controller.decay_type := "metric";
               Controller.decay_start_epoch := 0;
               Controller.decay_rate := Fin (1 / 2);
               Controller.decay_patient_epoch := 2;
               Controller.not_improved_epoch := 0;
               Controller.lower_better := true;
               Controller.best_value := Fin 10;
               Controller.lr_init := Fin 1;
               Controller.warmup_start_lr := Fin 0;
               Controller.warmup_nsteps := 0 |}
            sgd_optimizer (Fin 1) [(0, Fin 20); (1, NaN); (2, PInf)]).1
    <= 2.
Proof.
  refine (counter_stays_within_patience (Fin 1) (Fin (1 / 2)) (Fin 10)
            (Fin 0) (Fin 1) "metric" 0 2 1 0 true _ _ eq_refl
            sgd_optimizer (Fin 1) [(0, Fin 20); (1, NaN); (2, PInf)]).
  lia.
Defined.

(** X10.  Under the plateau policy [best_value] is the running minimum of
    the metric as the controller compares it (negated when higher is
    better): after any sequence of calls, before or after
    [decay_start_epoch] alike, it is the least of the initial best value
    and the adjusted values seen. *)
Theorem best_value_is_running_minimum (self : Controller.t) (best : R)
    (calls : list (Z * R)) :
  Controller.decay_type self = "metric" ->
  Controller.best_value self = Fin best ->
  forall optimizer lr,
    let self' :=
      (Controller.decay_loop self optimizer lr
         (map (fun c => (c.1, Fin c.2)) calls)).1 in
    Controller.best_value self'
    = Fin (fold_left Rmin
             (map (fun c => adjusted (Controller.lower_better self) c.2) calls)
             best).
Proof.
  intros Ht. revert self best Ht.
  induction calls as [|[epoch v] rest IH]; intros self best Ht Hb optimizer lr.
  - done.
  - cbn [map fold_left fst snd Controller.decay_loop].
    set (v' := adjusted (Controller.lower_better self) v).
    assert (Hstep :
      exists self' optimizer' lr',
        Controller.decay_lr self optimizer lr epoch (Fin v)
        = (self', (optimizer', lr'))
        /\ Controller.decay_type self' = "metric"
        /\ Controller.lower_better self' = Controller.lower_better self
        /\ Controller.best_value self' = Fin (Rmin best v')).
    { unfold Controller.decay_lr. rewrite Ht, Hb. cbn [String.eqb].
      replace (if negb (Controller.lower_better self)
               then fmul (Fin v) (of_int (-1)) else Fin v)
        with (Fin v') by (subst v'; by destruct (Controller.lower_better self)).
      cbn [flt]. unfold Rmin, R_ltb.
      destruct (Rlt_dec v' best), (Rle_dec best v'), (epoch <? _);
        try destruct (_ <? _); do 3 eexists; (split; [reflexivity|]);
        cbn; repeat split; try done; f_equal; lra. }
    destruct Hstep as (self' & optimizer' & lr' & -> & Ht' & Hl' & Hb').
    rewrite <- Hl'. by apply IH.
Qed.

Lemma best_value_is_running_minimum_witness :
  Controller.best_value
    (Controller.decay_loop plateau_controller sgd_optimizer (Fin 1)
       (map (fun c : Z * R => (c.1, Fin c.2)) [(0, 5%R); (1, 2%R); (2, 4%R)])).1
  = Fin (fold_left Rmin
           (map (fun c : Z * R => adjusted true c.2)
                [(0, 5%R); (1, 2%R); (2, 4%R)]) 3%R).
Proof.
  exact (best_value_is_running_minimum plateau_controller 3%R
           [(0, 5%R); (1, 2%R); (2, 4%R)] eq_refl eq_refl
           sgd_optimizer (Fin 1)).
Defined.

Lemma decay_lr_static (self : Controller.t) optimizer lr epoch value :
  let self' := (Controller.decay_lr self optimizer lr epoch value).1 in
  Controller.decay_rate self' = Controller.decay_rate self
  /\ Controller.decay_type self' = Controller.decay_type self.
Proof.
  unfold Controller.decay_lr.
  repeat match goal with
         | |- context [if ?b then _ else _] => destruct b
         end; done.
Qed.

(** X11.  With a decay rate between 0 and 1 the rate never grows and never
    turns negative: whatever the policy, the epochs and the metric values
    (infinite and NaN included), a loop of [decay_lr] calls started at a
    rate [lr >= 0] ends at a rate between 0 and [lr]. *)
Theorem decay_never_raises_the_rate (self : Controller.t) (lr r : R)
    (calls : list (Z * pyfloat)) :
  Controller.decay_rate self = Fin r ->
  (0 <= r <= 1)%R -> (0 <= lr)%R ->
  forall optimizer,
  exists lr' : R,
    (Controller.decay_loop self optimizer (Fin lr) calls).2.2 = Fin lr'
    /\ (0 <= lr' <= lr)%R.
Proof.
  intros Hr Hrange. revert self lr Hr.
  induction calls as [|[epoch value] rest IH]; intros self lr Hr Hlr optimizer.
  - exists lr. split; [done|lra].
  - cbn [Controller.decay_loop].
    pose proof (decay_lr_static self optimizer (Fin lr) epoch value) as [Hr' _].
    assert (Hstep : exists l1 : R,
               (Controller.decay_lr self optimizer (Fin lr) epoch value).2.2
               = Fin l1 /\ (0 <= l1 <= lr)%R).
    { unfold Controller.decay_lr. rewrite Hr.
      repeat match goal with
             | |- context [if ?b then _ else _] => destruct b
             end; cbn [fst snd fmul]; eexists; (split; [reflexivity|]); nra. }
    destruct (Controller.decay_lr self optimizer (Fin lr) epoch value)
      as [self' [optimizer' lr1]].
    cbn [fst snd] in Hr', Hstep. destruct Hstep as (l1 & -> & Hl1).
    destruct (IH self' l1) with (optimizer := optimizer')
      as (lr' & Hloop & Hlr'); [by rewrite Hr' | lra |].
    exists lr'. split; [done|lra].
Qed.

Lemma decay_never_raises_the_rate_witness :
  exists lr' : R,
    (Controller.decay_loop plateau_controller sgd_optimizer (Fin 1)
       [(0, Fin 7); (1, NaN); (2, PInf); (3, Fin 7)]).2.2 = Fin lr'
    /\ (0 <= lr' <= 1)%R.
Proof.
  refine (decay_never_raises_the_rate plateau_controller 1 (1 / 2)
            [(0, Fin 7); (1, NaN); (2, PInf); (3, Fin 7)] eq_refl _ _
            sgd_optimizer); lra.
Defined.

(** X12.  A decay type other than ["metric"] and ["epoch"] (["warmup"], or
    a misspelt name) is not rejected: every [decay_lr] call returns the
    controller, the optimizer and the rate as they were. *)
Theorem unknown_decay_type_is_ignored (self : Controller.t)
    (calls : list (Z * pyfloat)) :
  Controller.decay_type self <> "metric" ->
  Controller.decay_type self <> "epoch" ->
  forall optimizer lr,
    Controller.decay_loop self optimizer lr calls = (self, (optimizer, lr)).
Proof.
  intros Hm He optimizer lr.
  apply String.eqb_neq in Hm, He.
  induction calls as [|[epoch value] rest IH]; [done|].
  cbn [Controller.decay_loop]. unfold Controller.decay_lr.
  rewrite Hm, He. by destruct (epoch <? _).
Qed.

Lemma unknown_decay_type_is_ignored_witness :
  Controller.decay_loop warmup_controller adadelta_optimizer (Fin 1)
    [(0, Fin 3); (1, Fin 5)]
  = (warmup_controller, (adadelta_optimizer, Fin 1)).
Proof.
  by apply (unknown_decay_type_is_ignored warmup_controller
              [(0, Fin 3); (1, Fin 5)]).
Defined.

(** ** Controller: the shape of the warm-up *)

(** X13.  A controller constructed with a positive warm-up start rate and
    at least one warm-up step ramps linearly: [warmup_lr] returns the
    start rate at step 0 and [learning_rate] at step [warmup_nsteps], and
    in between (the start rate not being above [learning_rate]) a rate
    between the two. *)
Theorem linear_warmup_reaches_learning_rate
    (learning_rate warmup_start : R) (decay_rate best_value factor : pyfloat)
    (decay_type : string)
    (decay_start_epoch decay_patient_epoch model_size warmup_nsteps : Z)
    (lower_better : bool) (self : Controller.t) :
  (0 < warmup_start)%R -> 1 <= warmup_nsteps ->
  Controller.__init__ (Fin learning_rate) decay_type decay_start_epoch
    decay_rate decay_patient_epoch lower_better best_value model_size
    (Fin warmup_start) warmup_nsteps factor = Ok self ->
  forall optimizer lr,
    (exists r0 : R,
        snd <$> Controller.warmup_lr self optimizer lr 0 = Ok (Fin r0)
        /\ r0 = warmup_start)
    /\ (exists rn : R,
          snd <$> Controller.warmup_lr self optimizer lr warmup_nsteps
          = Ok (Fin rn)
          /\ rn = learning_rate)
    /\ (forall step,
          (warmup_start <= learning_rate)%R ->
          0 <= step <= warmup_nsteps ->
          exists rs : R,
            snd <$> Controller.warmup_lr self optimizer lr step = Ok (Fin rs)
            /\ (warmup_start <= rs <= learning_rate)%R).
Proof.
  intros Hw Hn. unfold Controller.__init__.
  destruct (Z.ltb_spec 0 warmup_nsteps) as [_|]; [|lia].
  rewrite andb_false_r. unfold fgt. cbn [flt].
  rewrite (proj2 (R_ltb_lt 0 warmup_start)) by done.
  intros [= <-] optimizer lr.
  assert (Hlin : forall step,
             snd <$> Controller.warmup_lr
                       {| Controller.lr_max := Fin learning_rate;
                          Controller.decay_type := decay_type;
                          Controller.decay_start_epoch := decay_start_epoch;
                          Controller.decay_rate := decay_rate;
                          Controller.decay_patient_epoch := decay_patient_epoch;
                          Controller.not_improved_epoch := 0;
                          Controller.lower_better := lower_better;
                          Controller.best_value := best_value;
                          Controller.lr_init := Fin warmup_start;
                          Controller.warmup_start_lr := Fin warmup_start;
                          Controller.warmup_nsteps := warmup_nsteps |}
                       optimizer lr step
             = Ok (Fin ((learning_rate + - warmup_start) / IZR warmup_nsteps
                        * IZR step + warmup_start))).
  { intros step.
    match goal with
    | |- context [Controller.warmup_lr ?s _ _ _] =>
        refine (warmup_lr_linear s optimizer lr step warmup_start
                  learning_rate warmup_start eq_refl Hw eq_refl eq_refl _)
    end.
    cbn. lia. }
  pose proof (IZR_pos warmup_nsteps Hn) as Hpos.
  split; [|split].
  - eexists. split; [apply Hlin|]. lra.
  - eexists. split; [apply Hlin|]. field. lra.
  - intros step Hle [Hs0 Hsn]. eexists. split; [apply Hlin|].
    assert (H0 : (0 <= IZR step)%R) by (by apply IZR_le).
    assert (H1 : (IZR step <= IZR warmup_nsteps)%R) by (by apply IZR_le).
    assert (Hq : (0 <= IZR step / IZR warmup_nsteps <= 1)%R).
    { split; [by apply Rle_mult_inv_pos|].
      apply (Rmult_le_reg_r (IZR warmup_nsteps)); [done|].
      unfold Rdiv. rewrite Rmult_assoc, Rinv_l by lra. lra. }
    replace ((learning_rate + - warmup_start) / IZR warmup_nsteps * IZR step
             + warmup_start)%R
      with ((learning_rate - warmup_start) * (IZR step / IZR warmup_nsteps)
            + warmup_start)%R by (field; lra).
    nra.
Qed.

Lemma linear_warmup_reaches_learning_rate_witness :
  exists rn : R,
    snd <$> Controller.warmup_lr
              {| Controller.lr_max := Fin 1;
                 Controller.decay_type := "warmup";
                 Controller.decay_start_epoch := 0;
                 Controller.decay_rate := Fin (1 / 2);
                 Controller.decay_patient_epoch := 1;
                 Controller.not_improved_epoch := 0;
                 Controller.lower_better := true;
                 Controller.best_value := Fin 10000;
                 Controller.lr_init :=
                   if fgt (Fin (1 / 10)) (Fin 0) then Fin (1 / 10)
                   else fmul (Fin 1) (np_power 1 (- (1 / 2)));
                 Controller.warmup_start_lr := Fin (1 / 10);
                 Controller.warmup_nsteps := 100 |}
              sgd_optimizer (Fin 1) 100 = Ok (Fin rn)
    /\ rn = 1%R.
Proof.
  refine (proj1 (proj2 (linear_warmup_reaches_learning_rate 1 (1 / 10)
                          (Fin (1 / 2)) (Fin 10000) (Fin 1) "warmup" 0 1 1 100
                          true _ _ _ eq_refl sgd_optimizer (Fin 1))));
    first [lra | lia].
Defined.

(** X14.  A positive warm-up start rate with [warmup_nsteps = 0] is
    accepted by the constructor for every decay type but ["warmup"], and
    every [warmup_lr] call on such a controller raises
    [ZeroDivisionError]. *)
Theorem linear_warmup_over_zero_steps_raises
    (learning_rate decay_rate best_value factor : pyfloat) (warmup_start : R)
    (decay_type : string)
    (decay_start_epoch decay_patient_epoch model_size : Z)
    (lower_better : bool) :
  (0 < warmup_start)%R -> decay_type <> "warmup" ->
  exists self,
    Controller.__init__ learning_rate decay_type decay_start_epoch decay_rate
      decay_patient_epoch lower_better best_value model_size
      (Fin warmup_start) 0 factor = Ok self
    /\ forall optimizer lr step,
         Controller.warmup_lr self optimizer lr step = Raise ZeroDivisionError.
Proof.
  intros Hw Hd. apply String.eqb_neq in Hd.
  unfold Controller.__init__. rewrite Hd. cbn [andb Z.ltb Z.compare].
  eexists. split; [reflexivity|].
  intros optimizer lr step. unfold Controller.warmup_lr, fgt.
  cbn [Controller.warmup_start_lr Controller.warmup_nsteps flt].
  rewrite (proj2 (R_ltb_lt 0 warmup_start)) by done.
  unfold py_truediv, of_int. cbn [feq].
  by rewrite (proj2 (R_eqb_eq 0 0)).
Qed.

Lemma linear_warmup_over_zero_steps_raises_witness :
  exists self,
    Controller.__init__ (Fin 1) "epoch" 0 (Fin (1 / 2)) 1 true (Fin 10000) 1
      (Fin (1 / 10)) 0 (Fin 1) = Ok self
    /\ forall optimizer lr step,
         Controller.warmup_lr self optimizer lr step = Raise ZeroDivisionError.
Proof.
  apply (linear_warmup_over_zero_steps_raises (Fin 1) (Fin (1 / 2))
           (Fin 10000) (Fin 1) (1 / 10) "epoch" 0 1 1 true); [lra | done].
Defined.

Lemma Rpower_antitone (a b y : R) :
  (0 < a)%R -> (a <= b)%R -> (y < 0)%R -> (Rpower b y <= Rpower a y)%R.
Proof.
  intros Ha Hab Hy. destruct (Req_dec a b) as [->|Hne]; [lra|].
  unfold Rpower. left. apply exp_increasing.
  assert (ln a < ln b)%R by (apply ln_increasing; lra).
  nra.
Qed.

(** X15.  On the inverse-square-root schedule with a non-negative
    [lr_init], the rate grows linearly in [step] up to [warmup_nsteps]
    ([lr_init * step * warmup_nsteps^-1.5]), decays as
    [lr_init * step^-0.5] from there on, and at no step from 1 on exceeds
    its value at [step = warmup_nsteps]. *)
Theorem inverse_sqrt_schedule_peaks_at_warmup_end (self : Controller.t)
    (li : R) (step : Z) :
  fgt (Controller.warmup_start_lr self) (Fin 0) = false ->
  Controller.lr_init self = Fin li -> (0 <= li)%R ->
  1 <= Controller.warmup_nsteps self -> 1 <= step ->
  forall optimizer lr,
  exists rate : R,
    snd <$> Controller.warmup_lr self optimizer lr step = Ok (Fin rate)
    /\ (step <= Controller.warmup_nsteps self ->
        rate = (li * (IZR step
                      * Rpower (IZR (Controller.warmup_nsteps self))
                               (- (3 / 2))))%R)
    /\ (Controller.warmup_nsteps self <= step ->
        rate = (li * Rpower (IZR step) (- (1 / 2)))%R)
    /\ (rate <= li * Rpower (IZR (Controller.warmup_nsteps self))
                           (- (1 / 2)))%R.
Proof.
  intros Hb Hi Hli Hn Hs optimizer lr.
  set (n := Controller.warmup_nsteps self) in *.
  pose proof (IZR_pos n Hn) as Hnpos.
  pose proof (IZR_pos step Hs) as Hspos.
  pose proof (Rpower_pos (IZR n) (- (3 / 2))) as Hp32.
  pose proof (Rpower_pos (IZR step) (- (1 / 2))) as Hp12.
  pose proof (Rpower_arms_meet (IZR n) Hnpos) as Hmeet_n.
  pose proof (Rpower_arms_meet (IZR step) Hspos) as Hmeet_s.
  eexists. split; [by apply warmup_lr_inverse_sqrt_real|].
  fold n. split; [|split].
  - intros Hle. apply IZR_le in Hle.
    assert (Hanti : (Rpower (IZR n) (- (3 / 2))
                     <= Rpower (IZR step) (- (3 / 2)))%R)
      by (apply Rpower_antitone; lra).
    rewrite Rmin_right; [done|].
    rewrite <- Hmeet_s. apply Rmult_le_compat_l; lra.
  - intros Hge. apply IZR_le in Hge.
    assert (Hanti : (Rpower (IZR step) (- (3 / 2))
                     <= Rpower (IZR n) (- (3 / 2)))%R)
      by (apply Rpower_antitone; lra).
    rewrite Rmin_left; [done|].
    rewrite <- Hmeet_s. apply Rmult_le_compat_l; lra.
  - apply Rmult_le_compat_l; [done|].
    destruct (Z.le_ge_cases step n) as [Hle|Hge].
    + apply IZR_le in Hle.
      eapply Rle_trans; [apply Rmin_r|].
      rewrite <- Hmeet_n. apply Rmult_le_compat_r; lra.
    + apply IZR_le in Hge.
      eapply Rle_trans; [apply Rmin_l|].
      apply Rpower_antitone; lra.
Qed.

Lemma inverse_sqrt_schedule_peaks_at_warmup_end_witness :
  exists rate : R,
    snd <$> Controller.warmup_lr warmup_controller sgd_optimizer (Fin 1) 9000
    = Ok (Fin rate)
    /\ (rate <= 1 * Rpower 4000 (- (1 / 2)))%R.
Proof.
  destruct (inverse_sqrt_schedule_peaks_at_warmup_end warmup_controller 1
              9000) with (optimizer := sgd_optimizer) (lr := Fin 1)
    as (rate & Hrate & _ & _ & Hpeak).
  - unfold fgt. cbn. apply R_ltb_ge. lra.
  - reflexivity.
  - lra.
  - cbn. lia.
  - lia.
  - exists rate. split; [exact Hrate | exact Hpeak].
Defined.

(** ** Error-rate scorer: what is counted *)





Lemma split_on_head_no_sep (sep : ascii) (s : string) :
  count_char sep s = 0%nat -> split_on sep s = [s].
Proof.
  induction s as [|c rest IH]; [done|].
  cbn [count_char split_on]. destruct (Ascii.eqb c sep); [done|].
  intros H0. by rewrite IH.
Qed.

Lemma split_on_head_cut (sep : ascii) (s tail : string) :
  count_char sep s = 0%nat ->
  hd EmptyString (split_on sep (s +:+ String sep tail)) = s.
Proof.
  induction s as [|c rest IH].
  - intros _. change (hd EmptyString (split_on sep (String sep tail)) = "").
    cbn [split_on]. by rewrite Ascii.eqb_refl.
  - cbn [count_char]. destruct (Ascii.eqb c sep) eqn:Hc; [done|].
    intros H0. specialize (IH H0).
    change (String c rest +:+ String sep tail)
      with (String c (rest +:+ String sep tail)).
    cbn [split_on]. rewrite Hc.
    destruct (split_on sep (rest +:+ String sep tail)) as [|w ws];
      cbn in *; by subst.
Qed.

(** X17.  For an attention model the hypothesis is cut at its first
    end-of-sequence label: whatever follows the first [>] has no effect on
    the totals. *)
Theorem attention_ignores_text_after_eos
    (compute_wer : list string -> list string -> result (Z * Z * Z * Z))
    (words : bool) (t : Cer.tally) (ref hyp tail : string) :
  count_char ">" hyp = 0%nat ->
  Cer.score_utterance compute_wer true words t (ref, hyp +:+ String ">" tail)
  = Cer.score_utterance compute_wer true words t (ref, hyp).
Proof.
  intros Hno. unfold Cer.score_utterance. cbn [fst snd].
  rewrite split_on_head_cut by done.
  by rewrite (split_on_head_no_sep ">" hyp Hno).
Qed.

Lemma attention_ignores_text_after_eos_witness :
  Cer.score_utterance score_identical true true Cer.zero_tally
    ("ab_c", "ab_c" +:+ String ">" "zzz>z")
  = Cer.score_utterance score_identical true true Cer.zero_tally
      ("ab_c", "ab_c").
Proof.
  by apply (attention_ignores_text_after_eos score_identical true
              Cer.zero_tally "ab_c" "ab_c" "zzz>z").
Defined.

(** X18.  If every edit count the scorer returns is the sum of its
    substitutions, insertions and deletions, so are the totals of a pass,
    at the character level and at the word level. *)
Theorem totals_are_sums_of_edit_classes
    (compute_wer : list string -> list string -> result (Z * Z * Z * Z))
    (s : Cer.setting) (ti : Z) (utterances : list (string * string)) :
  (forall ref hyp n sub ins del,
      compute_wer ref hyp = Ok (n, sub, ins, del) -> n = sub + ins + del) ->
  let t := Cer.accumulate compute_wer s ti utterances in
  Cer.cer t = Cer.sub_char t + Cer.ins_char t + Cer.del_char t
  /\ Cer.wer t = Cer.sub_word t + Cer.ins_word t + Cer.del_word t.
Proof.
  intros Hsum. unfold Cer.accumulate.
  generalize (match last (Cer.model_types s) with
              | Some m => contains "attention" m
              | None => false
              end) (Cer.scores_words s ti). intros attention words.
  enough (Hfold : forall t,
             Cer.cer t = Cer.sub_char t + Cer.ins_char t + Cer.del_char t
             /\ Cer.wer t = Cer.sub_word t + Cer.ins_word t + Cer.del_word t ->
             let t' := fold_left
                         (Cer.score_utterance compute_wer attention words)
                         utterances t in
             Cer.cer t' = Cer.sub_char t' + Cer.ins_char t' + Cer.del_char t'
             /\ Cer.wer t' = Cer.sub_word t' + Cer.ins_word t'
                             + Cer.del_word t')
    by (by apply Hfold).
  induction utterances as [|u rest IH]; intros t Ht; [done|].
  cbn [fold_left]. apply IH. unfold Cer.score_utterance.
  destruct words.
  - destruct (compute_wer (split_on "_" _) _) as [[[[n1 s1] i1] d1]|] eqn:H1;
      destruct (compute_wer (chars _) _) as [[[[n2 s2] i2] d2]|] eqn:H2;
      cbn; try apply Hsum in H1; try apply Hsum in H2; lia.
  - destruct (compute_wer (chars _) _) as [[[[n2 s2] i2] d2]|] eqn:H2;
      cbn; try apply Hsum in H2; lia.
Qed.

Lemma totals_are_sums_of_edit_classes_witness :
  Cer.cer (Cer.accumulate score_identical ctc_kanji_wb 0
             [("ab_c", "ab_c"); ("d", "e")])
  = Cer.sub_char (Cer.accumulate score_identical ctc_kanji_wb 0
                    [("ab_c", "ab_c"); ("d", "e")])
    + Cer.ins_char (Cer.accumulate score_identical ctc_kanji_wb 0
                      [("ab_c", "ab_c"); ("d", "e")])
    + Cer.del_char (Cer.accumulate score_identical ctc_kanji_wb 0
                      [("ab_c", "ab_c"); ("d", "e")]).
Proof.
  refine (proj1 (totals_are_sums_of_edit_classes score_identical ctc_kanji_wb
                   0 [("ab_c", "ab_c"); ("d", "e")] _)).
  intros ref hyp n sub ins del. unfold score_identical.
  destruct (bool_decide (ref = hyp)); [|done]. by intros [= <- <- <- <-].
Defined.

(** X19.  An utterance for which the scorer raises on both the word pair
    and the character pair is dropped without trace: the totals of the
    pass are those of the pass without it. *)
Theorem raising_utterance_is_dropped
    (compute_wer : list string -> list string -> result (Z * Z * Z * Z))
    (s : Cer.setting) (ti : Z) (before after : list (string * string))
    (u : string * string) :
  let attention := match last (Cer.model_types s) with
                   | Some m => contains "attention" m
                   | None => false
                   end in
  let ref := squeeze_spaces (remove_garbage u.1) in
  let hyp := squeeze_spaces
               (remove_garbage
                  (if attention then hd EmptyString (split_on ">" u.2)
                   else u.2)) in
  (exists e, compute_wer (chars (remove_spaces ref))
                         (chars (remove_spaces hyp)) = Raise e) ->
  (exists e, compute_wer (split_on "_" ref) (split_on "_" hyp) = Raise e) ->
  Cer.accumulate compute_wer s ti (before ++ u :: after)
  = Cer.accumulate compute_wer s ti (before ++ after).
Proof.
  intros attention ref hyp [e1 Hc] [e2 Hw]. unfold Cer.accumulate.
  rewrite !fold_left_app. cbn [fold_left]. f_equal.
  unfold Cer.score_utterance. fold attention. fold ref. fold hyp.
  rewrite Hc, Hw. by destruct (Cer.scores_words s ti).
Qed.

Lemma raising_utterance_is_dropped_witness :
  Cer.accumulate score_identical ctc_kanji_wb 0
    ([("ab_c", "ab_c")] ++ ("d_e", "d_f") :: [("g", "g")])
  = Cer.accumulate score_identical ctc_kanji_wb 0
      ([("ab_c", "ab_c")] ++ [("g", "g")]).
Proof.
  apply (raising_utterance_is_dropped score_identical ctc_kanji_wb 0
           [("ab_c", "ab_c")] [("g", "g")] ("d_e", "d_f")); by eexists.
Defined.

(** X20.  With word boundaries scored and a scorer that returns for every
    pair, every utterance adds at least one word to [num_words], an empty
    reference included (['' .split('_')] has one piece): [num_words] is at
    least the number of utterances, so only [num_chars] can be zero at the
    end of a pass that saw an utterance. *)
Theorem every_scored_utterance_counts_a_word
    (compute_wer : list string -> list string -> result (Z * Z * Z * Z))
    (s : Cer.setting) (ti : Z) (utterances : list (string * string)) :
  (forall ref hyp, exists x, compute_wer ref hyp = Ok x) ->
  Cer.scores_words s ti = true ->
  Z.of_nat (length utterances)
  <= Cer.num_words (Cer.accumulate compute_wer s ti utterances).
Proof.
  intros Htotal Hw. unfold Cer.accumulate. rewrite Hw.
  generalize (match last (Cer.model_types s) with
              | Some m => contains "attention" m
              | None => false
              end). intros attention.
  enough (Hfold : forall t,
             Cer.num_words t + Z.of_nat (length utterances)
             <= Cer.num_words
                  (fold_left (Cer.score_utterance compute_wer attention true)
                             utterances t))
    by (specialize (Hfold Cer.zero_tally); cbn in Hfold; lia).
  induction utterances as [|u rest IH]; intros t; [cbn; lia|].
  cbn [fold_left length]. etrans; [|apply IH].
  assert (Hone : Cer.num_words t + 1
                 <= Cer.num_words
                      (Cer.score_utterance compute_wer attention true t u)).
  { unfold Cer.score_utterance.
    match goal with
    | |- context [compute_wer (split_on "_" ?a) (split_on "_" ?b)] =>
        destruct (Htotal (split_on "_" a) (split_on "_" b))
          as [[[[c2 s2] i2] d2] ->];
        pose proof (split_on_length "_" a) as Hlen
    end.
    match goal with
    | |- context [compute_wer (chars ?a) (chars ?b)] =>
        destruct (Htotal (chars a) (chars b)) as [[[[c1 s1] i1] d1] ->]
    end.
    cbn [Cer.num_words]. lia. }
  lia.
Qed.

Lemma every_scored_utterance_counts_a_word_witness :
  Z.of_nat (length [("@", "a"); ("", "")])
  <= Cer.num_words
       (Cer.accumulate (fun _ _ => Ok (0, 0, 0, 0)) ctc_kanji_wb 0
          [("@", "a"); ("", "")]).
Proof.
  apply (every_scored_utterance_counts_a_word (fun _ _ => Ok (0, 0, 0, 0))
           ctc_kanji_wb 0 [("@", "a"); ("", "")]); [|done].
  intros ref hyp. by eexists.
Defined.

(** ** Dataset index: what the constructor reads *)



(** X22.  A label type that contains none of [kana], [kanji], [word] and
    [phone] is not rejected up front: once the base class and the
    character codec have been constructed, the constructor raises
    [UnboundLocalError] on [dataset_path], before any manifest is read. *)
Theorem unknown_label_type_is_unbound `{C : Dataset.Collaborators}
    (a : Dataset.args) (b : Dataset.Base) (m : Dataset.MapFn) :
  contains "kana" (Dataset.a_label_type a) = false ->
  contains "kanji" (Dataset.a_label_type a) = false ->
  contains "word" (Dataset.a_label_type a) = false ->
  contains "phone" (Dataset.a_label_type a) = false ->
  Dataset.DatasetBase_init (Dataset.a_vocab_file_path a) = Ok b ->
  Dataset.Char2idx (Dataset.a_vocab_file_path a) true = Ok m ->
  Dataset.__init__ a = Raise (UnboundLocalError "dataset_path").
Proof.
  intros H1 H2 H3 H4 Hb Hm. unfold Dataset.__init__, Dataset.dataset_path.
  by rewrite Hb, H1, H2, H3, H4, Hm.
Qed.

Lemma unknown_label_type_is_unbound_witness :
  Dataset.__init__ (C := Dataset.plain_collaborators) grapheme_request
  = Raise (UnboundLocalError "dataset_path").
Proof.
  by apply (unknown_label_type_is_unbound (C := Dataset.plain_collaborators)
              grapheme_request tt "vocab.txt").
Defined.

(** X23.  A constructed dataset starts its epoch with every utterance
    index remaining: [rest] is exactly [range(len(df))]; its batch size is
    the requested one times the number of GPUs; and it is a test set
    exactly for the data types [eval1], [eval2] and [eval3]. *)
Theorem fresh_dataset_has_all_indices `{C : Dataset.Collaborators}
    (a : Dataset.args) (d : Dataset.t) :
  Dataset.__init__ a = Ok d ->
  (forall i : Z,
      i ∈ Dataset.rest d <-> 0 <= i < Dataset.len_df (Dataset.df d))
  /\ Dataset.batch_size d = Dataset.a_batch_size a * Dataset.a_num_gpus a
  /\ (Dataset.is_test d = true
      <-> Dataset.a_data_type a = "eval1" \/ Dataset.a_data_type a = "eval2"
          \/ Dataset.a_data_type a = "eval3").
Proof.
  unfold Dataset.__init__. intros Hinit.
  repeat match type of Hinit with
         | context [mbind _ ?x] =>
             let r := fresh "r" in
             destruct x as [r|]; [cbn in Hinit|done]
         end.
  injection Hinit as <-. cbn. split; [|split; [done|]].
  - intros i. rewrite elem_of_list_to_set, elem_of_seqZ. lia.
  - unfold str_in. cbn [existsb].
    rewrite orb_false_r, !orb_true_iff, !String.eqb_eq. tauto.
Qed.

Lemma fresh_dataset_has_all_indices_witness :
  match Dataset.__init__ (C := Dataset.plain_collaborators) by_path_request
  with
  | Ok d => Dataset.batch_size d = 8 * 2
  | Raise _ => False
  end.
Proof.
  destruct (Dataset.__init__ (C := Dataset.plain_collaborators)
              by_path_request) as [d|e] eqn:Hd.
  - exact (proj1 (proj2 (fresh_dataset_has_all_indices
                           (C := Dataset.plain_collaborators)
                           by_path_request d Hd))).
  - discriminate Hd.
Defined.

(** ** Configuration files *)

Lemma override_inserts {Value} (items : list (string * Value)) :
  forall m : gmap string Value,
    Config.override Value (Config.Mapping Value m) items
    = Ok (Config.Mapping Value
            (foldl (fun acc kv => <[kv.1 := kv.2]> acc) m items)).
Proof.
  induction items as [|[k v] rest IH]; intros m; [done|].
  cbn [Config.override foldl]. apply IH.
Qed.

Lemma foldl_insert_union {Value} (items : list (string * Value)) :
  NoDup items.*1 ->
  forall m : gmap string Value,
    foldl (fun acc kv => <[kv.1 := kv.2]> acc) m items
    = list_to_map items ∪ m.
Proof.
  induction items as [|[k v] rest IH]; intros Hnd m.
  - cbn. by rewrite (left_id_L ∅ (∪)).
  - cbn [fmap list_fmap] in Hnd. apply NoDup_cons in Hnd as [Hk Hnd].
    cbn [foldl fst snd list_to_map foldr]. rewrite IH by done.
    rewrite <- insert_union_l.
    rewrite <- insert_union_r; [done|].
    by apply not_elem_of_list_to_map_1.
Qed.

(** X24.  A configuration file that names a parent is merged with it key
    by key: the loaded parameters are those of the parent overridden by
    those of the child.  Only one level is followed: a [parent] entry of
    the parent file is not read. *)
Theorem child_overrides_parent {Value : Type}
    (yaml_load : string -> result (gmap string (Config.node Value)))
    (fs : gmap string string) (config_path parent_path text parent_text : string)
    (config config_parent : gmap string (Config.node Value))
    (child_params parent_params : gmap string Value) :
  fs !! config_path = Some text ->
  yaml_load text = Ok config ->
  config !! "parent" = Some (Config.Text Value parent_path) ->
  config !! "param" = Some (Config.Mapping Value child_params) ->
  fs !! parent_path = Some parent_text ->
  yaml_load parent_text = Ok config_parent ->
  config_parent !! "param" = Some (Config.Mapping Value parent_params) ->
  exists params,
    Config.load_config Value yaml_load fs config_path
    = Ok (Config.Mapping Value params)
    /\ forall key,
         params !! key = match child_params !! key with
                         | Some v => Some v
                         | None => parent_params !! key
                         end.
Proof.
  intros Hf Hl Hp Hc Hpf Hpl Hpp.
  exists (child_params ∪ parent_params). split.
  - unfold Config.load_config, Config.open_read, getitem.
    rewrite Hf. cbn. rewrite Hl. cbn. rewrite Hp. cbn.
    rewrite Hpf. cbn. rewrite Hpl. cbn. rewrite Hpp. cbn.
    rewrite Hc. cbn.
    rewrite override_inserts, foldl_insert_union
      by apply NoDup_fst_map_to_list.
    by rewrite list_to_map_to_list.
  - intros key. rewrite lookup_union.
    by destruct (child_params !! key), (parent_params !! key).
Qed.

Lemma child_overrides_parent_witness :
  exists params : gmap string Z,
    Config.load_config Z
      (fun text =>
         if String.eqb text "child"
         then Ok (<["parent" := Config.Text Z "base.yml"]>
                    (<["param" := Config.Mapping Z
                                    (<["batch_size" := 16]> ∅)]> ∅))
         else Ok (<["parent" := Config.Text Z "root.yml"]>
                    (<["param" := Config.Mapping Z
                                    (<["batch_size" := 32]>
                                       (<["beam" := 4]> ∅))]> ∅)))
      (<["conf.yml" := "child"]> (<["base.yml" := "base"]> ∅)) "conf.yml"
    = Ok (Config.Mapping Z params)
    /\ forall key,
         params !! key
         = match (<["batch_size" := 16]> ∅ : gmap string Z) !! key with
           | Some v => Some v
           | None => (<["batch_size" := 32]> (<["beam" := 4]> ∅)
                      : gmap string Z) !! key
           end.
Proof.
  eapply (child_overrides_parent _ _ "conf.yml" "base.yml" "child" "base");
    reflexivity.
Defined.

(** X25.  A saved configuration loads back: after [save_config(config,
    save_path)], [load_config] on [save_path/config.yml] returns [config]
    itself, without looking for a parent, provided the YAML library reads
    back the document it wrote. *)
Theorem saved_config_loads_back {Value : Type}
    (yaml_load : string -> result (gmap string (Config.node Value)))
    (yaml_dump : gmap string (Config.node Value) -> string)
    (fs : gmap string string) (config : gmap string Value)
    (save_path : string) :
  yaml_load (yaml_dump (<["param" := Config.Mapping Value config]> ∅))
  = Ok (<["param" := Config.Mapping Value config]> ∅) ->
  Config.load_config Value yaml_load
    (Config.save_config Value yaml_dump config save_path fs)
    (join save_path ["config.yml"])
  = Ok (Config.Mapping Value config).
Proof.
  intros Hround.
  unfold Config.load_config, Config.save_config, Config.open_read, getitem.
  rewrite lookup_insert_eq. cbn [mbind result_bind]. rewrite Hround.
  cbn [mbind result_bind].
  rewrite lookup_insert_ne by done. rewrite lookup_empty.
  by rewrite lookup_insert_eq.
Qed.

Lemma saved_config_loads_back_witness :
  Config.load_config Z
    (fun _ => Ok (<["param" := Config.Mapping Z (<["beam" := 4]> ∅)]> ∅))
    (Config.save_config Z (fun _ => "param: {beam: 4}") (<["beam" := 4]> ∅)
       "exp" ∅)
    (join "exp" ["config.yml"])
  = Ok (Config.Mapping Z (<["beam" := 4]> ∅)).
Proof.
  by apply (saved_config_loads_back
              (fun _ => Ok (<["param" := Config.Mapping Z (<["beam" := 4]> ∅)]> ∅))
              (fun _ => "param: {beam: 4}") ∅ (<["beam" := 4]> ∅) "exp").
Defined.

(** ** Reporter: a whole evaluation cycle *)

Lemma train_run_buffers (k category name : string) (vs : list pyfloat) :
  split_on "." k = [category; name] ->
  forall (r : Reporter.t) (d : gmap string (list pyfloat)),
    Reporter.obs_train_local r !! category = Some d ->
    let r' := train_run k vs r in
    Reporter.obs_train_local r'
    = match vs with
      | [] => Reporter.obs_train_local r
      | _ => <[category := <[name := default [] (d !! name) ++ vs]> d]>
               (Reporter.obs_train_local r)
      end
    /\ Reporter.obs_train r' = Reporter.obs_train r
    /\ Reporter.obs_dev r' = Reporter.obs_dev r
    /\ Reporter._step r' = Reporter._step r + Z.of_nat (length vs)
    /\ Reporter.steps r' = Reporter.steps r.
Proof.
  intros Hk. induction vs as [|v rest IH]; intros r d Hd.
  - cbn. repeat split; try done. lia.
  - cbn [train_run].
    destruct (record_and_advance_train k category name v r d Hk Hd)
      as (r1 & -> & Hl1 & Ht1 & Hd1 & Hs1 & Hx1).
    cbn [fst].
    destruct (IH r1 (<[name := default [] (d !! name) ++ [v]]> d))
      as (Hl & Ht & Hdv & Hs & Hx).
    { rewrite Hl1. apply lookup_insert_eq. }
    cbn zeta. rewrite Ht, Hdv, Hs, Hx, Ht1, Hd1, Hs1, Hx1.
    split; [|repeat split; try done; cbn [length]; lia].
    rewrite Hl, Hl1. destruct rest as [|w rest']; [done|].
    rewrite lookup_insert_eq, !insert_insert_eq. cbn [default].
    unfold Datatypes.id. by rewrite <- app_assoc.
Qed.

(** X26.  An evaluation cycle of any length: after one or more training
    iterations that record a metric not yet in the local buffer, the
    evaluation-step [add] returns, appends the mean of exactly those
    values to the train history and the incoming value to the dev
    history, and leaves the step counter at the number of iterations. *)
Theorem eval_stores_mean_of_the_cycle (k category name : string)
    (v : pyfloat) (vs : list pyfloat) (dev : pyfloat) (r : Reporter.t)
    (dt dl dd : gmap string (list pyfloat)) :
  split_on "." k = [category; name] ->
  Reporter.obs_train r !! category = Some dt ->
  Reporter.obs_train_local r !! category = Some dl ->
  dl !! name = None ->
  Reporter.obs_dev r !! category = Some dd ->
  exists r',
    Reporter.add [(k, Some dev)] true (train_run k (v :: vs) r) = (r', Ok tt)
    /\ series (Reporter.obs_train r') category name
       = Some (default [] (dt !! name) ++ [np_mean (v :: vs)])
    /\ series (Reporter.obs_dev r') category name
       = Some (default [] (dd !! name) ++ [dev])
    /\ Reporter._step r' = Reporter._step r + Z.of_nat (length (v :: vs)).
Proof.
  intros Hk Ht Hl Hn Hd.
  destruct (train_run_buffers k category name (v :: vs) Hk r dl Hl)
    as (Hl' & Ht' & Hd' & Hs' & Hx').
  rewrite Hn in Hl'. cbn [default app] in Hl'.
  destruct (add_eval k category name dev (train_run k (v :: vs) r) dt
              (<[name := v :: vs]> dl) dd (v :: vs) Hk)
    as (r' & Hadd & Htr & Hdv & _ & Hst & _).
  { by rewrite Ht'. }
  { rewrite Hl'. apply lookup_insert_eq. }
  { apply lookup_insert_eq. }
  { by rewrite Hd'. }
  exists r'. split; [done|].
  rewrite Htr, Hdv, !series_insert, Hst, Hs'. done.
Qed.

Lemma eval_stores_mean_of_the_cycle_witness :
  exists r',
    Reporter.add [("acc.total", Some (Fin 1))] true
      (train_run "acc.total" [Fin 2; Fin 4] (Reporter.__init__ "exp" false))
    = (r', Ok tt)
    /\ series (Reporter.obs_train r') "acc" "total"
       = Some ([] ++ [np_mean [Fin 2; Fin 4]])
    /\ series (Reporter.obs_dev r') "acc" "total" = Some ([] ++ [Fin 1])
    /\ Reporter._step r' = 0 + Z.of_nat (length [Fin 2; Fin 4]).
Proof.
  exact (eval_stores_mean_of_the_cycle "acc.total" "acc" "total" (Fin 2)
           [Fin 4] (Fin 1) (Reporter.__init__ "exp" false) ∅ ∅ ∅
           eq_refl eq_refl eq_refl eq_refl eq_refl).
Defined.
